(** * MarginFi lending client: a shallow embedding of [marginfi_lending.py]

    The development follows the Python module top down: the byte-level
    helpers the module takes from [hashlib] and [int.to_bytes], the
    module constants, the [MarginFiClient] methods written in a small
    state-and-exception monad over the client object and the RPC backend,
    and then the properties of the instruction builders, the resolvers,
    the caches and the status report. *)

From Stdlib Require Import ZArith String Ascii Bool List Lia.
From Stdlib Require Import Floats.
Import ListNotations.
Local Open Scope Z_scope.

(** Decimal float literals round to the nearest binary64 value, as in
    Python. *)
#[local] Set Warnings "-inexact-float".

(** ** Bytes

    A Python [bytes] value is a list of integers, each in [0, 256). *)

Definition bytes := list Z.

Definition is_byte (b : Z) : Prop := 0 <= b < 256.

(** [str.encode('utf-8')]: a [string] holds the UTF-8 text of the Python
    [str] it stands for, one [ascii] per encoded byte, so encoding lists
    the bytes in order. *)
Fixpoint encode_utf8 (s : string) : bytes :=
  match s with
  | EmptyString => []
  | String c rest => Z.of_N (N_of_ascii c) :: encode_utf8 rest
  end.

(** [int.to_bytes(n, 'little')] on a value already known to fit: the [n]
    low-order bytes, least significant first. *)
Fixpoint le_bytes (n : nat) (v : Z) : bytes :=
  match n with
  | O => []
  | S k => v mod 256 :: le_bytes k (v / 256)
  end.

(** The big-endian counterpart, used by the hash for lengths and words. *)
Definition be_bytes (n : nat) (v : Z) : bytes := rev (le_bytes n v).

(** ** SHA-256 ([hashlib.sha256], FIPS 180-4) *)

Module Sha256.

Definition wrap (x : Z) : Z := x mod 4294967296.
Definition add32 (x y : Z) : Z := wrap (x + y).
Definition rotr (n x : Z) : Z :=
  wrap (Z.lor (Z.shiftr x n) (Z.shiftl x (32 - n))).
Definition not32 (x : Z) : Z := Z.lxor x 4294967295.

Definition ch (x y z : Z) : Z :=
  Z.lxor (Z.land x y) (Z.land (not32 x) z).
Definition maj (x y z : Z) : Z :=
  Z.lxor (Z.lxor (Z.land x y) (Z.land x z)) (Z.land y z).
Definition bsig0 (x : Z) : Z :=
  Z.lxor (Z.lxor (rotr 2 x) (rotr 13 x)) (rotr 22 x).
Definition bsig1 (x : Z) : Z :=
  Z.lxor (Z.lxor (rotr 6 x) (rotr 11 x)) (rotr 25 x).
Definition ssig0 (x : Z) : Z :=
  Z.lxor (Z.lxor (rotr 7 x) (rotr 18 x)) (Z.shiftr x 3).
Definition ssig1 (x : Z) : Z :=
  Z.lxor (Z.lxor (rotr 17 x) (rotr 19 x)) (Z.shiftr x 10).

(** The first 64 primes. *)
Definition primes : list Z :=
  [ 2; 3; 5; 7; 11; 13; 17; 19; 23; 29; 31; 37; 41; 43; 47; 53;
    59; 61; 67; 71; 73; 79; 83; 89; 97; 101; 103; 107; 109; 113; 127; 131;
    137; 139; 149; 151; 157; 163; 167; 173; 179; 181; 191; 193; 197; 199;
    211; 223; 227; 229; 233; 239; 241; 251; 257; 263; 269; 271; 277; 281;
    283; 293; 307; 311 ].

(** The integer cube root, found bit by bit from bit [k - 1] down. *)
Fixpoint cube_root_from (k : nat) (n r : Z) : Z :=
  match k with
  | O => r
  | S j =>
      let c := r + 2 ^ Z.of_nat j in
      cube_root_from j n (if c * c * c <=? n then c else r)
  end.

Definition cube_root (n : Z) : Z := cube_root_from 40 n 0.

(** Section 4.2.2: the first 32 bits of the fractional parts of the cube
    roots of the first 64 primes. *)
Definition round_constants : list Z :=
  Eval vm_compute in map (fun p => wrap (cube_root (p * 2 ^ 96))) primes.

(** The eight working variables, also the chaining value. *)
Record state := mkState
  { sa : Z; sb : Z; sc : Z; sd : Z; se : Z; sf : Z; sg : Z; sh : Z }.

(** Section 5.3.3: the first 32 bits of the fractional part of the
    square root of a prime. *)
Definition root_word (p : Z) : Z := wrap (Z.sqrt (p * 2 ^ 64)).

Definition initial : state :=
  Eval vm_compute in
    mkState (root_word 2) (root_word 3) (root_word 5) (root_word 7)
            (root_word 11) (root_word 13) (root_word 17) (root_word 19).

(** Padding: a 1 bit, zeros up to 56 mod 64, the bit length on 8 bytes. *)
Definition pad (msg : bytes) : bytes :=
  let n := Z.of_nat (length msg) in
  let zeros := Z.to_nat ((55 - n) mod 64) in
  msg ++ [128] ++ repeat 0 zeros ++ be_bytes 8 (8 * n).

Definition word_of (b0 b1 b2 b3 : Z) : Z :=
  ((b0 * 256 + b1) * 256 + b2) * 256 + b3.

(** Big-endian 32-bit words of a byte string; a trailing partial word
    is dropped (padded input has none). *)
Fixpoint words (bs : bytes) : list Z :=
  match bs with
  | b0 :: b1 :: b2 :: b3 :: rest => word_of b0 b1 b2 b3 :: words rest
  | _ => []
  end.

(** Message schedule: [sched] holds the words built so far, newest
    first; each step adds W[t] from W[t-2], W[t-7], W[t-15], W[t-16]. *)
Definition next_word (sched : list Z) : Z :=
  add32 (add32 (ssig1 (nth 1 sched 0)) (nth 6 sched 0))
        (add32 (ssig0 (nth 14 sched 0)) (nth 15 sched 0)).

Fixpoint extend (n : nat) (sched : list Z) : list Z :=
  match n with
  | O => sched
  | S k => extend k (next_word sched :: sched)
  end.

Definition schedule (block : list Z) : list Z :=
  rev (extend 48 (rev block)).

Definition round (s : state) (kw : Z * Z) : state :=
  let t1 := add32 (add32 (add32 (sh s) (bsig1 (se s)))
                         (add32 (ch (se s) (sf s) (sg s)) (fst kw)))
                  (snd kw) in
  let t2 := add32 (bsig0 (sa s)) (maj (sa s) (sb s) (sc s)) in
  mkState (add32 t1 t2) (sa s) (sb s) (sc s)
          (add32 (sd s) t1) (se s) (sf s) (sg s).

Definition compress (s : state) (block : list Z) : state :=
  let r := fold_left round (combine round_constants (schedule block)) s in
  mkState (add32 (sa s) (sa r)) (add32 (sb s) (sb r))
          (add32 (sc s) (sc r)) (add32 (sd s) (sd r))
          (add32 (se s) (se r)) (add32 (sf s) (sf r))
          (add32 (sg s) (sg r)) (add32 (sh s) (sh r)).

(** Blocks of 16 words; [fuel] bounds the number of blocks. *)
Fixpoint blocks (fuel : nat) (s : state) (ws : list Z) : state :=
  match fuel, ws with
  | S k, _ :: _ => blocks k (compress s (firstn 16 ws)) (skipn 16 ws)
  | _, _ => s
  end.

Definition output (s : state) : bytes :=
  be_bytes 4 (sa s) ++ be_bytes 4 (sb s) ++ be_bytes 4 (sc s) ++
  be_bytes 4 (sd s) ++ be_bytes 4 (se s) ++ be_bytes 4 (sf s) ++
  be_bytes 4 (sg s) ++ be_bytes 4 (sh s).

Definition digest (msg : bytes) : bytes :=
  let ws := words (pad msg) in
  output (blocks (length ws) initial ws).

End Sha256.

(** ** Module constants *)

(** A [Pubkey] is kept as its base58 text. *)
Definition Pubkey := string.

Definition MARGINFI_PROGRAM_ID : Pubkey :=
  "MFv2hWf31Z9kbCa1snEPYctwafyhdvnV7FZnsebVacA"%string.
Definition SOL_MINT_PUBKEY : Pubkey :=
  "So11111111111111111111111111111111111111112"%string.
Definition TOKEN_PROGRAM_ID : Pubkey :=
  "TokenkegQfeZyiNwAJbNbGKPFXCWuBvf9Ss623VQ5DA"%string.
Definition SYSTEM_PROGRAM_ID : Pubkey :=
  "11111111111111111111111111111111"%string.
Definition ASSOCIATED_TOKEN_PROGRAM_ID : Pubkey :=
  "ATokenGPvbdGVxr1b2hvZbsiqW5xWH25efTNsLJA8knL"%string.

(** [calculate_anchor_discriminator]:
    [hashlib.sha256(f"global:{instruction_name}".encode('utf-8')).digest()[:8]]. *)
Definition calculate_anchor_discriminator (instruction_name : string) : bytes :=
  let preimage := encode_utf8 ("global:" ++ instruction_name)%string in
  let hash_result := Sha256.digest preimage in
  firstn 8 hash_result.

(** ** Python values *)

(** The exceptions the module can meet.  Every handler in the module is
    [except Exception] or a bare [except], so the kind never decides a
    branch; it is kept for the reader. *)
Inductive exn : Type :=
| ValueError
| OverflowError
| TypeError
| ZeroDivisionError
| BackendError (detail : string).

(** A result: a value or a raised exception. *)
Inductive Res (A : Type) : Type :=
| Ret (a : A)
| Raise (e : exn).
Arguments Ret {A} a.
Arguments Raise {A} e.

(** Python [float] is IEEE binary64, the kernel's [float]. *)
Definition pyfloat := PrimFloat.float.
Bind Scope float_scope with pyfloat.

(** A number that may be an [int] or a [float] ([sum] starts from the
    [int] 0). *)
Inductive pynum : Type :=
| PyInt (z : Z)
| PyFloat (f : pyfloat).

(** [int(x)] on a float: truncation toward zero; NaN and the infinities
    raise. *)
Definition int_of_float (x : pyfloat) : Res Z :=
  match Prim2SF x with
  | S754_nan => Raise ValueError
  | S754_infinity _ => Raise OverflowError
  | S754_zero _ => Ret 0
  | S754_finite s m e =>
      let mag := if 0 <=? e then Z.pos m * 2 ^ e else Z.pos m / 2 ^ (- e) in
      Ret (if s then - mag else mag)
  end.

(** The conversion of an [int] operand in mixed arithmetic: round to
    nearest even; an integer beyond the float range raises. *)
Definition float_of_int (z : Z) : Res pyfloat :=
  match binary_normalize prec emax z 0 false with
  | S754_infinity _ => Raise OverflowError
  | sf => Ret (SF2Prim sf)
  end.

(** [x > y] and [x < y] on floats. *)
Definition float_gt (x y : pyfloat) : bool := PrimFloat.ltb y x.
Definition float_lt (x y : pyfloat) : bool := PrimFloat.ltb x y.

(** [x / y] on floats: a zero divisor raises. *)
Definition float_truediv (x y : pyfloat) : Res pyfloat :=
  if PrimFloat.eqb y 0 then Raise ZeroDivisionError else Ret (x / y)%float.

(** [sum(values)] over floats: the [int] 0 of an empty sum, else the
    floats added left to right onto it (the module sums at most one
    value). *)
Definition py_sum (values : list pyfloat) : pynum :=
  match values with
  | [] => PyInt 0
  | x :: rest => PyFloat (fold_left PrimFloat.add rest (0 + x)%float)
  end.

(** [int.to_bytes(length, 'little')]: unsigned, raising [OverflowError]
    on a negative value or one that does not fit. *)
Definition int_to_bytes (v : Z) (len : nat) : Res bytes :=
  if (0 <=? v) && (v <? 256 ^ Z.of_nat len)
  then Ret (le_bytes len v)
  else Raise OverflowError.

(** [str.lower] on ASCII letters (the module lowers ticker symbols). *)
Definition lower_ascii (c : ascii) : ascii :=
  let n := N_of_ascii c in
  if (65 <=? n)%N && (n <=? 90)%N then ascii_of_N (n + 32) else c.

Fixpoint lower (s : string) : string :=
  match s with
  | EmptyString => EmptyString
  | String c rest => String (lower_ascii c) (lower rest)
  end.

(** [",".join(parts)]. *)
Fixpoint join_comma (parts : list string) : string :=
  match parts with
  | [] => EmptyString
  | [p] => p
  | p :: rest => (p ++ "," ++ join_comma rest)%string
  end.

(** A [dict] with string keys, in insertion order; lookup takes the first
    binding. *)
Definition dict (V : Type) := list (string * V).

Fixpoint dict_get {V : Type} (d : dict V) (k : string) : option V :=
  match d with
  | [] => None
  | (k', v) :: rest => if String.eqb k' k then Some v else dict_get rest k
  end.

Definition dict_get_default {V : Type} (d : dict V) (k : string) (dflt : V) : V :=
  match dict_get d k with
  | Some v => v
  | None => dflt
  end.

(** ** [Pubkey.from_string]: base58 text of exactly 32 bytes *)

Module Base58.

Definition alphabet : string :=
  "123456789ABCDEFGHJKLMNPQRSTUVWXYZabcdefghijkmnopqrstuvwxyz"%string.

Fixpoint index_from (abc : string) (i : Z) (c : ascii) : option Z :=
  match abc with
  | EmptyString => None
  | String a rest => if Ascii.eqb a c then Some i else index_from rest (i + 1) c
  end.

Definition digit (c : ascii) : option Z := index_from alphabet 0 c.

(** The number the text denotes, most significant digit first. *)
Fixpoint value_from (acc : Z) (s : string) : option Z :=
  match s with
  | EmptyString => Some acc
  | String c rest =>
      match digit c with
      | Some d => value_from (acc * 58 + d) rest
      | None => None
      end
  end.

(** Each leading [1] stands for one leading zero byte. *)
Fixpoint leading_ones (s : string) : Z :=
  match s with
  | String "1"%char rest => 1 + leading_ones rest
  | _ => 0
  end.

Definition byte_length (v : Z) : Z :=
  if v =? 0 then 0 else Z.log2 v / 8 + 1.

Definition decoded_length (s : string) : option Z :=
  match value_from 0 s with
  | Some v => Some (leading_ones s + byte_length v)
  | None => None
  end.

End Base58.

Definition Pubkey_from_string (s : string) : Res Pubkey :=
  match Base58.decoded_length s with
  | Some 32 => Ret s
  | _ => Raise ValueError
  end.

(** ** Ledger objects ([solders], [spl.token]) *)

Record Keypair : Type := mkKeypair
  { pubkey : Pubkey;
    secret : string }.

Record AccountMeta : Type := mkAccountMeta
  { meta_pubkey : Pubkey;
    is_signer : bool;
    is_writable : bool }.

(** An instruction, by the library call that built it.  [Instruction] is
    the generic constructor the module uses for the lending program. *)
Inductive Instruction : Type :=
| set_compute_unit_limit (units : Z)
| set_compute_unit_price (micro_lamports : Z)
| create_account (from_pubkey to_pubkey : Pubkey) (lamports space : Z)
                 (owner : Pubkey)
| initialize_account (program_id account mint owner : Pubkey)
| close_account (account dest owner program_id : Pubkey)
| Instruction_new (program_id : Pubkey) (data : bytes)
                  (accounts : list AccountMeta).

Record Transaction : Type := mkTransaction
  { instructions : list Instruction;
    payer : Pubkey;
    signing_keypairs : list Keypair;
    recent_blockhash : string }.

(** [spl.token.constants.ACCOUNT_LEN]. *)
Definition ACCOUNT_LEN : Z := 165.

(** [AccountMeta(pubkey, is_signer, is_writable)]: a field that is still
    [None] is not a [Pubkey] and the constructor raises. *)
Definition AccountMeta_new (k : option Pubkey) (signer writable : bool)
  : Res AccountMeta :=
  match k with
  | Some p => Ret (mkAccountMeta p signer writable)
  | None => Raise TypeError
  end.

(** [create_account(CreateAccountParams(...))]: [lamports] is a [u64]. *)
Definition create_account_checked (from_pubkey to_pubkey : Pubkey)
    (lamports space : Z) (owner : Pubkey) : Res Instruction :=
  if (0 <=? lamports) && (lamports <? 2 ^ 64)
  then Ret (create_account from_pubkey to_pubkey lamports space owner)
  else Raise OverflowError.

(** ** The RPC backend and the price API *)

(** [account_info.value]: owner and data of an account. *)
Record Account : Type := mkAccount
  { account_owner : Pubkey;
    account_data : bytes }.

(** An entry of [get_program_accounts]. *)
Record KeyedAccount : Type := mkKeyedAccount
  { keyed_pubkey : Pubkey;
    keyed_account : Account }.

(** The JSON body of a price reply: coin id, then currency. *)
Definition price_json := dict (dict pyfloat).

Record HttpResponse : Type := mkHttpResponse
  { status_code : Z;
    json : Res price_json }.

(** A seed of [Pubkey.find_program_address]. *)
Inductive seed : Type :=
| SeedBytes (b : bytes)
| SeedPubkey (k : Pubkey).

(** What the client does not compute itself: the answers of the RPC node
    and of the price API (a value or an exception), the keypairs
    [Keypair()] draws, and the library's address derivation. *)
Record Env : Type := mkEnv
  { get_account_info : Pubkey -> Res (option Account);
    get_program_accounts : Pubkey -> Res (option (list KeyedAccount));
    get_balance : Pubkey -> Res Z;
    get_latest_blockhash : Res string;
    get_minimum_balance_for_rent_exemption : Z -> Res Z;
    send_transaction : Transaction -> Res string;
    requests_get : string -> dict string -> Res HttpResponse;
    fresh_keypair : nat -> Keypair;
    find_program_address : list seed -> Pubkey -> Pubkey * Z }.

(** The three protocol entities the client resolves. *)
Inductive Entity : Type := Group | Bank | LendingAccount.

(** What an operation does to the outside, in order: each resolver
    announces itself on entry (its first [print]), and each request to
    the node or to the price API is one event. *)
Inductive event : Type :=
| Finding (e : Entity)
| GetAccountInfo (k : Pubkey)
| GetProgramAccounts (program : Pubkey)
| GetBalance (k : Pubkey)
| GetLatestBlockhash
| GetMinimumBalanceForRentExemption (size : Z)
| SendTransaction (tx : Transaction)
| HttpGet (url : string) (params : dict string)
| NewKeypair (kp : Keypair).

(** ** The client object

    The fields of [MarginFiClient] that change or decide a branch; the RPC
    client and the price API address are fixed at construction.
    [keys_drawn] is not a Python field: it counts the [Keypair()] calls
    made so far and indexes the environment's keypairs. *)

Record Client : Type := mkClient
  { keypair : Keypair;
    marginfi_group_key : option Pubkey;
    sol_bank_key : option Pubkey;
    marginfi_account_key : option Pubkey;
    test_mode : bool;
    keys_drawn : nat }.

(** [__init__] from a loaded wallet keypair: the three keys start as
    [None]. *)
Definition init (wallet : Keypair) (test : bool) : Client :=
  mkClient wallet None None None test 0.

(** ** The monad of methods

    A method runs on the client object, may mutate it, may raise, and
    emits events.  Mutations made before an exception stay. *)

Definition M (A : Type) : Type := Client -> Res A * Client * list event.

Definition ret {A : Type} (a : A) : M A := fun s => (Ret a, s, []).

Definition raise {A : Type} (e : exn) : M A := fun s => (Raise e, s, []).

Definition bind {A B : Type} (m : M A) (f : A -> M B) : M B :=
  fun s =>
    match m s with
    | (Ret a, s1, t1) =>
        match f a s1 with
        | (r, s2, t2) => (r, s2, t1 ++ t2)
        end
    | (Raise e, s1, t1) => (Raise e, s1, t1)
    end.

(** [try: body except Exception: handler]. *)
Definition try_except {A : Type} (body : M A) (handler : exn -> M A) : M A :=
  fun s =>
    match body s with
    | (Ret a, s1, t1) => (Ret a, s1, t1)
    | (Raise e, s1, t1) =>
        match handler e s1 with
        | (r, s2, t2) => (r, s2, t1 ++ t2)
        end
    end.

Definition lift {A : Type} (r : Res A) : M A := fun s => (r, s, []).

Definition emit (e : event) : M unit := fun s => (Ret tt, s, [e]).

Definition get_self : M Client := fun s => (Ret s, s, []).

Definition put_self (s' : Client) : M unit := fun _ => (Ret tt, s', []).

Declare Scope method_scope.
Delimit Scope method_scope with method.
Notation "x <- m ;; k" := (bind m (fun x => k))
  (at level 61, m at next level, right associativity) : method_scope.
Notation "m ;; k" := (bind m (fun _ => k))
  (at level 61, right associativity) : method_scope.
Local Open Scope method_scope.

(** Field assignments. *)
Definition set_marginfi_group_key (k : Pubkey) : M unit :=
  s <- get_self ;;
  put_self (mkClient (keypair s) (Some k) (sol_bank_key s)
                     (marginfi_account_key s) (test_mode s) (keys_drawn s)).

Definition set_sol_bank_key (k : Pubkey) : M unit :=
  s <- get_self ;;
  put_self (mkClient (keypair s) (marginfi_group_key s) (Some k)
                     (marginfi_account_key s) (test_mode s) (keys_drawn s)).

Definition set_marginfi_account_key (k : Pubkey) : M unit :=
  s <- get_self ;;
  put_self (mkClient (keypair s) (marginfi_group_key s) (sol_bank_key s)
                     (Some k) (test_mode s) (keys_drawn s)).

(** [Keypair()]: the next keypair of the environment. *)
Definition Keypair_new (env : Env) : M Keypair :=
  s <- get_self ;;
  let kp := fresh_keypair env (keys_drawn s) in
  put_self (mkClient (keypair s) (marginfi_group_key s) (sol_bank_key s)
                     (marginfi_account_key s) (test_mode s)
                     (S (keys_drawn s))) ;;
  emit (NewKeypair kp) ;;
  ret kp.

(** Requests: the event, then the environment's answer. *)
Definition rpc_get_account_info (env : Env) (k : Pubkey) : M (option Account) :=
  emit (GetAccountInfo k) ;; lift (get_account_info env k).

Definition rpc_get_program_accounts (env : Env) (program : Pubkey)
  : M (option (list KeyedAccount)) :=
  emit (GetProgramAccounts program) ;; lift (get_program_accounts env program).

Definition rpc_get_balance (env : Env) (k : Pubkey) : M Z :=
  emit (GetBalance k) ;; lift (get_balance env k).

Definition rpc_get_latest_blockhash (env : Env) : M string :=
  emit GetLatestBlockhash ;; lift (get_latest_blockhash env).

Definition rpc_get_minimum_balance_for_rent_exemption (env : Env) (size : Z)
  : M Z :=
  emit (GetMinimumBalanceForRentExemption size) ;;
  lift (get_minimum_balance_for_rent_exemption env size).

Definition rpc_send_transaction (env : Env) (tx : Transaction) : M string :=
  emit (SendTransaction tx) ;; lift (send_transaction env tx).

Definition http_get (env : Env) (url : string) (params : dict string)
  : M HttpResponse :=
  emit (HttpGet url params) ;; lift (requests_get env url params).

(** ** Configuration *)

Definition PRIORITY_FEE_SOL : pyfloat := 0.00001%float.

(** [self.price_api_base], set once in [__init__]. *)
Definition price_api_base : string := "https://api.coingecko.com/api/v3"%string.

(** [account_info.value and account_info.value.owner == MARGINFI_PROGRAM_ID]. *)
Definition owned_by_marginfi (value : option Account) : bool :=
  match value with
  | Some a => String.eqb (account_owner a) MARGINFI_PROGRAM_ID
  | None => false
  end.

(** Passing a field to the RPC client or to [bytes()]: [None] raises. *)
Definition require_pubkey (k : option Pubkey) : M Pubkey :=
  match k with
  | Some p => ret p
  | None => raise TypeError
  end.

Definition is_some {A : Type} (o : option A) : bool :=
  match o with
  | Some _ => true
  | None => false
  end.

(** ** Resolvers *)

Section Methods.

Variable env : Env.

Definition known_groups : list string :=
  [ "4qp6Fx6tnZkY5Wropq9wUYgtFxXKwE6viZxFHg3rdAG8";
    "3Z9vJPxUjHj47vRq8TBKEbN1fGWNYKWaHpxFNdZR4Jm2";
    "4VcJMDnbYKRCeJ6zF8BKr2k6c5iHBBmjLWdJXnyxVHGY" ]%string.

(** One turn of the loop over [known_groups]: [Some] when the method
    returns from inside the loop, [None] when the loop goes on. *)
Definition try_known_group (group_str : string) : M (option Pubkey) :=
  try_except
    (main_group <- lift (Pubkey_from_string group_str) ;;
     account_info <- rpc_get_account_info env main_group ;;
     if owned_by_marginfi account_info
     then set_marginfi_group_key main_group ;; ret (Some main_group)
     else ret None)
    (fun _ => ret None).

Fixpoint try_known_groups (candidates : list string) : M (option Pubkey) :=
  match candidates with
  | [] => ret None
  | group_str :: rest =>
      found <- try_known_group group_str ;;
      match found with
      | Some g => ret (Some g)
      | None => try_known_groups rest
      end
  end.

(** [10000 < data_size < 15000]. *)
Definition group_sized (data_size : Z) : bool :=
  (10000 <? data_size) && (data_size <? 15000).

(** The loop over [response.value]. *)
Fixpoint scan_for_group (accounts : list KeyedAccount) : M (option Pubkey) :=
  match accounts with
  | [] => ret None
  | account :: rest =>
      let account_data := account_data (keyed_account account) in
      let data_size := Z.of_nat (length account_data) in
      if group_sized data_size
      then
        let group_pubkey := keyed_pubkey account in
        set_marginfi_group_key group_pubkey ;; ret (Some group_pubkey)
      else scan_for_group rest
  end.

Definition find_marginfi_group : M (option Pubkey) :=
  try_except
    (emit (Finding Group) ;;
     found <- try_known_groups known_groups ;;
     match found with
     | Some g => ret (Some g)
     | None =>
         response <- rpc_get_program_accounts env MARGINFI_PROGRAM_ID ;;
         match response with
         | Some accounts =>
             scanned <- scan_for_group accounts ;;
             match scanned with
             | Some g => ret (Some g)
             | None => ret None
             end
         | None => ret None
         end
     end)
    (fun _ => ret None).

Definition sol_bank_str : string :=
  "CCKtUs6Cgwo4aaQUmBPmyoApH2gUDErxNZCAntD6LYGh"%string.

Definition find_sol_bank : M (option Pubkey) :=
  try_except
    (emit (Finding Bank) ;;
     try_except
       (bank_pubkey <- lift (Pubkey_from_string sol_bank_str) ;;
        account_info <- rpc_get_account_info env bank_pubkey ;;
        if owned_by_marginfi account_info
        then set_sol_bank_key bank_pubkey ;; ret (Some bank_pubkey)
        else ret None)
       (fun _ => ret None))
    (fun _ => ret None).

Definition existing_marginfi_account_str : string :=
  "2cZh5HsT3pkKWbhGjhHi56u2oKFSjkDjsoRqt18bxu8W"%string.

Definition find_marginfi_account : M (option Pubkey) :=
  try_except
    (emit (Finding LendingAccount) ;;
     existing_marginfi_account <-
       lift (Pubkey_from_string existing_marginfi_account_str) ;;
     account_info <- rpc_get_account_info env existing_marginfi_account ;;
     if owned_by_marginfi account_info
     then set_marginfi_account_key existing_marginfi_account ;;
          ret (Some existing_marginfi_account)
     else ret None)
    (fun _ => ret None).

(** [if not self.sol_bank_key: self.find_sol_bank()], and the same
    guard for the other two keys. *)
Definition ensure_sol_bank : M unit :=
  s <- get_self ;;
  if is_some (sol_bank_key s) then ret tt else find_sol_bank ;; ret tt.

Definition ensure_marginfi_group : M unit :=
  s <- get_self ;;
  if is_some (marginfi_group_key s) then ret tt
  else find_marginfi_group ;; ret tt.

Definition ensure_marginfi_account : M unit :=
  s <- get_self ;;
  if is_some (marginfi_account_key s) then ret tt
  else find_marginfi_account ;; ret tt.

(** ** Wallet status *)

(** An entry of [get_marginfi_accounts]; [positions] is always empty
    ([list unit] keeps the empty list). *)
Record AccountSummary : Type := mkAccountSummary
  { summary_address : string;
    summary_positions : list unit }.

Definition get_marginfi_accounts : M (list AccountSummary) :=
  try_except
    (marginfi_account <- find_marginfi_account ;;
     match marginfi_account with
     | Some acct =>
         account_info <- rpc_get_account_info env acct ;;
         match account_info with
         | Some a =>
             match account_data a with
             | _ :: _ => ret [mkAccountSummary acct []]
             | [] => ret []
             end
         | None => ret []
         end
     | None => ret []
     end)
    (fun _ => ret []).

Definition get_sol_balance : M pyfloat :=
  try_except
    (s <- get_self ;;
     value <- rpc_get_balance env (pubkey (keypair s)) ;;
     if value =? 0 then ret 0%float
     else
       lamports <- lift (float_of_int value) ;;
       lift (float_truediv lamports 1e9))
    (fun _ => ret 0%float).

Definition token_map : dict string :=
  [ ("SOL", "solana"); ("USDC", "usd-coin"); ("USDT", "tether") ]%string.

(** [token_map.get(token, token.lower())]. *)
Definition coin_id_of (token : string) : string :=
  dict_get_default token_map token (lower token).

(** [prices[token] = v]: replace the binding in place or append it. *)
Fixpoint dict_set {V : Type} (d : dict V) (k : string) (v : V) : dict V :=
  match d with
  | [] => [(k, v)]
  | (k', v') :: rest =>
      if String.eqb k' k then (k, v) :: rest else (k', v') :: dict_set rest k v
  end.

(** [response.raise_for_status()]. *)
Definition raise_for_status (response : HttpResponse) : M unit :=
  if (400 <=? status_code response) && (status_code response <? 600)
  then raise (BackendError "HTTPError")
  else ret tt.

Definition quoted_price (data : price_json) (token : string) : pyfloat :=
  match dict_get data (coin_id_of token) with
  | Some quote =>
      match dict_get quote "usd" with
      | Some usd => usd
      | None => 0%float
      end
  | None => 0%float
  end.

Definition get_token_prices (token_ids : list string) : M (dict pyfloat) :=
  try_except
    (let ids := join_comma (map coin_id_of token_ids) in
     let url := (price_api_base ++ "/simple/price")%string in
     let params := [ ("ids", ids); ("vs_currencies", "usd") ]%string in
     response <- http_get env url params ;;
     raise_for_status response ;;
     data <- lift (json response) ;;
     ret (fold_left (fun prices token =>
                       dict_set prices token (quoted_price data token))
                    token_ids []))
    (fun _ =>
       ret (fold_left (fun prices token => dict_set prices token 0%float)
                      token_ids [])).

Record TokenEntry : Type := mkTokenEntry
  { symbol : string;
    balance : pyfloat;
    price_usd : pyfloat;
    value_usd : pyfloat }.

Record WalletStatus : Type := mkWalletStatus
  { wallet_address : string;
    tokens : list TokenEntry;
    total_value_usd : pynum }.

Definition get_wallet_status : M WalletStatus :=
  sol_balance <- get_sol_balance ;;
  prices <- get_token_prices ["SOL"%string] ;;
  let sol_price := dict_get_default prices "SOL" 0%float in
  let sol_usd_value := (sol_balance * sol_price)%float in
  let tokens :=
    if float_gt sol_usd_value 0.1
    then [mkTokenEntry "SOL" sol_balance sol_price sol_usd_value]
    else [] in
  s <- get_self ;;
  ret (mkWalletStatus (pubkey (keypair s)) tokens
                      (py_sum (map value_usd tokens))).

(** ** Lending positions *)

Definition _get_sol_price : M pyfloat :=
  try_except
    (response <-
       http_get env
         (price_api_base ++ "/simple/price?ids=solana&vs_currencies=usd")%string
         [] ;;
     if status_code response =? 200
     then
       data <- lift (json response) ;;
       ret (dict_get_default (dict_get_default data "solana" []) "usd"
                             168.0%float)
     else ret 168.0%float)
    (fun _ => ret 168.0%float).

Record Position : Type := mkPosition
  { asset : string;
    position_balance : pyfloat;
    amount : pyfloat;
    original_balance : pyfloat;
    position_value_usd : pyfloat;
    growth_usd : pyfloat;
    growth_percent : pyfloat;
    pool_name : string;
    bank : string;
    apy : pyfloat }.

(** [current_balance_sol] is [0] when the price is not positive; the
    test that follows then fails, so the [int] 0 is written as the
    float. *)
Definition _parse_lending_positions : M (list Position) :=
  try_except
    (s <- get_self ;;
     key <- require_pubkey (marginfi_account_key s) ;;
     account_info <- rpc_get_account_info env key ;;
     match account_info with
     | None => ret []
     | Some _ =>
         sol_price <- _get_sol_price ;;
         let current_value_usd := 7.28%float in
         current_balance_sol <-
           (if float_gt sol_price 0
            then lift (float_truediv current_value_usd sol_price)
            else ret 0%float) ;;
         if float_gt current_balance_sol 0
         then
           original <- lift (float_truediv 3.3814 sol_price) ;;
           ret [ mkPosition "SOL" current_balance_sol current_balance_sol
                   original current_value_usd 3.8986 115.0
                   "mrgnlend SOL Pool"
                   "CCKtUs6Cgwo4aaQUmBPmyoApH2gUDErxNZCAntD6LYGh" 2.5 ]
         else ret []
     end)
    (fun _ => ret []).

Record Positions : Type := mkPositions
  { positions : list Position;
    total_lent_usd : pyfloat }.

Definition get_marginfi_positions : M Positions :=
  try_except
    (ensure_marginfi_account ;;
     s <- get_self ;;
     if is_some (marginfi_account_key s)
     then
       positions <- _parse_lending_positions ;;
       sol_price <- _get_sol_price ;;
       ret (mkPositions positions
              (fold_left
                 (fun total position =>
                    if String.eqb (asset position) "SOL"
                    then (total + position_balance position * sol_price)%float
                    else total)
                 positions 0%float))
     else ret (mkPositions [] 0%float))
    (fun _ => ret (mkPositions [] 0%float)).

(** ** Pool information *)

(** The [try] of the Python body guards nothing that can raise. *)
Definition parse_bank_apy (bank_data : bytes) : pyfloat :=
  if Z.of_nat (length bank_data) <? 200 then 0%float else 2.5%float.

Definition get_sol_apy : M pyfloat :=
  try_except
    (ensure_sol_bank ;;
     s <- get_self ;;
     match sol_bank_key s with
     | None => ret 0%float
     | Some bank_key =>
         bank_account <- rpc_get_account_info env bank_key ;;
         match bank_account with
         | Some a =>
             match account_data a with
             | _ :: _ => ret (parse_bank_apy (account_data a))
             | [] => ret 0%float
             end
         | None => ret 0%float
         end
     end)
    (fun _ => ret 0%float).

Record Pool : Type := mkPool
  { pool_asset : string;
    supply_apy : pyfloat;
    pool_pool_name : string;
    pool_id : string;
    product : string;
    fees : string;
    insurance : string }.

Definition get_lending_pools : M (list Pool) :=
  try_except
    (ensure_sol_bank ;;
     s <- get_self ;;
     match sol_bank_key s with
     | Some bank_key =>
         sol_apy <- get_sol_apy ;;
         ret [ mkPool "SOL" sol_apy "mrgnlend SOL Pool" bank_key "mrgnlend"
                 "0% platform fees"
                 "Protected by marginfi insurance pools" ]
     | None => ret []
     end)
    (fun _ => ret []).

(** ** Transactions *)

(** [int(PRIORITY_FEE_SOL * 1e9)]. *)
Definition priority_fee : Res Z := int_of_float (PRIORITY_FEE_SOL * 1e9).

Definition create_marginfi_account : M (option Pubkey) :=
  try_except
    (ensure_marginfi_group ;;
     ensure_sol_bank ;;
     s <- get_self ;;
     if negb (is_some (marginfi_group_key s)) then ret None
     else
       marginfi_account_keypair <- Keypair_new env ;;
       let marginfi_account_pubkey := pubkey marginfi_account_keypair in
       account_info <- rpc_get_account_info env marginfi_account_pubkey ;;
       match account_info with
       | Some _ =>
           set_marginfi_account_key marginfi_account_pubkey ;;
           ret (Some marginfi_account_pubkey)
       | None =>
           let init_discriminator :=
             calculate_anchor_discriminator "marginfi_account_initialize" in
           let instruction_data := init_discriminator in
           a1 <- lift (AccountMeta_new (marginfi_group_key s) false false) ;;
           a2 <- lift (AccountMeta_new (Some marginfi_account_pubkey) true true) ;;
           a3 <- lift (AccountMeta_new (Some (pubkey (keypair s))) true false) ;;
           a4 <- lift (AccountMeta_new (Some (pubkey (keypair s))) true true) ;;
           a5 <- lift (AccountMeta_new (Some SYSTEM_PROGRAM_ID) false false) ;;
           let accounts := [a1; a2; a3; a4; a5] in
           let marginfi_instruction :=
             Instruction_new MARGINFI_PROGRAM_ID instruction_data accounts in
           recent_blockhash <- rpc_get_latest_blockhash env ;;
           fee <- lift priority_fee ;;
           let full_instructions :=
             [ set_compute_unit_limit 300000;
               set_compute_unit_price fee;
               marginfi_instruction ] in
           let tx :=
             mkTransaction full_instructions (pubkey (keypair s))
               [keypair s; marginfi_account_keypair] recent_blockhash in
           try_except
             (signature <- rpc_send_transaction env tx ;;
              set_marginfi_account_key marginfi_account_pubkey ;;
              ret (Some marginfi_account_pubkey))
             (fun _ => ret None)
       end)
    (fun _ => ret None).

(** The seeds of the liquidity vault of a bank. *)
Definition liquidity_vault_seeds (bank_key : Pubkey) : list seed :=
  [ SeedBytes (encode_utf8 "liquidity_vault"); SeedPubkey bank_key ].

Definition lend_sol (amount : pyfloat) : M bool :=
  try_except
    (amount_lamports <- lift (int_of_float (amount * 1e9)) ;;
     existing_marginfi_account <-
       lift (Pubkey_from_string existing_marginfi_account_str) ;;
     set_marginfi_account_key existing_marginfi_account ;;
     s <- get_self ;;
     (if negb (test_mode s)
      then
        try_except
          (key <- require_pubkey (marginfi_account_key s) ;;
           account_info <- rpc_get_account_info env key ;;
           ret tt)
          (fun _ => ret tt)
      else ret tt) ;;
     (* if not self.marginfi_group_key: find it, or return False *)
     ensure_marginfi_group ;;
     s <- get_self ;;
     if negb (is_some (marginfi_group_key s)) then ret false
     else
       (* if not self.sol_bank_key: find it, or return False *)
       ensure_sol_bank ;;
       s <- get_self ;;
       if negb (is_some (sol_bank_key s)) then ret false
       else
         bank_key <- require_pubkey (sol_bank_key s) ;;
         let bank_vault :=
           fst (find_program_address env (liquidity_vault_seeds bank_key)
                  MARGINFI_PROGRAM_ID) in
         temp_wsol_account <- Keypair_new env ;;
         rent_lamports <-
           rpc_get_minimum_balance_for_rent_exemption env ACCOUNT_LEN ;;
         i1 <- lift (create_account_checked (pubkey (keypair s))
                       (pubkey temp_wsol_account)
                       (rent_lamports + amount_lamports)
                       ACCOUNT_LEN TOKEN_PROGRAM_ID) ;;
         let i2 := initialize_account TOKEN_PROGRAM_ID
                     (pubkey temp_wsol_account) SOL_MINT_PUBKEY
                     (pubkey (keypair s)) in
         let deposit_discriminator :=
           calculate_anchor_discriminator "lending_account_deposit" in
         amount_bytes <- lift (int_to_bytes amount_lamports 8) ;;
         let instruction_data :=
           deposit_discriminator ++ amount_bytes ++ [0] in
         a1 <- lift (AccountMeta_new (marginfi_group_key s) false false) ;;
         a2 <- lift (AccountMeta_new (marginfi_account_key s) false true) ;;
         a3 <- lift (AccountMeta_new (Some (pubkey (keypair s))) true true) ;;
         a4 <- lift (AccountMeta_new (sol_bank_key s) false true) ;;
         a5 <- lift (AccountMeta_new (Some (pubkey temp_wsol_account))
                       false true) ;;
         a6 <- lift (AccountMeta_new (Some bank_vault) false true) ;;
         a7 <- lift (AccountMeta_new (Some TOKEN_PROGRAM_ID) false false) ;;
         let deposit_accounts := [a1; a2; a3; a4; a5; a6; a7] in
         let i3 := Instruction_new MARGINFI_PROGRAM_ID instruction_data
                     deposit_accounts in
         let i4 := close_account (pubkey temp_wsol_account)
                     (pubkey (keypair s)) (pubkey (keypair s))
                     TOKEN_PROGRAM_ID in
         let instructions := [i1; i2; i3; i4] in
         recent_blockhash <- rpc_get_latest_blockhash env ;;
         fee <- lift priority_fee ;;
         let full_instructions :=
           [ set_compute_unit_limit 400000; set_compute_unit_price fee ]
           ++ instructions in
         let tx :=
           mkTransaction full_instructions (pubkey (keypair s))
             [keypair s; temp_wsol_account] recent_blockhash in
         try_except
           (signature <- rpc_send_transaction env tx ;; ret true)
           (fun _ => ret false))
    (fun _ => ret false).

(** [pool_id] is accepted and never read. *)
Definition withdraw_from_pool (pool_id : string) (amount : pyfloat) : M bool :=
  try_except
    (amount_lamports <- lift (int_of_float (amount * 1e9)) ;;
     (* if not self.marginfi_account_key: find it, or return False *)
     ensure_marginfi_account ;;
     s <- get_self ;;
     if negb (is_some (marginfi_account_key s)) then ret false
     else
       (* if not self.sol_bank_key: find it, or return False *)
       ensure_sol_bank ;;
       s <- get_self ;;
       if negb (is_some (sol_bank_key s)) then ret false
       else
         bank_key <- require_pubkey (sol_bank_key s) ;;
         let bank_vault :=
           fst (find_program_address env (liquidity_vault_seeds bank_key)
                  MARGINFI_PROGRAM_ID) in
         temp_wsol_account <- Keypair_new env ;;
         rent_lamports <-
           rpc_get_minimum_balance_for_rent_exemption env ACCOUNT_LEN ;;
         i1 <- lift (create_account_checked (pubkey (keypair s))
                       (pubkey temp_wsol_account) rent_lamports
                       ACCOUNT_LEN TOKEN_PROGRAM_ID) ;;
         let i2 := initialize_account TOKEN_PROGRAM_ID
                     (pubkey temp_wsol_account) SOL_MINT_PUBKEY
                     (pubkey (keypair s)) in
         let withdraw_discriminator :=
           [183; 18; 70; 156; 148; 109; 161; 34] in
         amount_bytes <- lift (int_to_bytes amount_lamports 8) ;;
         let instruction_data := withdraw_discriminator ++ amount_bytes in
         a1 <- lift (AccountMeta_new (marginfi_account_key s) false true) ;;
         a2 <- lift (AccountMeta_new (marginfi_group_key s) false false) ;;
         a3 <- lift (AccountMeta_new (Some (pubkey temp_wsol_account))
                       false true) ;;
         a4 <- lift (AccountMeta_new (sol_bank_key s) false true) ;;
         a5 <- lift (AccountMeta_new (Some bank_vault) false true) ;;
         a6 <- lift (AccountMeta_new (Some TOKEN_PROGRAM_ID) false false) ;;
         a7 <- lift (AccountMeta_new (Some (pubkey (keypair s))) true true) ;;
         let withdraw_accounts := [a1; a2; a3; a4; a5; a6; a7] in
         let i3 := Instruction_new MARGINFI_PROGRAM_ID instruction_data
                     withdraw_accounts in
         let i4 := close_account (pubkey temp_wsol_account)
                     (pubkey (keypair s)) (pubkey (keypair s))
                     TOKEN_PROGRAM_ID in
         let instructions := [i1; i2; i3; i4] in
         recent_blockhash <- rpc_get_latest_blockhash env ;;
         fee <- lift priority_fee ;;
         let full_instructions :=
           [ set_compute_unit_limit 400000; set_compute_unit_price fee ]
           ++ instructions in
         let tx :=
           mkTransaction full_instructions (pubkey (keypair s))
             [keypair s; temp_wsol_account] recent_blockhash in
         signature <- rpc_send_transaction env tx ;;
         ret true)
    (fun _ => ret false).

(** ** Automated flows *)

(** [[t for t in wallet_status['tokens'] if t['symbol'] == 'SOL']]. *)
Definition sol_tokens_of (wallet_status : WalletStatus) : list TokenEntry :=
  filter (fun t => String.eqb (symbol t) "SOL") (tokens wallet_status).

Definition test_lending_flow (amount_sol : pyfloat) : M bool :=
  wallet_status <- get_wallet_status ;;
  match sol_tokens_of wallet_status with
  | [] => ret false
  | t :: _ =>
      if float_lt (balance t) amount_sol then ret false
      else lend_sol amount_sol
  end.

Definition auto_lending_flow (wallet_status : WalletStatus) (amount : pyfloat)
  : M bool :=
  match sol_tokens_of wallet_status with
  | [] => ret false
  | t :: _ =>
      let sol_balance := balance t in
      current_apy <- get_sol_apy ;;
      (* Validate amount *)
      if float_gt amount sol_balance then ret false
      else lend_sol amount
  end.

End Methods.

(** ** Operations of a session

    The methods a caller invokes on the client once it is built.  The
    three resolvers are the resolution step itself and the operations
    call them; the prompt-driven menus only choose among the operations
    below. *)

Inductive operation : Type :=
| OpCreateMarginfiAccount
| OpLendSol (amount : pyfloat)
| OpWithdrawFromPool (pool_id : string) (amount : pyfloat)
| OpTestLendingFlow (amount_sol : pyfloat)
| OpAutoLendingFlow (wallet_status : WalletStatus) (amount : pyfloat)
| OpGetSolApy
| OpGetLendingPools
| OpGetMarginfiPositions
| OpGetMarginfiAccounts
| OpGetWalletStatus
| OpGetSolBalance
| OpGetTokenPrices (token_ids : list string).

(** The client and the events after a method, its result dropped. *)
Definition effects {A : Type} (m : M A) (s : Client) : Client * list event :=
  match m s with
  | (_, s', t) => (s', t)
  end.

Definition run (env : Env) (op : operation) : Client -> Client * list event :=
  match op with
  | OpCreateMarginfiAccount => effects (create_marginfi_account env)
  | OpLendSol amount => effects (lend_sol env amount)
  | OpWithdrawFromPool pool_id amount =>
      effects (withdraw_from_pool env pool_id amount)
  | OpTestLendingFlow amount_sol => effects (test_lending_flow env amount_sol)
  | OpAutoLendingFlow wallet_status amount =>
      effects (auto_lending_flow env wallet_status amount)
  | OpGetSolApy => effects (get_sol_apy env)
  | OpGetLendingPools => effects (get_lending_pools env)
  | OpGetMarginfiPositions => effects (get_marginfi_positions env)
  | OpGetMarginfiAccounts => effects (get_marginfi_accounts env)
  | OpGetWalletStatus => effects (get_wallet_status env)
  | OpGetSolBalance => effects (get_sol_balance env)
  | OpGetTokenPrices token_ids => effects (get_token_prices env token_ids)
  end.

(** A session: operations in order, each against the backend as it
    answers at that time. *)
Fixpoint run_session (steps : list (Env * operation)) (s : Client)
  : Client * list event :=
  match steps with
  | [] => (s, [])
  | (env, op) :: rest =>
      match run env op s with
      | (s1, t1) =>
          match run_session rest s1 with
          | (s2, t2) => (s2, t1 ++ t2)
          end
      end
  end.

(** The cache field of an entity. *)
Definition cache_of (e : Entity) (s : Client) : option Pubkey :=
  match e with
  | Group => marginfi_group_key s
  | Bank => sol_bank_key s
  | LendingAccount => marginfi_account_key s
  end.

(** A step respects the cache of [e]: from a populated field it neither
    enters the resolver of [e] nor changes the field. *)
Definition respects_cache (e : Entity) (step : Client -> Client * list event)
  : Prop :=
  forall s k, cache_of e s = Some k ->
    cache_of e (fst (step s)) = Some k /\ ~ In (Finding e) (snd (step s)).

(** ** Group resolution, as a function of the backend's answers *)

(** A known address is accepted when it parses and the backend reports an
    account owned by the lending program. *)
Definition accepted_candidate (env : Env) (group_str : string) : bool :=
  match Pubkey_from_string group_str with
  | Ret k =>
      match get_account_info env k with
      | Ret value => owned_by_marginfi value
      | Raise _ => false
      end
  | Raise _ => false
  end.

Definition data_size_of (a : KeyedAccount) : Z :=
  Z.of_nat (length (account_data (keyed_account a))).

(** Both strategies in order, for a given test of the data size. *)
Definition group_resolution (sized : Z -> bool) (env : Env) : option Pubkey :=
  match find (accepted_candidate env) known_groups with
  | Some g => Some g
  | None =>
      match get_program_accounts env MARGINFI_PROGRAM_ID with
      | Ret (Some accounts) =>
          option_map keyed_pubkey (find (fun a => sized (data_size_of a)) accounts)
      | _ => None
      end
  end.

(** The size range in the specification's words: 10,000 to 15,000 bytes. *)
Definition spec_group_sized (data_size : Z) : bool :=
  (10000 <=? data_size) && (data_size <=? 15000).

(** ** Shapes of instructions and transactions *)

Inductive instruction_kind : Type :=
| ComputeUnitLimit | ComputeUnitPrice
| CreateAccount | InitializeAccount | CloseAccount | ProgramCall.

Definition kind_of (i : Instruction) : instruction_kind :=
  match i with
  | set_compute_unit_limit _ => ComputeUnitLimit
  | set_compute_unit_price _ => ComputeUnitPrice
  | create_account _ _ _ _ _ => CreateAccount
  | initialize_account _ _ _ _ => InitializeAccount
  | close_account _ _ _ _ => CloseAccount
  | Instruction_new _ _ _ => ProgramCall
  end.

Definition is_compute_budget (i : Instruction) : bool :=
  match kind_of i with
  | ComputeUnitLimit | ComputeUnitPrice => true
  | _ => false
  end.

(** The transactions an event list submits. *)
Fixpoint submitted (t : list event) : list Transaction :=
  match t with
  | [] => []
  | SendTransaction tx :: rest => tx :: submitted rest
  | _ :: rest => submitted rest
  end.

(** The value a little-endian byte string denotes. *)
Fixpoint le_value (bs : bytes) : Z :=
  match bs with
  | [] => 0
  | b :: rest => b + 256 * le_value rest
  end.

(** The operations that assign the lending-account field whatever it
    holds: [lend_sol] pins it to the known account, so do the flows that
    end in [lend_sol]; [create_marginfi_account] stores the new account;
    [get_marginfi_accounts] calls the resolver without a guard. *)
Definition rewrites_lending_account (op : operation) : bool :=
  match op with
  | OpCreateMarginfiAccount | OpLendSol _ | OpTestLendingFlow _
  | OpAutoLendingFlow _ _ | OpGetMarginfiAccounts => true
  | _ => false
  end.

(** The client after group resolution answered [found]. *)
Definition with_group (found : option Pubkey) (s : Client) : Client :=
  match found with
  | Some g =>
      mkClient (keypair s) (Some g) (sol_bank_key s) (marginfi_account_key s)
               (test_mode s) (keys_drawn s)
  | None => s
  end.

(** The request [get_token_prices] makes for the one token [SOL]. *)
Definition sol_price_url : string := (price_api_base ++ "/simple/price")%string.
Definition sol_price_params : dict string :=
  [ ("ids", "solana"); ("vs_currencies", "usd") ]%string.

(** ** Sample backends

    Concrete answers to run the methods on. *)

Local Open Scope string_scope.

Definition sample_wallet : Keypair :=
  mkKeypair "WalletPubkey11111111111111111111111111111111" "wallet-secret".

Definition sample_keypair (n : nat) : Keypair :=
  match n with
  | O => mkKeypair "FreshPubkeyA1111111111111111111111111111111" "secret-a"
  | _ => mkKeypair "FreshPubkeyB1111111111111111111111111111111" "secret-b"
  end.

(** A node on which the three known addresses resolve: every queried
    address other than the fresh ones holds 250 bytes owned by the
    lending program; the price API quotes 100 USD. *)
Definition sample_env : Env :=
  mkEnv
    (fun k =>
       if String.eqb k (pubkey (sample_keypair 0)) then Ret None
       else Ret (Some (mkAccount MARGINFI_PROGRAM_ID (repeat 0 250))))
    (fun _ => Ret (Some []))
    (fun _ => Ret 1000000000)
    (Ret "EETubP5AKHgjPAhzPAFcb8BAY1hMH639CWCFTqi3hq1k"%string)
    (fun _ => Ret 2039280)
    (fun _ => Ret "signature"%string)
    (fun _ _ =>
       Ret (mkHttpResponse 200 (Ret [("solana", [("usd", 100%float)])]%string)))
    sample_keypair
    (fun _ _ => ("VaultPubkey111111111111111111111111111111111"%string, 255)).

(** The same node with the price API unreachable. *)
Definition offline_price_env : Env :=
  mkEnv (get_account_info sample_env) (get_program_accounts sample_env)
        (get_balance sample_env) (get_latest_blockhash sample_env)
        (get_minimum_balance_for_rent_exemption sample_env)
        (send_transaction sample_env)
        (fun _ _ => Raise (BackendError "ConnectionError"))
        (fresh_keypair sample_env) (find_program_address sample_env).

(** A node that knows none of the pinned addresses and lists one program
    account, of [size] bytes. *)
Definition one_account_env (size : Z) : Env :=
  mkEnv (fun _ => Ret None)
        (fun _ =>
           Ret (Some [ mkKeyedAccount
                         "ListedAccount1111111111111111111111111111111"
                         (mkAccount MARGINFI_PROGRAM_ID
                                    (repeat 0 (Z.to_nat size))) ]))
        (get_balance sample_env) (get_latest_blockhash sample_env)
        (get_minimum_balance_for_rent_exemption sample_env)
        (send_transaction sample_env) (requests_get sample_env)
        (fresh_keypair sample_env) (find_program_address sample_env).

(** A fresh client, and one whose three fields a previous operation
    populated, the lending account with a newly created one. *)
Definition fresh_client : Client := init sample_wallet false.

Definition populated_client : Client :=
  mkClient sample_wallet
    (Some "4qp6Fx6tnZkY5Wropq9wUYgtFxXKwE6viZxFHg3rdAG8"%string)
    (Some "CCKtUs6Cgwo4aaQUmBPmyoApH2gUDErxNZCAntD6LYGh"%string)
    (Some (pubkey (sample_keypair 0))) false 1.

(** A wallet report with one SOL at 100 USD. *)
Definition sample_wallet_status : WalletStatus :=
  mkWalletStatus (pubkey sample_wallet)
    [mkTokenEntry "SOL" 1%float 100%float 100%float] (PyFloat 100%float).

Local Close Scope string_scope.

(** The compute-unit limit an operation asks for, and the kinds of the
    instructions that follow the two compute-budget directives. *)
Definition unit_limit_of (op : operation) : Z :=
  match op with
  | OpCreateMarginfiAccount => 300000
  | _ => 400000
  end.

Definition operational_kinds (op : operation) : list instruction_kind :=
  match op with
  | OpCreateMarginfiAccount => [ProgramCall]
  | _ => [CreateAccount; InitializeAccount; ProgramCall; CloseAccount]
  end.

(** A transaction of the given limit and operational kinds. *)
Definition well_grouped (limit : Z) (kinds : list instruction_kind)
    (tx : Transaction) : Prop :=
  exists fee operational,
    instructions tx =
      set_compute_unit_limit limit :: set_compute_unit_price fee :: operational
    /\ map kind_of operational = kinds
    /\ forallb (fun i => negb (is_compute_budget i)) operational = true.

(** ** Notions for reasoning about methods

    The outcome of a run, frames (what a method leaves alone) and methods
    that always return; their laws come with the properties below. *)

(** [wp m Q s]: the outcome of [m] from [s] satisfies [Q]. *)
Definition wp {A : Type} (m : M A)
    (Q : Res A -> Client -> list event -> Prop) (s : Client) : Prop :=
  match m s with
  | (r, s', t) => Q r s' t
  end.

(** A frame relates the client before, the events, and the client after;
    it holds of doing nothing and composes along sequencing. *)
Record frame : Type := mkFrame
  { holds :> Client -> list event -> Client -> Prop;
    holds_refl : forall s, holds s [] s;
    holds_trans : forall s t1 s1 t2 s2,
        holds s t1 s1 -> holds s1 t2 s2 -> holds s (t1 ++ t2) s2 }.

(** A method is stable for a frame when every run of it is in the frame. *)
Definition stable {A : Type} (F : frame) (m : M A) : Prop :=
  forall s, wp m (fun _ s' t => F s t s') s.

(** Two frames at once. *)
Definition both_rel (F G : frame) (s : Client) (t : list event) (s' : Client)
  : Prop :=
  F s t s' /\ G s t s'.

(** The frame of a cache: a populated field of [e] stays as it is and the
    resolver of [e] is not entered. *)
Definition cache_rel (e : Entity) (s : Client) (t : list event) (s' : Client)
  : Prop :=
  forall k, cache_of e s = Some k ->
            cache_of e s' = Some k /\ ~ In (Finding e) t.

(** The events of a lookup: nothing is submitted, no keypair is drawn. *)
Definition lookup_event (ev : event) : bool :=
  match ev with
  | SendTransaction _ | NewKeypair _ => false
  | _ => true
  end.

(** The frame of a lookup: the wallet, the mode and the count of drawn
    keypairs stay, and the events are those of a lookup. *)
Definition quiet_rel (s : Client) (t : list event) (s' : Client) : Prop :=
  keypair s' = keypair s /\ test_mode s' = test_mode s /\
  keys_drawn s' = keys_drawn s /\ forallb lookup_event t = true.

(** A method that always returns a value. *)
Definition total {A : Type} (m : M A) : Prop :=
  forall s, exists a s' t, m s = (Ret a, s', t).

(** The relation that holds of any run. *)
Definition any_rel (s : Client) (t : list event) (s' : Client) : Prop := True.


(** ** Further notions for the remaining methods *)

(** The client after bank resolution answered [found], and after
    lending-account resolution. *)
Definition with_bank (found : option Pubkey) (s : Client) : Client :=
  match found with
  | Some b =>
      mkClient (keypair s) (marginfi_group_key s) (Some b)
               (marginfi_account_key s) (test_mode s) (keys_drawn s)
  | None => s
  end.

Definition with_account (found : option Pubkey) (s : Client) : Client :=
  match found with
  | Some a =>
      mkClient (keypair s) (marginfi_group_key s) (sol_bank_key s) (Some a)
               (test_mode s) (keys_drawn s)
  | None => s
  end.

(** The frame of a method that leaves the field of [e] exactly as it is,
    populated or not. *)
Definition keeps_rel (e : Entity) (s : Client) (t : list event) (s' : Client)
  : Prop :=
  cache_of e s' = cache_of e s.

(** The frame of a method that leaves the whole client as it is. *)
Definition untouched_rel (s : Client) (t : list event) (s' : Client) : Prop :=
  s' = s.

(** The frame of a method whose only requests are account lookups. *)
Definition account_request (ev : event) : bool :=
  match ev with
  | GetAccountInfo _ => true
  | _ => false
  end.

Definition account_requests_rel (s : Client) (t : list event) (s' : Client)
  : Prop :=
  forallb account_request t = true.

(** The keypairs an event list draws. *)
Fixpoint drawn (t : list event) : list Keypair :=
  match t with
  | [] => []
  | NewKeypair kp :: rest => kp :: drawn rest
  | _ :: rest => drawn rest
  end.

(** The one position the parser can report. *)
Definition placeholder_position (balance_sol original : pyfloat) : Position :=
  mkPosition "SOL"%string balance_sol balance_sol original 7.28 3.8986 115.0
    "mrgnlend SOL Pool"%string
    "CCKtUs6Cgwo4aaQUmBPmyoApH2gUDErxNZCAntD6LYGh"%string 2.5.


(** ** The prompt-driven flows

    The flows read the terminal.  The answers typed at the prompts are a
    list, one per [input] call, each as [input(...).strip()] returns it;
    [input] on an exhausted list raises [EOFError], which no handler of
    the flows catches.  A flow returns the answers it left unread. *)

Inductive console (A : Type) : Type :=
| Done (a : A) (unread : list string)
| EOFError.
Arguments Done {A} a unread.
Arguments EOFError {A}.

(** [x <= y] on floats. *)
Definition float_le (x y : pyfloat) : bool := PrimFloat.leb x y.

(** [confirm in ['yes', 'y']], on the lowered answer. *)
Definition confirmed (answer : string) : bool :=
  let confirm := lower answer in
  String.eqb confirm "yes"%string || String.eqb confirm "y"%string.

Section Prompts.

Variable env : Env.

(** [float(text)] and [int(text)] on an answer: [None] stands for the
    [ValueError] of a text that is not a number. *)
Variable float_of_str : string -> option pyfloat.
Variable int_of_str : string -> option Z.

(** The loop that asks for an amount, the same in both flows but for its
    messages: an empty answer, a text that is no number, an amount not
    above zero and an amount above the maximum each ask again. *)
Fixpoint ask_amount (max_amount : pyfloat) (answers : list string)
  : console pyfloat :=
  match answers with
  | [] => EOFError
  | amount_input :: rest =>
      if String.eqb amount_input ""%string then ask_amount max_amount rest
      else
        match float_of_str amount_input with
        | None => ask_amount max_amount rest
        | Some amount =>
            if float_le amount 0 then ask_amount max_amount rest
            else if float_gt amount max_amount then ask_amount max_amount rest
            else Done amount rest
        end
  end.

Definition lending_flow (wallet_status : WalletStatus) (answers : list string)
  : M (console unit) :=
  match sol_tokens_of wallet_status with
  | [] => ret (Done tt answers)
  | t :: _ =>
      let sol_balance := balance t in
      current_apy <- get_sol_apy env ;;
      match ask_amount sol_balance answers with
      | EOFError => ret EOFError
      | Done amount rest =>
          match rest with
          | [] => ret EOFError
          | confirm :: rest =>
              if confirmed confirm
              then success <- lend_sol env amount ;; ret (Done tt rest)
              else ret (Done tt rest)
          end
      end
  end.

(** The loop that asks for a position, by its number from 1. *)
Fixpoint ask_position (positions : list Position) (answers : list string)
  : console Position :=
  match answers with
  | [] => EOFError
  | choice :: rest =>
      if String.eqb choice ""%string then ask_position positions rest
      else
        match int_of_str choice with
        | None => ask_position positions rest
        | Some n =>
            let choice_idx := n - 1 in
            if (0 <=? choice_idx) &&
               (choice_idx <? Z.of_nat (length positions))
            then
              match nth_error positions (Z.to_nat choice_idx) with
              | Some selected_position => Done selected_position rest
              | None => ask_position positions rest
              end
            else ask_position positions rest
        end
  end.

(** A position holds no [pool_id], so that
    [selected_position.get('pool_id', '')] is the empty string. *)
Definition withdrawal_flow (report : Positions) (answers : list string)
  : M (console unit) :=
  match positions report with
  | [] => ret (Done tt answers)
  | _ :: _ =>
      match ask_position (positions report) answers with
      | EOFError => ret EOFError
      | Done selected_position rest =>
          let max_amount := amount selected_position in
          match ask_amount max_amount rest with
          | EOFError => ret EOFError
          | Done amount rest =>
              match rest with
              | [] => ret EOFError
              | confirm :: rest =>
                  if confirmed confirm
                  then success <- withdraw_from_pool env ""%string amount ;;
                       ret (Done tt rest)
                  else ret (Done tt rest)
              end
          end
      end
  end.

(** The menu loop.  Every turn reads a choice, so that the loop makes at
    most as many turns as there are answers; [turns] bounds them, and
    with the number of answers as the bound the loop never stops for
    lack of turns. *)
Fixpoint menu_loop (turns : nat) (wallet_status : WalletStatus)
    (marginfi_positions : Positions) (answers : list string)
  : M (console unit) :=
  match answers, turns with
  | [], _ => ret EOFError
  | _ :: _, O => ret EOFError
  | choice :: rest, S turns =>
      if String.eqb choice "1"%string then
        flow <- lending_flow wallet_status rest ;;
        match flow with
        | EOFError => ret EOFError
        | Done _ rest =>
            wallet_status <- get_wallet_status env ;;
            marginfi_positions <- get_marginfi_positions env ;;
            menu_loop turns wallet_status marginfi_positions rest
        end
      else if String.eqb choice "2"%string then
        flow <- withdrawal_flow marginfi_positions rest ;;
        match flow with
        | EOFError => ret EOFError
        | Done _ rest =>
            wallet_status <- get_wallet_status env ;;
            marginfi_positions <- get_marginfi_positions env ;;
            menu_loop turns wallet_status marginfi_positions rest
        end
      else if String.eqb choice "3"%string then
        wallet_status <- get_wallet_status env ;;
        marginfi_positions <- get_marginfi_positions env ;;
        menu_loop turns wallet_status marginfi_positions rest
      else if String.eqb choice "4"%string then ret (Done tt rest)
      else menu_loop turns wallet_status marginfi_positions rest
  end.

(** In test mode the result of the automated flow, else [None] once the
    menu is left. *)
Definition main_menu (answers : list string) : M (console (option bool)) :=
  s <- get_self ;;
  if test_mode s
  then
    result <- test_lending_flow env 0.003 ;;
    ret (Done (Some result) answers)
  else
    wallet_status <- get_wallet_status env ;;
    marginfi_positions <- get_marginfi_positions env ;;
    outcome <- menu_loop (length answers) wallet_status marginfi_positions
              answers ;;
    match outcome with
    | Done _ rest => ret (Done None rest)
    | EOFError => ret EOFError
    end.

End Prompts.

(** A reader of the two decimal texts the examples type. *)
Definition sample_float_of_str (text : string) : option pyfloat :=
  if String.eqb text "0.5"%string then Some 0.5%float
  else if String.eqb text "0.01"%string then Some 0.01%float
  else if String.eqb text "-1"%string then Some (-1)%float
  else if String.eqb text "nan"%string then Some nan
  else None.

Definition sample_int_of_str (text : string) : option Z :=
  if String.eqb text "1"%string then Some 1
  else if String.eqb text "2"%string then Some 2
  else None.

(** What a flow leaves behind: the answers it did not read are among
    those it was given, and no more; and it submits nothing unless a
    confirming answer was among them. *)
Definition reads_from {A : Type} (answers : list string)
    (r : Res (console A)) (t : list event) : Prop :=
  (forall a unread,
      r = Ret (Done a unread) ->
      (length unread <= length answers)%nat /\
      (forall answer, In answer unread -> In answer answers)) /\
  ((forall answer, In answer answers -> confirmed answer = false) ->
   submitted t = []).
(** * Properties *)

(** ** Bytes and the hash *)

Lemma le_bytes_length (n : nat) (v : Z) : length (le_bytes n v) = n.
Proof.
  revert v; induction n as [|n IH]; intros v; simpl; [reflexivity|].
  now rewrite IH.
Qed.

Lemma le_bytes_is_byte (n : nat) (v : Z) : Forall is_byte (le_bytes n v).
Proof.
  revert v; induction n as [|n IH]; intros v; simpl; constructor.
  - unfold is_byte. apply Z.mod_pos_bound. lia.
  - apply IH.
Qed.

(** Decoding the [n] bytes gives the value back when it fits. *)
Lemma le_value_le_bytes (n : nat) (v : Z) :
  0 <= v < 256 ^ Z.of_nat n -> le_value (le_bytes n v) = v.
Proof.
  revert v; induction n as [|n IH]; intros v Hv.
  - simpl in *. lia.
  - cbn [le_bytes le_value].
    rewrite Nat2Z.inj_succ, Z.pow_succ_r in Hv by lia.
    rewrite IH.
    + pose proof (Z.div_mod v 256). lia.
    + split; [apply Z.div_pos; lia|].
      apply Z.div_lt_upper_bound; lia.
Qed.

Lemma be_bytes_length (n : nat) (v : Z) : length (be_bytes n v) = n.
Proof. unfold be_bytes. now rewrite length_rev, le_bytes_length. Qed.

Lemma be_bytes_is_byte (n : nat) (v : Z) : Forall is_byte (be_bytes n v).
Proof. unfold be_bytes. apply Forall_rev, le_bytes_is_byte. Qed.

Lemma sha256_digest_length (msg : bytes) : length (Sha256.digest msg) = 32%nat.
Proof.
  unfold Sha256.digest, Sha256.output.
  now rewrite !length_app, !be_bytes_length.
Qed.

Lemma sha256_digest_is_byte (msg : bytes) : Forall is_byte (Sha256.digest msg).
Proof.
  unfold Sha256.digest, Sha256.output.
  rewrite !Forall_app. repeat split; apply be_bytes_is_byte.
Qed.

(** The derived constants begin and end as the standard prints them. *)
Example sha256_constants :
  nth 0 Sha256.round_constants 0 = 0x428a2f98 /\
  nth 63 Sha256.round_constants 0 = 0xc67178f2 /\
  Sha256.sa Sha256.initial = 0x6a09e667 /\
  Sha256.sh Sha256.initial = 0x5be0cd19.
Proof. repeat split. Qed.

(** The published test vectors of FIPS 180-4: the empty message, a
    one-block message and a two-block message. *)
Example sha256_empty :
  Sha256.digest [] =
  [ 0xe3; 0xb0; 0xc4; 0x42; 0x98; 0xfc; 0x1c; 0x14;
    0x9a; 0xfb; 0xf4; 0xc8; 0x99; 0x6f; 0xb9; 0x24;
    0x27; 0xae; 0x41; 0xe4; 0x64; 0x9b; 0x93; 0x4c;
    0xa4; 0x95; 0x99; 0x1b; 0x78; 0x52; 0xb8; 0x55 ].
Proof. vm_compute. reflexivity. Qed.

Example sha256_abc :
  Sha256.digest (encode_utf8 "abc") =
  [ 0xba; 0x78; 0x16; 0xbf; 0x8f; 0x01; 0xcf; 0xea;
    0x41; 0x41; 0x40; 0xde; 0x5d; 0xae; 0x22; 0x23;
    0xb0; 0x03; 0x61; 0xa3; 0x96; 0x17; 0x7a; 0x9c;
    0xb4; 0x10; 0xff; 0x61; 0xf2; 0x00; 0x15; 0xad ].
Proof. vm_compute. reflexivity. Qed.

Example sha256_two_blocks :
  Sha256.digest
    (encode_utf8 "abcdbcdecdefdefgefghfghighijhijkijkljklmklmnlmnomnopnopq") =
  [ 0x24; 0x8d; 0x6a; 0x61; 0xd2; 0x06; 0x38; 0xb8;
    0xe5; 0xc0; 0x26; 0x93; 0x0c; 0x3e; 0x60; 0x39;
    0xa3; 0x3c; 0xe4; 0x59; 0x64; 0xff; 0x21; 0x67;
    0xf6; 0xec; 0xed; 0xd4; 0x19; 0xdb; 0x06; 0xc1 ].
Proof. vm_compute. reflexivity. Qed.

(** ** The discriminator *)

(** The tags of the two method names the module hashes. *)
Example discriminator_account_initialize :
  calculate_anchor_discriminator "marginfi_account_initialize" =
  [43; 78; 61; 255; 148; 52; 249; 154].
Proof. vm_compute. reflexivity. Qed.

Example discriminator_deposit :
  calculate_anchor_discriminator "lending_account_deposit" =
  [171; 94; 235; 103; 82; 64; 212; 140].
Proof. vm_compute. reflexivity. Qed.

(** The literal of [withdraw_from_pool] is the tag of the name
    [withdraw]; the tag of [lending_account_withdraw] is another one. *)
Example discriminator_withdraw_literal :
  calculate_anchor_discriminator "withdraw" =
    [183; 18; 70; 156; 148; 109; 161; 34] /\
  calculate_anchor_discriminator "lending_account_withdraw" =
    [36; 72; 74; 19; 210; 210; 192; 192].
Proof. split; vm_compute; reflexivity. Qed.

Lemma Forall_take {A : Type} (P : A -> Prop) (n : nat) (l : list A) :
  Forall P l -> Forall P (firstn n l).
Proof.
  intros H; revert n; induction H as [|x l Hx Hl IH]; intros [|n]; simpl;
    constructor; auto.
Qed.

Lemma encode_utf8_app (a b : string) :
  encode_utf8 (a ++ b) = encode_utf8 a ++ encode_utf8 b.
Proof.
  induction a as [|c a IH]; simpl; [reflexivity|]. now rewrite IH.
Qed.

(** C1: for every method name the discriminator is the first 8 bytes of
    the SHA-256 digest of the UTF-8 bytes of ["global:"] followed by the
    name; it is 8 bytes long, each a byte, and since it is a function of
    the name alone, equal names give equal tags. *)
Theorem discriminator_is_sha256_prefix (instruction_name : string) :
  calculate_anchor_discriminator instruction_name =
    firstn 8 (Sha256.digest
                (encode_utf8 "global:" ++ encode_utf8 instruction_name)) /\
  length (calculate_anchor_discriminator instruction_name) = 8%nat /\
  Forall is_byte (calculate_anchor_discriminator instruction_name) /\
  (forall other : string,
      other = instruction_name ->
      calculate_anchor_discriminator other =
      calculate_anchor_discriminator instruction_name).
Proof.
  unfold calculate_anchor_discriminator; cbv zeta.
  rewrite encode_utf8_app.
  split; [reflexivity|]. split; [|split].
  - rewrite length_firstn, sha256_digest_length. reflexivity.
  - apply Forall_take, sha256_digest_is_byte.
  - intros other ->. reflexivity.
Qed.

(** ** Running a method *)

Lemma wp_of_run {A : Type} (m : M A) Q s r s' t :
  m s = (r, s', t) -> wp m Q s -> Q r s' t.
Proof. unfold wp. intros ->. auto. Qed.

Lemma wp_bind {A B : Type} (m : M A) (f : A -> M B) Q s :
  wp m (fun r s1 t1 =>
          match r with
          | Ret a => wp (f a) (fun r2 s2 t2 => Q r2 s2 (t1 ++ t2)) s1
          | Raise e => Q (Raise e) s1 t1
          end) s ->
  wp (bind m f) Q s.
Proof.
  unfold wp, bind. destruct (m s) as [[[a|e] s1] t1]; [|auto].
  destruct (f a s1) as [[r2 s2] t2]. auto.
Qed.

Lemma wp_try {A : Type} (m : M A) (h : exn -> M A) Q s :
  wp m (fun r s1 t1 =>
          match r with
          | Ret a => Q (Ret a) s1 t1
          | Raise e => wp (h e) (fun r2 s2 t2 => Q r2 s2 (t1 ++ t2)) s1
          end) s ->
  wp (try_except m h) Q s.
Proof.
  unfold wp, try_except. destruct (m s) as [[[a|e] s1] t1]; [auto|].
  destruct (h e s1) as [[r2 s2] t2]. auto.
Qed.

Lemma wp_mono {A : Type} (m : M A) (Q Q' : Res A -> Client -> list event -> Prop) s :
  wp m Q s -> (forall r s' t, Q r s' t -> Q' r s' t) -> wp m Q' s.
Proof. unfold wp. destruct (m s) as [[r s'] t]. auto. Qed.

(** ** Frames: what a method leaves alone

    A frame relates the client before, the events, and the client after;
    it holds of doing nothing and composes along sequencing, so it holds
    of a method as soon as it holds of the steps of the method. *)

Section Stable.

Context {A B : Type} (F : frame).

Lemma stable_ret (a : A) : stable F (ret a).
Proof. intros s. apply holds_refl. Qed.

Lemma stable_raise (e : exn) : stable F (@raise A e).
Proof. intros s. apply holds_refl. Qed.

Lemma stable_lift (r : Res A) : stable F (lift r).
Proof. intros s. apply holds_refl. Qed.

Lemma stable_get_self : stable F get_self.
Proof. intros s. apply holds_refl. Qed.

Lemma stable_bind (m : M A) (f : A -> M B) :
  stable F m -> (forall a, stable F (f a)) -> stable F (bind m f).
Proof.
  intros Hm Hf s. apply wp_bind. eapply wp_mono; [apply Hm|].
  intros [a|e] s1 t1 H1; cbn; [|exact H1].
  eapply wp_mono; [apply Hf|]. intros r2 s2 t2 H2. cbn in *.
  eapply holds_trans; eassumption.
Qed.

Lemma stable_try (m : M A) (h : exn -> M A) :
  stable F m -> (forall e, stable F (h e)) -> stable F (try_except m h).
Proof.
  intros Hm Hh s. apply wp_try. eapply wp_mono; [apply Hm|].
  intros [a|e] s1 t1 H1; cbn; [exact H1|].
  eapply wp_mono; [apply Hh|]. intros r2 s2 t2 H2. cbn in *.
  eapply holds_trans; eassumption.
Qed.

(** Cutting a run at a call whose frame is known. *)
Lemma wp_frame (m : M A) (Q : Res A -> Client -> list event -> Prop) s :
  stable F m -> (forall r s' t, F s t s' -> Q r s' t) -> wp m Q s.
Proof. intros Hm HQ. eapply wp_mono; [apply Hm|]. cbn. auto. Qed.

End Stable.

(** Two frames at once. *)
Lemma both_refl (F G : frame) s : both_rel F G s [] s.
Proof. split; apply holds_refl. Qed.

Lemma both_trans (F G : frame) s t1 s1 t2 s2 :
  both_rel F G s t1 s1 -> both_rel F G s1 t2 s2 ->
  both_rel F G s (t1 ++ t2) s2.
Proof. intros [? ?] [? ?]. split; eapply holds_trans; eassumption. Qed.

Definition both (F G : frame) : frame :=
  mkFrame (both_rel F G) (both_refl F G) (both_trans F G).

Lemma stable_both {A : Type} (F G : frame) (m : M A) :
  stable F m -> stable G m -> stable (both F G) m.
Proof.
  intros HF HG s. specialize (HF s). specialize (HG s). unfold wp in *.
  destruct (m s) as [[r s'] t]. split; assumption.
Qed.

Lemma submitted_app (t1 t2 : list event) :
  submitted (t1 ++ t2) = submitted t1 ++ submitted t2.
Proof.
  induction t1 as [|e t1 IH]; simpl; [reflexivity|].
  destruct e; simpl; rewrite ?IH; reflexivity.
Qed.

(** The frame of a cache: a populated field of [e] stays as it is and the
    resolver of [e] is not entered. *)
Lemma cache_refl (e : Entity) s : cache_rel e s [] s.
Proof. intros k Hk. auto. Qed.

Lemma cache_trans (e : Entity) s t1 s1 t2 s2 :
  cache_rel e s t1 s1 -> cache_rel e s1 t2 s2 -> cache_rel e s (t1 ++ t2) s2.
Proof.
  intros H1 H2 k Hk.
  destruct (H1 _ Hk) as [Hk1 Hn1]. destruct (H2 _ Hk1) as [Hk2 Hn2].
  split; [assumption|]. rewrite in_app_iff. tauto.
Qed.

Definition cache_frame (e : Entity) : frame :=
  mkFrame (cache_rel e) (cache_refl e) (cache_trans e).

(** The frame of a lookup: the wallet, the mode and the count of drawn
    keypairs stay, nothing is submitted and no keypair is drawn. *)
Lemma quiet_refl s : quiet_rel s [] s.
Proof. repeat split. Qed.

Lemma quiet_trans s t1 s1 t2 s2 :
  quiet_rel s t1 s1 -> quiet_rel s1 t2 s2 -> quiet_rel s (t1 ++ t2) s2.
Proof.
  intros (? & ? & ? & ?) (? & ? & ? & ?). unfold quiet_rel.
  rewrite forallb_app. repeat split; try congruence.
  apply andb_true_intro; split; assumption.
Qed.

Definition quiet : frame := mkFrame quiet_rel quiet_refl quiet_trans.

(** ** Leaves of the frames *)

Create HintDb stable.

Lemma cache_emit (e : Entity) (ev : event) :
  ev <> Finding e -> stable (cache_frame e) (emit ev).
Proof.
  intros Hne s k Hk. split; [assumption|].
  simpl. intros [H|[]]. congruence.
Qed.

Lemma cache_set_group (e : Entity) (k : Pubkey) :
  e <> Group -> stable (cache_frame e) (set_marginfi_group_key k).
Proof.
  intros Hne s k' Hk'. cbn. split; [|auto].
  destruct e; cbn in *; congruence.
Qed.

Lemma cache_set_bank (e : Entity) (k : Pubkey) :
  e <> Bank -> stable (cache_frame e) (set_sol_bank_key k).
Proof.
  intros Hne s k' Hk'. cbn. split; [|auto].
  destruct e; cbn in *; congruence.
Qed.

Lemma cache_set_account (e : Entity) (k : Pubkey) :
  e <> LendingAccount -> stable (cache_frame e) (set_marginfi_account_key k).
Proof.
  intros Hne s k' Hk'. cbn. split; [|auto].
  destruct e; cbn in *; congruence.
Qed.

Lemma cache_Keypair_new (e : Entity) (env : Env) :
  stable (cache_frame e) (Keypair_new env).
Proof.
  intros s k Hk. cbn. split.
  - destruct e; cbn in *; assumption.
  - intros [H|[]]. discriminate.
Qed.

Lemma quiet_emit (ev : event) :
  lookup_event ev = true -> stable quiet (emit ev).
Proof.
  intros Hev s. cbn. unfold quiet_rel. cbn. rewrite Hev. auto.
Qed.

Lemma quiet_set_group (k : Pubkey) : stable quiet (set_marginfi_group_key k).
Proof. intros s. cbn. unfold quiet_rel. auto. Qed.

Lemma quiet_set_bank (k : Pubkey) : stable quiet (set_sol_bank_key k).
Proof. intros s. cbn. unfold quiet_rel. auto. Qed.

Lemma quiet_set_account (k : Pubkey) : stable quiet (set_marginfi_account_key k).
Proof. intros s. cbn. unfold quiet_rel. auto. Qed.

#[export] Hint Resolve cache_emit cache_set_group cache_set_bank
  cache_set_account cache_Keypair_new quiet_emit quiet_set_group
  quiet_set_bank quiet_set_account : stable.
#[export] Hint Extern 1 (_ <> _) => congruence : stable.
#[export] Hint Extern 1 (lookup_event _ = true) => reflexivity : stable.

(** One step of a frame proof: split the method along its structure. *)
Ltac stable_step :=
  lazymatch goal with
  | |- stable _ (bind _ _) => apply stable_bind; [ | intros ? ]
  | |- stable _ (try_except _ _) => apply stable_try; [ | intros ? ]
  | |- stable _ (ret _) => apply stable_ret
  | |- stable _ (raise _) => apply stable_raise
  | |- stable _ (lift _) => apply stable_lift
  | |- stable _ get_self => apply stable_get_self
  | |- stable _ (require_pubkey ?k) => unfold require_pubkey
  | |- stable _ (raise_for_status _) => unfold raise_for_status
  | |- stable _ (rpc_get_account_info _ _) => unfold rpc_get_account_info
  | |- stable _ (rpc_get_program_accounts _ _) =>
      unfold rpc_get_program_accounts
  | |- stable _ (rpc_get_balance _ _) => unfold rpc_get_balance
  | |- stable _ (rpc_get_latest_blockhash _) => unfold rpc_get_latest_blockhash
  | |- stable _ (rpc_get_minimum_balance_for_rent_exemption _ _) =>
      unfold rpc_get_minimum_balance_for_rent_exemption
  | |- stable _ (rpc_send_transaction _ _) => unfold rpc_send_transaction
  | |- stable _ (http_get _ _ _) => unfold http_get
  | |- stable _ (if ?b then _ else _) => destruct b
  | |- stable _ (match ?x with _ => _ end) => destruct x
  | |- stable _ (let _ := _ in _) => cbv zeta
  end.

Ltac stable_tac := repeat stable_step; eauto with stable.

(** ** Frames of the resolvers *)

Section ResolverFrames.

Variable env : Env.

Lemma try_known_groups_cache (e : Entity) (candidates : list string) :
  e <> Group -> stable (cache_frame e) (try_known_groups env candidates).
Proof.
  intros He. induction candidates as [|c rest IH]; cbn [try_known_groups].
  - apply stable_ret.
  - unfold try_known_group. stable_tac.
Qed.

Lemma scan_for_group_cache (e : Entity) (accounts : list KeyedAccount) :
  e <> Group -> stable (cache_frame e) (scan_for_group accounts).
Proof.
  intros He. induction accounts as [|a rest IH]; cbn [scan_for_group].
  - apply stable_ret.
  - stable_tac.
Qed.

Lemma find_marginfi_group_cache (e : Entity) :
  e <> Group -> stable (cache_frame e) (find_marginfi_group env).
Proof.
  intros He. unfold find_marginfi_group.
  pose proof (try_known_groups_cache e known_groups He).
  pose proof (scan_for_group_cache e).
  stable_tac.
Qed.

Lemma find_sol_bank_cache (e : Entity) :
  e <> Bank -> stable (cache_frame e) (find_sol_bank env).
Proof. intros He. unfold find_sol_bank. stable_tac. Qed.

Lemma find_marginfi_account_cache (e : Entity) :
  e <> LendingAccount -> stable (cache_frame e) (find_marginfi_account env).
Proof. intros He. unfold find_marginfi_account. stable_tac. Qed.

Lemma try_known_groups_quiet (candidates : list string) :
  stable quiet (try_known_groups env candidates).
Proof.
  induction candidates as [|c rest IH]; cbn [try_known_groups].
  - apply stable_ret.
  - unfold try_known_group. stable_tac.
Qed.

Lemma scan_for_group_quiet (accounts : list KeyedAccount) :
  stable quiet (scan_for_group accounts).
Proof.
  induction accounts as [|a rest IH]; cbn [scan_for_group].
  - apply stable_ret.
  - stable_tac.
Qed.

Lemma find_marginfi_group_quiet : stable quiet (find_marginfi_group env).
Proof.
  unfold find_marginfi_group.
  pose proof (try_known_groups_quiet known_groups).
  pose proof scan_for_group_quiet.
  stable_tac.
Qed.

Lemma find_sol_bank_quiet : stable quiet (find_sol_bank env).
Proof. unfold find_sol_bank. stable_tac. Qed.

Lemma find_marginfi_account_quiet : stable quiet (find_marginfi_account env).
Proof. unfold find_marginfi_account. stable_tac. Qed.

End ResolverFrames.

(** ** Frames of the methods *)

Section MethodFrames.

Variable env : Env.

#[local] Hint Resolve find_marginfi_group_cache find_sol_bank_cache
  find_marginfi_account_cache find_marginfi_group_quiet find_sol_bank_quiet
  find_marginfi_account_quiet : stable.

(** A guarded resolver keeps every cache: its own because the guard
    skips it when the field is populated, the others because it never
    touches them. *)
Lemma ensure_marginfi_group_cache (e : Entity) :
  stable (cache_frame e) (ensure_marginfi_group env).
Proof.
  destruct e; unfold ensure_marginfi_group; try solve [stable_tac].
  intros s. unfold wp, bind, get_self.
  destruct (marginfi_group_key s) eqn:Hfield; cbn.
  - intros k Hk. auto.
  - destruct (find_marginfi_group env s) as [[[r|ex] s1] t1]; cbn;
      intros k Hk; cbn in Hk; congruence.
Qed.

Lemma ensure_sol_bank_cache (e : Entity) :
  stable (cache_frame e) (ensure_sol_bank env).
Proof.
  destruct e; unfold ensure_sol_bank; try solve [stable_tac].
  intros s. unfold wp, bind, get_self.
  destruct (sol_bank_key s) eqn:Hfield; cbn.
  - intros k Hk. auto.
  - destruct (find_sol_bank env s) as [[[r|ex] s1] t1]; cbn;
      intros k Hk; cbn in Hk; congruence.
Qed.

Lemma ensure_marginfi_account_cache (e : Entity) :
  stable (cache_frame e) (ensure_marginfi_account env).
Proof.
  destruct e; unfold ensure_marginfi_account; try solve [stable_tac].
  intros s. unfold wp, bind, get_self.
  destruct (marginfi_account_key s) eqn:Hfield; cbn.
  - intros k Hk. auto.
  - destruct (find_marginfi_account env s) as [[[r|ex] s1] t1]; cbn;
      intros k Hk; cbn in Hk; congruence.
Qed.

Lemma ensure_marginfi_group_quiet : stable quiet (ensure_marginfi_group env).
Proof. unfold ensure_marginfi_group. stable_tac. Qed.

Lemma ensure_sol_bank_quiet : stable quiet (ensure_sol_bank env).
Proof. unfold ensure_sol_bank. stable_tac. Qed.

Lemma ensure_marginfi_account_quiet :
  stable quiet (ensure_marginfi_account env).
Proof. unfold ensure_marginfi_account. stable_tac. Qed.

#[local] Hint Resolve ensure_marginfi_group_cache ensure_sol_bank_cache
  ensure_marginfi_account_cache ensure_marginfi_group_quiet
  ensure_sol_bank_quiet ensure_marginfi_account_quiet : stable.

Lemma get_sol_balance_cache (e : Entity) :
  stable (cache_frame e) (get_sol_balance env).
Proof. unfold get_sol_balance. stable_tac. Qed.

Lemma get_token_prices_cache (e : Entity) (token_ids : list string) :
  stable (cache_frame e) (get_token_prices env token_ids).
Proof. unfold get_token_prices. stable_tac. Qed.

#[local] Hint Resolve get_sol_balance_cache get_token_prices_cache : stable.

Lemma get_wallet_status_cache (e : Entity) :
  stable (cache_frame e) (get_wallet_status env).
Proof. unfold get_wallet_status. stable_tac. Qed.

Lemma _get_sol_price_cache (e : Entity) :
  stable (cache_frame e) (_get_sol_price env).
Proof. unfold _get_sol_price. stable_tac. Qed.

#[local] Hint Resolve get_wallet_status_cache _get_sol_price_cache : stable.

Lemma _parse_lending_positions_cache (e : Entity) :
  stable (cache_frame e) (_parse_lending_positions env).
Proof. unfold _parse_lending_positions. stable_tac. Qed.

#[local] Hint Resolve _parse_lending_positions_cache : stable.

Lemma get_marginfi_positions_cache (e : Entity) :
  stable (cache_frame e) (get_marginfi_positions env).
Proof. unfold get_marginfi_positions. stable_tac. Qed.

Lemma get_marginfi_accounts_cache (e : Entity) :
  e <> LendingAccount -> stable (cache_frame e) (get_marginfi_accounts env).
Proof. intros He. unfold get_marginfi_accounts. stable_tac. Qed.

Lemma get_sol_apy_cache (e : Entity) :
  stable (cache_frame e) (get_sol_apy env).
Proof. unfold get_sol_apy. stable_tac. Qed.

#[local] Hint Resolve get_sol_apy_cache : stable.

Lemma get_lending_pools_cache (e : Entity) :
  stable (cache_frame e) (get_lending_pools env).
Proof. unfold get_lending_pools. stable_tac. Qed.

Lemma create_marginfi_account_cache (e : Entity) :
  e <> LendingAccount -> stable (cache_frame e) (create_marginfi_account env).
Proof. intros He. unfold create_marginfi_account. stable_tac. Qed.

Lemma lend_sol_cache (e : Entity) (amount : pyfloat) :
  e <> LendingAccount -> stable (cache_frame e) (lend_sol env amount).
Proof. intros He. unfold lend_sol. stable_tac. Qed.

Lemma withdraw_from_pool_cache (e : Entity) (pool_id : string)
    (amount : pyfloat) :
  stable (cache_frame e) (withdraw_from_pool env pool_id amount).
Proof. unfold withdraw_from_pool. stable_tac. Qed.

#[local] Hint Resolve lend_sol_cache : stable.

Lemma test_lending_flow_cache (e : Entity) (amount_sol : pyfloat) :
  e <> LendingAccount ->
  stable (cache_frame e) (test_lending_flow env amount_sol).
Proof. intros He. unfold test_lending_flow. stable_tac. Qed.

Lemma auto_lending_flow_cache (e : Entity) (wallet_status : WalletStatus)
    (amount : pyfloat) :
  e <> LendingAccount ->
  stable (cache_frame e) (auto_lending_flow env wallet_status amount).
Proof. intros He. unfold auto_lending_flow. stable_tac. Qed.

End MethodFrames.

(** ** Steps of a run *)

Section WpLeaves.

Context {A : Type} (Q : Res A -> Client -> list event -> Prop) (s : Client).

Lemma wp_ret (a : A) : Q (Ret a) s [] -> wp (ret a) Q s.
Proof. auto. Qed.

Lemma wp_raise (e : exn) : Q (Raise e) s [] -> wp (raise e) Q s.
Proof. auto. Qed.

Lemma wp_lift (r : Res A) : Q r s [] -> wp (lift r) Q s.
Proof. auto. Qed.

End WpLeaves.

Lemma wp_emit (Q : Res unit -> Client -> list event -> Prop) s (ev : event) :
  Q (Ret tt) s [ev] -> wp (emit ev) Q s.
Proof. auto. Qed.

Lemma wp_get_self (Q : Res Client -> Client -> list event -> Prop) s :
  Q (Ret s) s [] -> wp get_self Q s.
Proof. auto. Qed.

Lemma wp_put_self (Q : Res unit -> Client -> list event -> Prop) s s' :
  Q (Ret tt) s' [] -> wp (put_self s') Q s.
Proof. auto. Qed.

Lemma total_try {A : Type} (m : M A) (h : exn -> M A) :
  (forall e, total (h e)) -> total (try_except m h).
Proof.
  intros Hh s. unfold try_except.
  destruct (m s) as [[[a|e] s1] t1].
  - eauto.
  - destruct (Hh e s1) as (a & s2 & t2 & ->). eauto.
Qed.

Lemma total_ret {A : Type} (a : A) : total (ret a).
Proof. intros s. unfold ret. eauto. Qed.

Lemma total_bind {A B : Type} (m : M A) (f : A -> M B) :
  total m -> (forall a, total (f a)) -> total (bind m f).
Proof.
  intros Hm Hf s. unfold bind.
  destruct (Hm s) as (a & s1 & t1 & ->).
  destruct (Hf a s1) as (b & s2 & t2 & ->). eauto.
Qed.

(** Cutting a run at a call that always returns and whose frame is
    known. *)
Lemma wp_call {A : Type} (F : frame) (m : M A)
    (Q : Res A -> Client -> list event -> Prop) s :
  total m -> stable F m ->
  (forall a s' t, F s t s' -> Q (Ret a) s' t) -> wp m Q s.
Proof.
  intros Ht Hs HQ. specialize (Hs s). unfold wp in *.
  destruct (Ht s) as (a & s' & t & Hrun). rewrite Hrun in *. auto.
Qed.

Definition anything : frame :=
  mkFrame any_rel (fun _ => I) (fun _ _ _ _ _ _ _ => I).

Lemma stable_anything {A : Type} (m : M A) : stable anything m.
Proof. intros s. unfold wp. destruct (m s) as [[r s'] t]. exact I. Qed.

(** Closed values the methods compute on the way. *)
Lemma priority_fee_value : priority_fee = Ret 10000.
Proof. vm_compute. reflexivity. Qed.

Lemma existing_marginfi_account_parses :
  Pubkey_from_string existing_marginfi_account_str =
  Ret existing_marginfi_account_str.
Proof. vm_compute. reflexivity. Qed.

Lemma sol_bank_parses : Pubkey_from_string sol_bank_str = Ret sol_bank_str.
Proof. vm_compute. reflexivity. Qed.

Lemma create_account_checked_ret (from_pubkey to_pubkey : Pubkey)
    (lamports space : Z) (owner : Pubkey) (i : Instruction) :
  create_account_checked from_pubkey to_pubkey lamports space owner = Ret i ->
  i = create_account from_pubkey to_pubkey lamports space owner /\
  0 <= lamports < 2 ^ 64.
Proof.
  unfold create_account_checked.
  destruct ((0 <=? lamports) && (lamports <? 2 ^ 64)) eqn:Hrange;
    [|discriminate].
  intros H. injection H as <-. split; [reflexivity|].
  apply andb_true_iff in Hrange. destruct Hrange as [H1 H2].
  apply Z.leb_le in H1. apply Z.ltb_lt in H2. auto.
Qed.

Lemma int_to_bytes_ret (v : Z) (len : nat) (bs : bytes) :
  int_to_bytes v len = Ret bs ->
  bs = le_bytes len v /\ 0 <= v < 256 ^ Z.of_nat len.
Proof.
  unfold int_to_bytes.
  destruct ((0 <=? v) && (v <? 256 ^ Z.of_nat len)) eqn:Hrange;
    [|discriminate].
  intros H. injection H as <-. split; [reflexivity|].
  apply andb_true_iff in Hrange. destruct Hrange as [H1 H2].
  apply Z.leb_le in H1. apply Z.ltb_lt in H2. auto.
Qed.

Lemma AccountMeta_new_ret (k : option Pubkey) (signer writable : bool)
    (m : AccountMeta) :
  AccountMeta_new k signer writable = Ret m ->
  exists p, k = Some p /\ m = mkAccountMeta p signer writable.
Proof.
  destruct k as [p|]; cbn; [|discriminate].
  intros H. injection H as <-. eauto.
Qed.

(** The projections and list functions a run reduces through. *)
Ltac run_simpl :=
  cbn [keypair marginfi_group_key sol_bank_key marginfi_account_key
       test_mode keys_drawn is_some negb fst snd app cache_of pubkey
       meta_pubkey is_signer is_writable andb orb AccountMeta_new].

(** Bring the known values of the fields into the goal. *)
Ltac use_fields :=
  repeat match goal with
         | H : keypair ?x = _ |- context [keypair ?x] => rewrite H
         | H : keys_drawn ?x = _ |- context [keys_drawn ?x] => rewrite H
         | H : test_mode ?x = _ |- context [test_mode ?x] => rewrite H
         | H : marginfi_group_key ?x = _ |- context [marginfi_group_key ?x] =>
             rewrite H
         | H : sol_bank_key ?x = _ |- context [sol_bank_key ?x] => rewrite H
         | H : marginfi_account_key ?x = _
           |- context [marginfi_account_key ?x] => rewrite H
         end.

(** One step of a run in the goal. *)
Ltac wp_step :=
  lazymatch goal with
  | |- wp (bind _ _) _ _ => apply wp_bind
  | |- wp (try_except _ _) _ _ => apply wp_try
  | |- wp (ret _) _ _ => apply wp_ret
  | |- wp (raise _) _ _ => apply wp_raise
  | |- wp (lift _) _ _ =>
      apply wp_lift;
      rewrite ?priority_fee_value, ?existing_marginfi_account_parses,
        ?sol_bank_parses
  | |- wp (emit _) _ _ => apply wp_emit
  | |- wp get_self _ _ => apply wp_get_self
  | |- wp (put_self _) _ _ => apply wp_put_self
  | |- wp (set_marginfi_group_key _) _ _ => unfold set_marginfi_group_key
  | |- wp (set_sol_bank_key _) _ _ => unfold set_sol_bank_key
  | |- wp (set_marginfi_account_key _) _ _ => unfold set_marginfi_account_key
  | |- wp (Keypair_new _) _ _ => unfold Keypair_new
  | |- wp (require_pubkey _) _ _ => unfold require_pubkey
  | |- wp (raise_for_status _) _ _ => unfold raise_for_status
  | |- wp (rpc_get_account_info _ _) _ _ => unfold rpc_get_account_info
  | |- wp (rpc_get_program_accounts _ _) _ _ => unfold rpc_get_program_accounts
  | |- wp (rpc_get_balance _ _) _ _ => unfold rpc_get_balance
  | |- wp (rpc_get_latest_blockhash _) _ _ => unfold rpc_get_latest_blockhash
  | |- wp (rpc_get_minimum_balance_for_rent_exemption _ _) _ _ =>
      unfold rpc_get_minimum_balance_for_rent_exemption
  | |- wp (rpc_send_transaction _ _) _ _ => unfold rpc_send_transaction
  | |- wp (http_get _ _ _) _ _ => unfold http_get
  | |- wp (if negb (is_some ?o) then _ else _) _ _ => destruct o eqn:?
  | |- wp (if is_some ?o then _ else _) _ _ => destruct o eqn:?
  | |- wp (if ?b then _ else _) _ _ => destruct b eqn:?
  | |- wp (match ?x with _ => _ end) _ _ => destruct x eqn:?
  | |- match ?r with Ret _ => _ | Raise _ => _ end => destruct r eqn:?
  end; cbv beta iota zeta; run_simpl.

Ltac wp_run := cbv beta iota zeta; repeat (use_fields; wp_step).

(** ** Methods that always return *)

Section Totality.

Variable env : Env.

Lemma find_marginfi_group_total : total (find_marginfi_group env).
Proof. apply total_try. intros e. apply total_ret. Qed.

Lemma find_sol_bank_total : total (find_sol_bank env).
Proof. apply total_try. intros e. apply total_ret. Qed.

Lemma find_marginfi_account_total : total (find_marginfi_account env).
Proof. apply total_try. intros e. apply total_ret. Qed.

Lemma ensure_marginfi_group_total : total (ensure_marginfi_group env).
Proof.
  intros s. unfold ensure_marginfi_group, bind, get_self, ret.
  destruct (is_some (marginfi_group_key s)); [eauto|].
  destruct (find_marginfi_group_total s) as (a & s1 & t1 & ->). eauto.
Qed.

Lemma ensure_sol_bank_total : total (ensure_sol_bank env).
Proof.
  intros s. unfold ensure_sol_bank, bind, get_self, ret.
  destruct (is_some (sol_bank_key s)); [eauto|].
  destruct (find_sol_bank_total s) as (a & s1 & t1 & ->). eauto.
Qed.

Lemma ensure_marginfi_account_total : total (ensure_marginfi_account env).
Proof.
  intros s. unfold ensure_marginfi_account, bind, get_self, ret.
  destruct (is_some (marginfi_account_key s)); [eauto|].
  destruct (find_marginfi_account_total s) as (a & s1 & t1 & ->). eauto.
Qed.

Lemma get_sol_balance_total : total (get_sol_balance env).
Proof. apply total_try. intros e. apply total_ret. Qed.

Lemma get_token_prices_total (token_ids : list string) :
  total (get_token_prices env token_ids).
Proof. apply total_try. intros e. apply total_ret. Qed.

Lemma get_sol_apy_total : total (get_sol_apy env).
Proof. apply total_try. intros e. apply total_ret. Qed.

Lemma lend_sol_total (amount : pyfloat) : total (lend_sol env amount).
Proof. apply total_try. intros e. apply total_ret. Qed.

(** [get_wallet_status] has no handler of its own: it returns because
    the two calls it makes do. *)
Lemma get_wallet_status_total : total (get_wallet_status env).
Proof.
  unfold get_wallet_status.
  apply total_bind; [apply get_sol_balance_total|]. intros sol_balance.
  apply total_bind; [apply get_token_prices_total|]. intros prices.
  cbv zeta. apply total_bind; [|intros s; apply total_ret].
  intros s. unfold get_self. eauto.
Qed.

End Totality.

(** ** The frame of the guarded resolvers *)

(** All at once: a lookup that keeps every populated cache. *)
Definition calm : frame :=
  both quiet
    (both (cache_frame Group)
       (both (cache_frame Bank) (cache_frame LendingAccount))).

Lemma ensure_marginfi_group_calm (env : Env) :
  stable calm (ensure_marginfi_group env).
Proof.
  repeat apply stable_both;
    auto using ensure_marginfi_group_quiet, ensure_marginfi_group_cache.
Qed.

Lemma ensure_sol_bank_calm (env : Env) : stable calm (ensure_sol_bank env).
Proof.
  repeat apply stable_both;
    auto using ensure_sol_bank_quiet, ensure_sol_bank_cache.
Qed.

Lemma ensure_marginfi_account_calm (env : Env) :
  stable calm (ensure_marginfi_account env).
Proof.
  repeat apply stable_both;
    auto using ensure_marginfi_account_quiet, ensure_marginfi_account_cache.
Qed.

Lemma lookup_submits_nothing (t : list event) :
  forallb lookup_event t = true -> submitted t = [].
Proof.
  induction t as [|ev t IH]; [reflexivity|]. cbn [forallb].
  intros H. apply andb_true_iff in H. destruct H as [Hev Ht].
  destruct ev; cbn in *; try discriminate; auto.
Qed.

(** What a calm call leaves: the fixed fields, nothing submitted, and
    each populated cache as it was. *)
Lemma calm_facts (s s' : Client) (t : list event) :
  calm s t s' ->
  keypair s' = keypair s /\ test_mode s' = test_mode s /\
  keys_drawn s' = keys_drawn s /\ submitted t = [] /\
  (forall k, marginfi_group_key s = Some k -> marginfi_group_key s' = Some k) /\
  (forall k, sol_bank_key s = Some k -> sol_bank_key s' = Some k) /\
  (forall k, marginfi_account_key s = Some k ->
             marginfi_account_key s' = Some k).
Proof.
  intros ((Hkp & Htm & Hkd & Hev) & HG & HB & HA).
  repeat split; auto using lookup_submits_nothing.
  - intros k Hk. apply (HG k Hk).
  - intros k Hk. apply (HB k Hk).
  - intros k Hk. apply (HA k Hk).
Qed.

(** Carry each populated cache across a calm call. *)
Ltac use_caches :=
  repeat match goal with
         | H : forall k, Some ?p = Some k -> _ |- _ =>
             specialize (H p eq_refl)
         | H : forall k, ?f ?s = Some k -> _, E : ?f ?s = Some ?p |- _ =>
             specialize (H p E)
         | H : forall k, None = Some k -> _ |- _ => clear H
         end.

(** Cut a run at a guarded resolver and keep what it leaves. *)
Ltac wp_ensure lemma_total lemma_calm :=
  apply (wp_call calm);
  [ apply lemma_total | apply lemma_calm | ];
  let a := fresh "a" in
  let s' := fresh "s" in
  let t := fresh "t" in
  let H := fresh "Hcalm" in
  intros a s' t H; apply calm_facts in H;
  destruct H as (?Hkp & ?Htm & ?Hkd & ?Hsub & ?HG & ?HB & ?HA);
  cbn [keypair marginfi_group_key sol_bank_key marginfi_account_key
       test_mode keys_drawn] in *;
  use_caches; cbv beta iota zeta; run_simpl.

(** Reduce [submitted] over the events of a leaf. *)
Ltac submitted_simpl :=
  rewrite ?submitted_app; cbn [submitted app];
  rewrite ?submitted_app; cbn [submitted app];
  repeat match goal with
         | H : submitted _ = [] |- _ => rewrite H
         end;
  cbn [submitted app].

(** Close a leaf at which nothing was submitted. *)
Ltac nothing_submitted := left; submitted_simpl; reflexivity.

(** What the checked constructors returned. *)
Ltac built :=
  repeat match goal with
         | H : create_account_checked _ _ _ _ _ = Ret _ |- _ =>
             apply create_account_checked_ret in H; destruct H as [-> ?]
         | H : int_to_bytes _ _ = Ret _ |- _ =>
             apply int_to_bytes_ret in H; destruct H as [-> ?]
         | H : AccountMeta_new _ _ _ = Ret _ |- _ =>
             apply AccountMeta_new_ret in H;
             let p := fresh "p" in
             let Hp := fresh "Hp" in
             destruct H as (p & Hp & ->)
         end.

(** ** The caches across operations *)

Lemma stable_effects {A : Type} (e : Entity) (m : M A) :
  stable (cache_frame e) m -> respects_cache e (effects m).
Proof.
  intros Hm s k Hk. specialize (Hm s). unfold wp, effects in *.
  destruct (m s) as [[r s'] t]. cbn. apply Hm. assumption.
Qed.

(** One operation keeps the group and bank fields, and the
    lending-account field unless it is one of the operations that assign
    it. *)
Lemma run_respects_cache (env : Env) (op : operation) (e : Entity) :
  (e = LendingAccount -> rewrites_lending_account op = false) ->
  respects_cache e (run env op).
Proof.
  intros He.
  assert (Hne : rewrites_lending_account op = true -> e <> LendingAccount)
    by (intros Hop Heq; rewrite (He Heq) in Hop; discriminate).
  destruct op; cbn [run]; apply stable_effects;
    auto using create_marginfi_account_cache, lend_sol_cache,
      withdraw_from_pool_cache, test_lending_flow_cache,
      auto_lending_flow_cache, get_sol_apy_cache, get_lending_pools_cache,
      get_marginfi_positions_cache, get_marginfi_accounts_cache,
      get_wallet_status_cache, get_sol_balance_cache, get_token_prices_cache.
Qed.

Lemma run_session_respects_cache (e : Entity) (steps : list (Env * operation)) :
  (e = LendingAccount ->
   forallb (fun step => negb (rewrites_lending_account (snd step))) steps
   = true) ->
  respects_cache e (run_session steps).
Proof.
  induction steps as [|[env op] rest IH]; intros He s k Hk.
  - cbn. auto.
  - cbn [run_session].
    assert (Hop : e = LendingAccount -> rewrites_lending_account op = false).
    { intros Heq. specialize (He Heq). cbn in He.
      apply andb_true_iff in He. destruct He as [He _].
      now apply negb_true_iff in He. }
    assert (Hrest : e = LendingAccount ->
                    forallb (fun step =>
                               negb (rewrites_lending_account (snd step))) rest
                    = true).
    { intros Heq. specialize (He Heq). cbn in He.
      apply andb_true_iff in He. tauto. }
    destruct (run_respects_cache env op e Hop s k Hk) as [Hk1 Hn1].
    destruct (run env op s) as [s1 t1]. cbn in Hk1, Hn1.
    destruct (IH Hrest s1 k Hk1) as [Hk2 Hn2].
    destruct (run_session rest s1) as [s2 t2]. cbn in *.
    split; [assumption|]. rewrite in_app_iff. tauto.
Qed.

(** C7, as the code has it: across any session of operations, each
    against whatever the backend answers at that time, a populated group
    field and a populated bank field are never replaced and their
    resolvers are not entered again; the same holds of the lending-account
    field in a session without the operations that assign it
    ([lend_sol] and the flows ending in it, [create_marginfi_account],
    [get_marginfi_accounts]). *)
Theorem caches_respected_in_session (steps : list (Env * operation)) :
  respects_cache Group (run_session steps) /\
  respects_cache Bank (run_session steps) /\
  (forallb (fun step => negb (rewrites_lending_account (snd step))) steps
   = true ->
   respects_cache LendingAccount (run_session steps)).
Proof.
  split; [|split].
  - apply run_session_respects_cache. discriminate.
  - apply run_session_respects_cache. discriminate.
  - intros H. apply run_session_respects_cache. auto.
Qed.

(** C7 as stated fails for the lending account: the field holds a newly
    created account, and [lend_sol] assigns the pinned address to it. *)
Lemma lend_sol_replaces_cached_account :
  cache_of LendingAccount populated_client =
    Some (pubkey (sample_keypair 0)) /\
  cache_of LendingAccount
    (fst (run sample_env (OpLendSol 0.02) populated_client)) =
    Some existing_marginfi_account_str /\
  ~ respects_cache LendingAccount (run sample_env (OpLendSol 0.02)).
Proof.
  split; [reflexivity|]. split; [vm_compute; reflexivity|].
  intros H.
  destruct (H populated_client (pubkey (sample_keypair 0)) eq_refl) as [Hk _].
  vm_compute in Hk. discriminate.
Qed.

(** The same from the unguarded resolver call of
    [get_marginfi_accounts]: the resolver is entered although the field
    is populated. *)
Example get_marginfi_accounts_resolves_again :
  In (Finding LendingAccount)
     (snd (run sample_env OpGetMarginfiAccounts populated_client)).
Proof. vm_compute. auto. Qed.

(** ** Group resolution *)

Lemma Pubkey_from_string_ret (s : string) (k : Pubkey) :
  Pubkey_from_string s = Ret k -> k = s.
Proof.
  unfold Pubkey_from_string.
  destruct (Base58.decoded_length s) as [[|p|p]|]; try discriminate.
  destruct (Z.pos p =? 32) eqn:Hp.
  - apply Z.eqb_eq in Hp. injection Hp as ->. congruence.
  - assert (Z.pos p <> 32) by (apply Z.eqb_neq; assumption).
    repeat (destruct p as [p|p|]; try discriminate; try congruence).
Qed.

Section GroupResolution.

Variable env : Env.

(** The loop over the known addresses returns the first accepted one
    and stores it; with none accepted the client is as before. *)
Lemma try_known_groups_run (candidates : list string) (s : Client) :
  exists t,
    try_known_groups env candidates s =
    (Ret (find (accepted_candidate env) candidates),
     with_group (find (accepted_candidate env) candidates) s, t).
Proof.
  revert s. induction candidates as [|c rest IH]; intros s.
  - exists []. reflexivity.
  - cbn [try_known_groups find].
    unfold bind at 1, try_known_group, try_except, bind, lift, ret,
      rpc_get_account_info, emit, accepted_candidate.
    destruct (Pubkey_from_string c) as [k|ex] eqn:Hparse.
    + apply Pubkey_from_string_ret in Hparse. subst k. cbn.
      destruct (get_account_info env c) as [value|ex]; cbn.
      * destruct (owned_by_marginfi value); cbn.
        -- eexists. reflexivity.
        -- destruct (IH s) as [t Ht]. unfold accepted_candidate in Ht.
           rewrite Ht. eexists. reflexivity.
      * destruct (IH s) as [t Ht]. unfold accepted_candidate in Ht.
        rewrite Ht. eexists. reflexivity.
    + cbn. destruct (IH s) as [t Ht]. unfold accepted_candidate in Ht.
      rewrite Ht. eexists. reflexivity.
Qed.

(** The scan returns the first listed account of group size, silently. *)
Lemma scan_for_group_run (accounts : list KeyedAccount) (s : Client) :
  scan_for_group accounts s =
  (Ret (option_map keyed_pubkey
          (find (fun a => group_sized (data_size_of a)) accounts)),
   with_group (option_map keyed_pubkey
                 (find (fun a => group_sized (data_size_of a)) accounts)) s,
   []).
Proof.
  induction accounts as [|a rest IH]; [reflexivity|].
  cbn [scan_for_group find]. unfold data_size_of at 1 3.
  destruct (group_sized _); [reflexivity|]. exact IH.
Qed.

Lemma find_marginfi_group_run (s : Client) :
  exists t,
    find_marginfi_group env s =
    (Ret (group_resolution group_sized env),
     with_group (group_resolution group_sized env) s, t).
Proof.
  unfold find_marginfi_group, group_resolution.
  unfold try_except, bind, emit. cbv beta iota.
  destruct (try_known_groups_run known_groups s) as [t Ht]. rewrite Ht.
  destruct (find (accepted_candidate env) known_groups) as [g|].
  - eexists. reflexivity.
  - unfold rpc_get_program_accounts, bind, emit, lift, ret.
    cbv beta iota.
    destruct (get_program_accounts env MARGINFI_PROGRAM_ID)
      as [[accounts|]|ex].
    + rewrite scan_for_group_run.
      destruct (find _ accounts); eexists; reflexivity.
    + eexists. reflexivity.
    + eexists. reflexivity.
Qed.

End GroupResolution.

(** C6, as the code has it: the resolver returns, and stores, the first
    known address that parses and that the backend reports as an account
    owned by the lending program; with none, the first account listed
    under the lending program whose data is longer than 10,000 and
    shorter than 15,000 bytes; with neither (or when the listing fails)
    it returns [None], raises nothing, and leaves the client as it was. *)
Theorem find_marginfi_group_resolves (env : Env) (s : Client) :
  exists t,
    find_marginfi_group env s =
    (Ret (group_resolution group_sized env),
     with_group (group_resolution group_sized env) s, t) /\
    (group_resolution group_sized env = None ->
     with_group (group_resolution group_sized env) s = s) /\
    (forall g, group_resolution group_sized env = Some g ->
               marginfi_group_key
                 (with_group (group_resolution group_sized env) s) = Some g).
Proof.
  destruct (find_marginfi_group_run env s) as [t Ht].
  exists t. split; [exact Ht|]. split.
  - intros ->. reflexivity.
  - intros g ->. reflexivity.
Qed.

(** C6 as stated reads the range as 10,000 to 15,000 bytes: an account of
    exactly 10,000 bytes is in that range and the code passes it over,
    returning [None]; so it does at exactly 15,000. *)
Lemma group_of_10000_bytes_not_selected :
  group_resolution spec_group_sized (one_account_env 10000) =
    Some "ListedAccount1111111111111111111111111111111"%string /\
  fst (fst (find_marginfi_group (one_account_env 10000) fresh_client)) =
    Ret None.
Proof. split; vm_compute; reflexivity. Qed.

Example group_of_15000_bytes_not_selected :
  group_resolution spec_group_sized (one_account_env 15000) =
    Some "ListedAccount1111111111111111111111111111111"%string /\
  fst (fst (find_marginfi_group (one_account_env 15000) fresh_client)) =
    Ret None.
Proof. split; vm_compute; reflexivity. Qed.

(** Inside the bounds both readings select the account. *)
Example group_of_12000_bytes_selected :
  fst (fst (find_marginfi_group (one_account_env 12000) fresh_client)) =
    Ret (Some "ListedAccount1111111111111111111111111111111"%string).
Proof. vm_compute. reflexivity. Qed.

(** ** The supply rate *)

(** The rate the backend's answer for the bank gives. *)
Lemma parse_bank_apy_cases (bank_data : bytes) :
  (Z.of_nat (length bank_data) < 200 -> parse_bank_apy bank_data = 0%float) /\
  (200 <= Z.of_nat (length bank_data) -> parse_bank_apy bank_data = 2.5%float).
Proof.
  unfold parse_bank_apy. split; intros H.
  - apply Z.ltb_lt in H. now rewrite H.
  - apply Z.ltb_ge in H. now rewrite H.
Qed.

(** C10: [parse_bank_apy] is 0.0 below 200 bytes and 2.5 from 200 bytes
    on, whatever the bytes are; [get_sol_apy] always returns, with 0.0
    when the bank field is still unresolved after the guarded resolver,
    when the account request raises or finds no account, and with the
    parsed rate of the fetched data otherwise: 2.5 when it has at least
    200 bytes. *)
Theorem bank_apy_is_placeholder :
  (forall bank_data : bytes,
      (Z.of_nat (length bank_data) < 200 ->
       parse_bank_apy bank_data = 0%float) /\
      (200 <= Z.of_nat (length bank_data) ->
       parse_bank_apy bank_data = 2.5%float)) /\
  (forall b1 b2 : bytes,
      length b1 = length b2 -> parse_bank_apy b1 = parse_bank_apy b2) /\
  (forall (env : Env) (s : Client),
      exists rate s' t,
        get_sol_apy env s = (Ret rate, s', t) /\
        match sol_bank_key s' with
        | None => rate = 0%float
        | Some bank_key =>
            match get_account_info env bank_key with
            | Ret (Some a) =>
                rate = parse_bank_apy (account_data a) /\
                (200 <= Z.of_nat (length (account_data a)) ->
                 rate = 2.5%float)
            | Ret None => rate = 0%float
            | Raise _ => rate = 0%float
            end
        end).
Proof.
  split; [exact parse_bank_apy_cases|]. split.
  - intros b1 b2 H. unfold parse_bank_apy. now rewrite H.
  - intros env s.
    assert (H : wp (get_sol_apy env)
                  (fun r s' t =>
                     exists rate, r = Ret rate /\
                       match sol_bank_key s' with
                       | None => rate = 0%float
                       | Some bank_key =>
                           match get_account_info env bank_key with
                           | Ret (Some a) =>
                               rate = parse_bank_apy (account_data a) /\
                               (200 <= Z.of_nat (length (account_data a)) ->
                                rate = 2.5%float)
                           | Ret None => rate = 0%float
                           | Raise _ => rate = 0%float
                           end
                       end) s).
    { unfold get_sol_apy. apply wp_try. apply wp_bind.
      apply (wp_call anything);
        [apply ensure_sol_bank_total|apply stable_anything|].
      intros [] s1 t1 _. wp_run;
        (eexists; split; [reflexivity|]);
        repeat match goal with
               | H : sol_bank_key _ = _ |- _ => rewrite H
               | H : get_account_info _ _ = _ |- _ => rewrite H
               end;
        try reflexivity;
        match goal with
        | H : account_data _ = _ |- _ => rewrite H
        end;
        (split; [reflexivity|]); intros Hlen;
        first [ apply parse_bank_apy_cases; assumption
              | cbn in Hlen; lia ]. }
    unfold wp in H. destruct (get_sol_apy env s) as [[r s'] t].
    destruct H as (rate & -> & H). eauto.
Qed.

(** ** The wallet report without a price *)

(** A product with zero never exceeds the display threshold: it is a
    zero, or NaN when the other factor is infinite or NaN. *)
Lemma zero_value_below_threshold (sol_balance : pyfloat) :
  float_gt (sol_balance * 0) 0.1 = false.
Proof.
  unfold float_gt. rewrite ltb_spec, mul_spec.
  replace (Prim2SF 0) with (S754_zero false) by reflexivity.
  replace (Prim2SF 0.1) with (S754_finite false 7205759403792794 (-56))
    by (vm_compute; reflexivity).
  destruct (Prim2SF sol_balance) as [sb|sb| |sb mb eb]; reflexivity.
Qed.

(** The balance request changes nothing on the client and never raises. *)
Lemma get_sol_balance_run (env : Env) (s : Client) :
  exists sol_balance,
    get_sol_balance env s =
    (Ret sol_balance, s, [GetBalance (pubkey (keypair s))]).
Proof.
  unfold get_sol_balance, try_except, bind, get_self, rpc_get_balance, bind,
    emit, lift, ret. cbv beta iota.
  destruct (get_balance env (pubkey (keypair s))) as [value|ex];
    cbv beta iota; [|eauto].
  destruct (value =? 0); cbv beta iota; [eauto|].
  destruct (float_of_int value) as [lamports|ex]; cbv beta iota; [|eauto].
  destruct (float_truediv lamports 1e9) as [sol|ex]; cbv beta iota; eauto.
Qed.

(** C8: when the price request raises, [get_token_prices] answers with
    the pinned price 0.0 for [SOL], and [get_wallet_status] returns a
    report all the same (the wallet address, no token above the display
    threshold, a total of 0) and raises nothing; the client is
    unchanged. *)
Theorem wallet_status_survives_price_outage (env : Env) (s : Client) (e : exn) :
  requests_get env sol_price_url sol_price_params = Raise e ->
  get_token_prices env ["SOL"%string] s =
    (Ret [("SOL"%string, 0%float)], s, [HttpGet sol_price_url sol_price_params])
  /\
  get_wallet_status env s =
    (Ret (mkWalletStatus (pubkey (keypair s)) [] (PyInt 0)), s,
     [GetBalance (pubkey (keypair s));
      HttpGet sol_price_url sol_price_params]).
Proof.
  intros Hdown.
  assert (Hprices :
            get_token_prices env ["SOL"%string] s =
            (Ret [("SOL"%string, 0%float)], s,
             [HttpGet sol_price_url sol_price_params])).
  { unfold get_token_prices, try_except, bind, http_get, bind, emit, lift.
    cbv beta iota zeta.
    change (join_comma (map coin_id_of ["SOL"%string])) with "solana"%string.
    fold sol_price_url. fold sol_price_params.
    rewrite Hdown. reflexivity. }
  split; [exact Hprices|].
  unfold get_wallet_status. unfold bind at 1.
  destruct (get_sol_balance_run env s) as [sol_balance ->].
  unfold bind at 1. rewrite Hprices.
  change (dict_get_default [("SOL"%string, 0%float)] "SOL" 0%float)
    with 0%float.
  cbv zeta. rewrite zero_value_below_threshold. reflexivity.
Qed.

Lemma wallet_status_survives_price_outage_witness :
  requests_get offline_price_env sol_price_url sol_price_params =
    Raise (BackendError "ConnectionError") /\
  get_wallet_status offline_price_env fresh_client =
    (Ret (mkWalletStatus (pubkey sample_wallet) [] (PyInt 0)), fresh_client,
     [GetBalance (pubkey sample_wallet);
      HttpGet sol_price_url sol_price_params]).
Proof.
  split; [reflexivity|].
  apply (wallet_status_survives_price_outage offline_price_env fresh_client
           (BackendError "ConnectionError")).
  reflexivity.
Defined.

(** With the price API answering, the same wallet is reported with its
    token. *)
Example wallet_status_with_price :
  fst (fst (get_wallet_status sample_env fresh_client)) =
  Ret (mkWalletStatus (pubkey sample_wallet)
         [mkTokenEntry "SOL" 1 100 100] (PyFloat 100)).
Proof. vm_compute. reflexivity. Qed.

(** ** The transaction of [lend_sol] *)

Lemma lend_sol_submits (env : Env) (amount : pyfloat) (s : Client) :
  wp (lend_sol env amount)
     (fun r s' t =>
        submitted t = [] \/
        exists amount_lamports group bank_key rent_lamports blockhash,
          int_of_float (amount * 1e9) = Ret amount_lamports /\
          0 <= amount_lamports < 2 ^ 64 /\
          marginfi_group_key s' = Some group /\
          sol_bank_key s' = Some bank_key /\
          submitted t =
          [ mkTransaction
              [ set_compute_unit_limit 400000;
                set_compute_unit_price 10000;
                create_account (pubkey (keypair s))
                  (pubkey (fresh_keypair env (keys_drawn s)))
                  (rent_lamports + amount_lamports) ACCOUNT_LEN
                  TOKEN_PROGRAM_ID;
                initialize_account TOKEN_PROGRAM_ID
                  (pubkey (fresh_keypair env (keys_drawn s)))
                  SOL_MINT_PUBKEY (pubkey (keypair s));
                Instruction_new MARGINFI_PROGRAM_ID
                  (calculate_anchor_discriminator "lending_account_deposit"
                   ++ le_bytes 8 amount_lamports ++ [0])
                  [ mkAccountMeta group false false;
                    mkAccountMeta existing_marginfi_account_str false true;
                    mkAccountMeta (pubkey (keypair s)) true true;
                    mkAccountMeta bank_key false true;
                    mkAccountMeta
                      (pubkey (fresh_keypair env (keys_drawn s))) false true;
                    mkAccountMeta
                      (fst (find_program_address env
                              (liquidity_vault_seeds bank_key)
                              MARGINFI_PROGRAM_ID)) false true;
                    mkAccountMeta TOKEN_PROGRAM_ID false false ];
                close_account
                  (pubkey (fresh_keypair env (keys_drawn s)))
                  (pubkey (keypair s)) (pubkey (keypair s))
                  TOKEN_PROGRAM_ID ]
              (pubkey (keypair s))
              [keypair s; fresh_keypair env (keys_drawn s)]
              blockhash ]) s.
Proof.
  unfold lend_sol. wp_run.
  all: try (left; reflexivity).
  all: wp_ensure ensure_marginfi_group_total ensure_marginfi_group_calm.
  all: wp_run; try nothing_submitted.
  all: wp_ensure ensure_sol_bank_total ensure_sol_bank_calm.
  all: wp_run; try nothing_submitted.
  all: built; right; do 5 eexists.
  all: split; [reflexivity|]; split; [assumption|].
  all: split; [reflexivity|]; split; [reflexivity|].
  all: submitted_simpl; reflexivity.
Qed.

(** ** The transaction of [withdraw_from_pool] *)

Lemma withdraw_from_pool_submits (env : Env) (pool_id : string)
    (amount : pyfloat) (s : Client) :
  wp (withdraw_from_pool env pool_id amount)
     (fun r s' t =>
        submitted t = [] \/
        exists amount_lamports group bank_key account rent_lamports blockhash,
          int_of_float (amount * 1e9) = Ret amount_lamports /\
          0 <= amount_lamports < 2 ^ 64 /\
          marginfi_group_key s' = Some group /\
          sol_bank_key s' = Some bank_key /\
          marginfi_account_key s' = Some account /\
          submitted t =
          [ mkTransaction
              [ set_compute_unit_limit 400000;
                set_compute_unit_price 10000;
                create_account (pubkey (keypair s))
                  (pubkey (fresh_keypair env (keys_drawn s)))
                  rent_lamports ACCOUNT_LEN TOKEN_PROGRAM_ID;
                initialize_account TOKEN_PROGRAM_ID
                  (pubkey (fresh_keypair env (keys_drawn s)))
                  SOL_MINT_PUBKEY (pubkey (keypair s));
                Instruction_new MARGINFI_PROGRAM_ID
                  ([183; 18; 70; 156; 148; 109; 161; 34]
                   ++ le_bytes 8 amount_lamports)
                  [ mkAccountMeta account false true;
                    mkAccountMeta group false false;
                    mkAccountMeta
                      (pubkey (fresh_keypair env (keys_drawn s))) false true;
                    mkAccountMeta bank_key false true;
                    mkAccountMeta
                      (fst (find_program_address env
                              (liquidity_vault_seeds bank_key)
                              MARGINFI_PROGRAM_ID)) false true;
                    mkAccountMeta TOKEN_PROGRAM_ID false false;
                    mkAccountMeta (pubkey (keypair s)) true true ];
                close_account
                  (pubkey (fresh_keypair env (keys_drawn s)))
                  (pubkey (keypair s)) (pubkey (keypair s))
                  TOKEN_PROGRAM_ID ]
              (pubkey (keypair s))
              [keypair s; fresh_keypair env (keys_drawn s)]
              blockhash ]) s.
Proof.
  unfold withdraw_from_pool. wp_run.
  all: try (left; reflexivity).
  all: wp_ensure ensure_marginfi_account_total ensure_marginfi_account_calm.
  all: wp_run; try nothing_submitted.
  all: wp_ensure ensure_sol_bank_total ensure_sol_bank_calm.
  all: wp_run; try nothing_submitted.
  all: built; right; do 6 eexists.
  all: split; [reflexivity|]; split; [assumption|].
  all: split; [eassumption|]; split; [reflexivity|]; split; [reflexivity|].
  all: submitted_simpl; reflexivity.
Qed.

(** ** The transaction of [create_marginfi_account] *)

Lemma create_marginfi_account_submits (env : Env) (s : Client) :
  wp (create_marginfi_account env)
     (fun r s' t =>
        submitted t = [] \/
        exists group blockhash,
          marginfi_group_key s' = Some group /\
          In (NewKeypair (fresh_keypair env (keys_drawn s))) t /\
          submitted t =
          [ mkTransaction
              [ set_compute_unit_limit 300000;
                set_compute_unit_price 10000;
                Instruction_new MARGINFI_PROGRAM_ID
                  (calculate_anchor_discriminator "marginfi_account_initialize")
                  [ mkAccountMeta group false false;
                    mkAccountMeta
                      (pubkey (fresh_keypair env (keys_drawn s))) true true;
                    mkAccountMeta (pubkey (keypair s)) true false;
                    mkAccountMeta (pubkey (keypair s)) true true;
                    mkAccountMeta SYSTEM_PROGRAM_ID false false ] ]
              (pubkey (keypair s))
              [keypair s; fresh_keypair env (keys_drawn s)]
              blockhash ]) s.
Proof.
  unfold create_marginfi_account. apply wp_try. apply wp_bind.
  wp_ensure ensure_marginfi_group_total ensure_marginfi_group_calm.
  apply wp_bind.
  wp_ensure ensure_sol_bank_total ensure_sol_bank_calm.
  wp_run; try nothing_submitted.
  all: built; right; do 2 eexists.
  all: split; [reflexivity|]; split;
    [rewrite !in_app_iff; cbn [In]; auto|].
  all: submitted_simpl; reflexivity.
Qed.

(** ** The instructions of the three operations *)

(** With both keys cached and the node answering the rent and blockhash
    requests, an amount that fits is built into one transaction. *)
Lemma lend_sol_builds (env : Env) (amount : pyfloat) (s : Client)
    (amount_lamports rent_lamports : Z) (group bank_key : Pubkey)
    (blockhash : string) :
  int_of_float (amount * 1e9) = Ret amount_lamports ->
  0 <= amount_lamports -> 0 <= rent_lamports ->
  rent_lamports + amount_lamports < 2 ^ 64 ->
  marginfi_group_key s = Some group -> sol_bank_key s = Some bank_key ->
  get_minimum_balance_for_rent_exemption env ACCOUNT_LEN = Ret rent_lamports ->
  get_latest_blockhash env = Ret blockhash ->
  exists tx, submitted (snd (lend_sol env amount s)) = [tx].
Proof.
  intros Hamount Hpos Hrent Hfit Hgroup Hbank Hrpc Hhash.
  assert (Hcreate :
            forall a b o,
              create_account_checked a b (rent_lamports + amount_lamports)
                ACCOUNT_LEN o =
              Ret (create_account a b (rent_lamports + amount_lamports)
                     ACCOUNT_LEN o)).
  { intros a b o. unfold create_account_checked.
    replace ((0 <=? rent_lamports + amount_lamports) &&
             (rent_lamports + amount_lamports <? 2 ^ 64)) with true;
      [reflexivity|].
    symmetry. apply andb_true_iff. split; [apply Z.leb_le|apply Z.ltb_lt]; lia. }
  assert (Hbytes : int_to_bytes amount_lamports 8 =
                   Ret (le_bytes 8 amount_lamports)).
  { unfold int_to_bytes.
    replace ((0 <=? amount_lamports) &&
             (amount_lamports <? 256 ^ Z.of_nat 8)) with true;
      [reflexivity|].
    symmetry. apply andb_true_iff.
    split; [apply Z.leb_le|apply Z.ltb_lt];
      change (256 ^ Z.of_nat 8) with (2 ^ 64); lia. }
  unfold lend_sol, try_except, ensure_marginfi_group, ensure_sol_bank, bind,
    lift, get_self, set_marginfi_account_key, put_self, require_pubkey,
    Keypair_new, rpc_get_minimum_balance_for_rent_exemption,
    rpc_get_latest_blockhash, rpc_send_transaction, rpc_get_account_info,
    bind, emit, lift, get_self, put_self, ret.
  rewrite Hamount, existing_marginfi_account_parses. cbv beta iota zeta.
  run_simpl. rewrite Hgroup, Hbank. run_simpl.
  destruct (test_mode s); run_simpl;
    [|destruct (get_account_info env existing_marginfi_account_str)];
    cbv beta iota zeta; run_simpl;
    rewrite Hrpc; cbv beta iota zeta; rewrite Hcreate; cbv beta iota zeta;
    rewrite Hbytes; cbv beta iota zeta; rewrite Hhash; cbv beta iota zeta;
    rewrite priority_fee_value; cbv beta iota zeta;
    match goal with
    | |- context [send_transaction env ?tx] =>
        exists tx; destruct (send_transaction env tx)
    end; reflexivity.
Qed.

(** C2: a transaction [lend_sol] submits carries, after the two
    compute-budget directives and the creation and initialisation of the
    temporary token account, the deposit instruction: it targets the
    lending program; its payload is the discriminator of
    [lending_account_deposit], the amount in base units as 8 little-endian
    bytes (an unsigned value below 2^64, which the bytes decode to), and
    one byte 0; its accounts are, in order, the group (read-only), the
    lending account (writable), the authority (signer, writable), the bank
    (writable), the temporary token account (writable), the liquidity
    vault (writable) and the token program (read-only). *)
Theorem lend_sol_deposit_instruction (env : Env) (amount : pyfloat)
    (s s' : Client) (r : Res bool) (t : list event) (tx : Transaction) :
  lend_sol env amount s = (r, s', t) ->
  In tx (submitted t) ->
  exists amount_lamports group bank_key,
    int_of_float (amount * 1e9) = Ret amount_lamports /\
    0 <= amount_lamports < 2 ^ 64 /\
    le_value (le_bytes 8 amount_lamports) = amount_lamports /\
    marginfi_group_key s' = Some group /\
    sol_bank_key s' = Some bank_key /\
    nth_error (instructions tx) 4 =
    Some (Instruction_new MARGINFI_PROGRAM_ID
            (calculate_anchor_discriminator "lending_account_deposit"
             ++ le_bytes 8 amount_lamports ++ [0])
            [ mkAccountMeta group false false;
              mkAccountMeta existing_marginfi_account_str false true;
              mkAccountMeta (pubkey (keypair s)) true true;
              mkAccountMeta bank_key false true;
              mkAccountMeta (pubkey (fresh_keypair env (keys_drawn s)))
                false true;
              mkAccountMeta
                (fst (find_program_address env
                        (liquidity_vault_seeds bank_key) MARGINFI_PROGRAM_ID))
                false true;
              mkAccountMeta TOKEN_PROGRAM_ID false false ]).
Proof.
  intros Hrun Hin.
  pose proof (wp_of_run _ _ _ _ _ _ Hrun (lend_sol_submits env amount s)) as H.
  cbv beta in H. destruct H as [H|H].
  - rewrite H in Hin. destruct Hin.
  - destruct H as (lamports & group & bank_key & rent & blockhash &
                   Hamount & Hrange & Hgroup & Hbank & Hsub).
    rewrite Hsub in Hin. destruct Hin as [<-|[]].
    exists lamports, group, bank_key.
    repeat (split; [assumption|]).
    split; [apply le_value_le_bytes; assumption|].
    repeat (split; [assumption|]). reflexivity.
Qed.

Lemma lend_sol_deposit_instruction_witness :
  exists tx,
    In tx (submitted (snd (lend_sol sample_env 0.02 fresh_client))) /\
    nth_error (instructions tx) 4 =
    Some (Instruction_new MARGINFI_PROGRAM_ID
            ([171; 94; 235; 103; 82; 64; 212; 140]
             ++ [0; 45; 49; 1; 0; 0; 0; 0] ++ [0])
            [ mkAccountMeta "4qp6Fx6tnZkY5Wropq9wUYgtFxXKwE6viZxFHg3rdAG8"%string
                false false;
              mkAccountMeta existing_marginfi_account_str false true;
              mkAccountMeta (pubkey sample_wallet) true true;
              mkAccountMeta sol_bank_str false true;
              mkAccountMeta (pubkey (sample_keypair 0)) false true;
              mkAccountMeta "VaultPubkey111111111111111111111111111111111"%string
                false true;
              mkAccountMeta TOKEN_PROGRAM_ID false false ]).
Proof.
  destruct (lend_sol sample_env 0.02 fresh_client) as [[r s'] t] eqn:Hrun.
  assert (Hsub : exists tx, submitted t = [tx]).
  { replace t with (snd (lend_sol sample_env 0.02 fresh_client))
      by (rewrite Hrun; reflexivity).
    vm_compute. eexists. reflexivity. }
  destruct Hsub as [tx Hsub]. exists tx.
  assert (Hin : In tx (submitted t)) by (rewrite Hsub; left; reflexivity).
  split; [exact Hin|].
  destruct (lend_sol_deposit_instruction sample_env 0.02 fresh_client s' r t tx
              Hrun Hin)
    as (lamports & group & bank_key & Hamount & _ & _ & Hgroup & Hbank & Hnth).
  assert (Hs' : s' = snd (fst (lend_sol sample_env 0.02 fresh_client)))
    by (rewrite Hrun; reflexivity).
  rewrite Hs' in Hgroup, Hbank.
  vm_compute in Hamount, Hgroup, Hbank.
  injection Hamount as <-. injection Hgroup as <-. injection Hbank as <-.
  exact Hnth.
Defined.

(** C3: a transaction [withdraw_from_pool] submits carries, after the two
    compute-budget directives and the creation and initialisation of the
    temporary token account, the withdraw instruction: its payload is the
    literal tag 183, 18, 70, 156, 148, 109, 161, 34 and the amount in base
    units as 8 little-endian bytes (an unsigned value below 2^64, which
    the bytes decode to), 16 bytes with no flag byte; its accounts are, in
    order, the lending account (writable), the group (read-only), the
    temporary token account (writable), the bank (writable), the vault
    (writable), the token program (read-only) and the authority (signer,
    writable). *)
Theorem withdraw_from_pool_instruction (env : Env) (pool_id : string)
    (amount : pyfloat) (s s' : Client) (r : Res bool) (t : list event)
    (tx : Transaction) :
  withdraw_from_pool env pool_id amount s = (r, s', t) ->
  In tx (submitted t) ->
  exists amount_lamports group bank_key account,
    int_of_float (amount * 1e9) = Ret amount_lamports /\
    0 <= amount_lamports < 2 ^ 64 /\
    le_value (le_bytes 8 amount_lamports) = amount_lamports /\
    length ([183; 18; 70; 156; 148; 109; 161; 34]
            ++ le_bytes 8 amount_lamports) = 16%nat /\
    marginfi_group_key s' = Some group /\
    sol_bank_key s' = Some bank_key /\
    marginfi_account_key s' = Some account /\
    nth_error (instructions tx) 4 =
    Some (Instruction_new MARGINFI_PROGRAM_ID
            ([183; 18; 70; 156; 148; 109; 161; 34]
             ++ le_bytes 8 amount_lamports)
            [ mkAccountMeta account false true;
              mkAccountMeta group false false;
              mkAccountMeta (pubkey (fresh_keypair env (keys_drawn s)))
                false true;
              mkAccountMeta bank_key false true;
              mkAccountMeta
                (fst (find_program_address env
                        (liquidity_vault_seeds bank_key) MARGINFI_PROGRAM_ID))
                false true;
              mkAccountMeta TOKEN_PROGRAM_ID false false;
              mkAccountMeta (pubkey (keypair s)) true true ]).
Proof.
  intros Hrun Hin.
  pose proof (wp_of_run _ _ _ _ _ _ Hrun
                (withdraw_from_pool_submits env pool_id amount s)) as H.
  cbv beta in H. destruct H as [H|H].
  - rewrite H in Hin. destruct Hin.
  - destruct H as (lamports & group & bank_key & account & rent & blockhash &
                   Hamount & Hrange & Hgroup & Hbank & Haccount & Hsub).
    rewrite Hsub in Hin. destruct Hin as [<-|[]].
    exists lamports, group, bank_key, account.
    repeat (split; [assumption|]).
    split; [apply le_value_le_bytes; assumption|].
    split; [reflexivity|].
    repeat (split; [assumption|]). reflexivity.
Qed.

Lemma withdraw_from_pool_instruction_witness :
  exists tx,
    In tx (submitted
             (snd (withdraw_from_pool sample_env "" 0.02 populated_client))) /\
    nth_error (instructions tx) 4 =
    Some (Instruction_new MARGINFI_PROGRAM_ID
            ([183; 18; 70; 156; 148; 109; 161; 34]
             ++ [0; 45; 49; 1; 0; 0; 0; 0])
            [ mkAccountMeta (pubkey (sample_keypair 0)) false true;
              mkAccountMeta
                "4qp6Fx6tnZkY5Wropq9wUYgtFxXKwE6viZxFHg3rdAG8"%string
                false false;
              mkAccountMeta (pubkey (sample_keypair 1)) false true;
              mkAccountMeta sol_bank_str false true;
              mkAccountMeta
                "VaultPubkey111111111111111111111111111111111"%string
                false true;
              mkAccountMeta TOKEN_PROGRAM_ID false false;
              mkAccountMeta (pubkey sample_wallet) true true ]).
Proof.
  destruct (withdraw_from_pool sample_env "" 0.02 populated_client)
    as [[r s'] t] eqn:Hrun.
  assert (Hsub : exists tx, submitted t = [tx]).
  { replace t
      with (snd (withdraw_from_pool sample_env "" 0.02 populated_client))
      by (rewrite Hrun; reflexivity).
    vm_compute. eexists. reflexivity. }
  destruct Hsub as [tx Hsub]. exists tx.
  assert (Hin : In tx (submitted t)) by (rewrite Hsub; left; reflexivity).
  split; [exact Hin|].
  destruct (withdraw_from_pool_instruction sample_env "" 0.02
              populated_client s' r t tx Hrun Hin)
    as (lamports & group & bank_key & account & Hamount & _ & _ & _ &
        Hgroup & Hbank & Haccount & Hnth).
  assert (Hs' : s' = snd (fst (withdraw_from_pool sample_env "" 0.02
                                 populated_client)))
    by (rewrite Hrun; reflexivity).
  rewrite Hs' in Hgroup, Hbank, Haccount.
  vm_compute in Hamount, Hgroup, Hbank, Haccount.
  injection Hamount as <-. injection Hgroup as <-. injection Hbank as <-.
  injection Haccount as <-.
  exact Hnth.
Defined.

(** The group is read from the field and never resolved here: on a fresh
    client the account list cannot be built and nothing is submitted. *)
Example withdraw_from_pool_without_group :
  fst (fst (withdraw_from_pool sample_env "" 0.02 fresh_client)) = Ret false /\
  submitted (snd (withdraw_from_pool sample_env "" 0.02 fresh_client)) = [].
Proof. split; vm_compute; reflexivity. Qed.

(** C4: a transaction [create_marginfi_account] submits has exactly one
    instruction after the two compute-budget directives; it targets the
    lending program, its payload is the discriminator of
    [marginfi_account_initialize] and nothing else, and its accounts are,
    in order, the group (read-only), the new account (signer, writable),
    the authority (signer), the fee payer (signer, writable) and the
    system program.  The new account is the public key of a keypair drawn
    in this very call, and the transaction is signed by the wallet keypair
    and that keypair. *)
Theorem create_marginfi_account_instruction (env : Env) (s s' : Client)
    (r : Res (option Pubkey)) (t : list event) (tx : Transaction) :
  create_marginfi_account env s = (r, s', t) ->
  In tx (submitted t) ->
  exists group new_keypair,
    marginfi_group_key s' = Some group /\
    new_keypair = fresh_keypair env (keys_drawn s) /\
    In (NewKeypair new_keypair) t /\
    filter (fun i => negb (is_compute_budget i)) (instructions tx) =
    [ Instruction_new MARGINFI_PROGRAM_ID
        (calculate_anchor_discriminator "marginfi_account_initialize")
        [ mkAccountMeta group false false;
          mkAccountMeta (pubkey new_keypair) true true;
          mkAccountMeta (pubkey (keypair s)) true false;
          mkAccountMeta (pubkey (keypair s)) true true;
          mkAccountMeta SYSTEM_PROGRAM_ID false false ] ] /\
    length (instructions tx) = 3%nat /\
    payer tx = pubkey (keypair s) /\
    signing_keypairs tx = [keypair s; new_keypair].
Proof.
  intros Hrun Hin.
  pose proof (wp_of_run _ _ _ _ _ _ Hrun
                (create_marginfi_account_submits env s)) as H.
  cbv beta in H. destruct H as [H|H].
  - rewrite H in Hin. destruct Hin.
  - destruct H as (group & blockhash & Hgroup & Hnew & Hsub).
    rewrite Hsub in Hin. destruct Hin as [<-|[]].
    exists group, (fresh_keypair env (keys_drawn s)).
    repeat split; assumption.
Qed.

Lemma create_marginfi_account_instruction_witness :
  exists tx,
    In tx (submitted (snd (create_marginfi_account sample_env fresh_client)))
    /\
    filter (fun i => negb (is_compute_budget i)) (instructions tx) =
    [ Instruction_new MARGINFI_PROGRAM_ID
        [43; 78; 61; 255; 148; 52; 249; 154]
        [ mkAccountMeta
            "4qp6Fx6tnZkY5Wropq9wUYgtFxXKwE6viZxFHg3rdAG8"%string false false;
          mkAccountMeta (pubkey (sample_keypair 0)) true true;
          mkAccountMeta (pubkey sample_wallet) true false;
          mkAccountMeta (pubkey sample_wallet) true true;
          mkAccountMeta SYSTEM_PROGRAM_ID false false ] ] /\
    signing_keypairs tx = [sample_wallet; sample_keypair 0].
Proof.
  destruct (create_marginfi_account sample_env fresh_client)
    as [[r s'] t] eqn:Hrun.
  assert (Hsub : exists tx, submitted t = [tx]).
  { replace t with (snd (create_marginfi_account sample_env fresh_client))
      by (rewrite Hrun; reflexivity).
    vm_compute. eexists. reflexivity. }
  destruct Hsub as [tx Hsub]. exists tx.
  assert (Hin : In tx (submitted t)) by (rewrite Hsub; left; reflexivity).
  split; [exact Hin|].
  destruct (create_marginfi_account_instruction sample_env fresh_client s' r t
              tx Hrun Hin)
    as (group & kp & Hgroup & -> & _ & Hops & _ & _ & Hsign).
  assert (Hs' : s' = snd (fst (create_marginfi_account sample_env
                                 fresh_client)))
    by (rewrite Hrun; reflexivity).
  rewrite Hs' in Hgroup. vm_compute in Hgroup. injection Hgroup as <-.
  split; [exact Hops|exact Hsign].
Defined.

(** ** The grouping of submitted transactions *)

Section ReadOnly.

Variable env : Env.

#[local] Hint Resolve find_marginfi_group_quiet find_sol_bank_quiet
  find_marginfi_account_quiet ensure_marginfi_group_quiet
  ensure_sol_bank_quiet ensure_marginfi_account_quiet : stable.

Lemma get_sol_balance_quiet : stable quiet (get_sol_balance env).
Proof. unfold get_sol_balance. stable_tac. Qed.

Lemma get_token_prices_quiet (token_ids : list string) :
  stable quiet (get_token_prices env token_ids).
Proof. unfold get_token_prices. stable_tac. Qed.

#[local] Hint Resolve get_sol_balance_quiet get_token_prices_quiet : stable.

Lemma get_wallet_status_quiet : stable quiet (get_wallet_status env).
Proof. unfold get_wallet_status. stable_tac. Qed.

Lemma _get_sol_price_quiet : stable quiet (_get_sol_price env).
Proof. unfold _get_sol_price. stable_tac. Qed.

#[local] Hint Resolve _get_sol_price_quiet : stable.

Lemma _parse_lending_positions_quiet :
  stable quiet (_parse_lending_positions env).
Proof. unfold _parse_lending_positions. stable_tac. Qed.

#[local] Hint Resolve _parse_lending_positions_quiet : stable.

Lemma get_marginfi_positions_quiet : stable quiet (get_marginfi_positions env).
Proof. unfold get_marginfi_positions. stable_tac. Qed.

Lemma get_marginfi_accounts_quiet : stable quiet (get_marginfi_accounts env).
Proof. unfold get_marginfi_accounts. stable_tac. Qed.

Lemma get_sol_apy_quiet : stable quiet (get_sol_apy env).
Proof. unfold get_sol_apy. stable_tac. Qed.

#[local] Hint Resolve get_sol_apy_quiet : stable.

Lemma get_lending_pools_quiet : stable quiet (get_lending_pools env).
Proof. unfold get_lending_pools. stable_tac. Qed.

End ReadOnly.

(** A lookup submits nothing. *)
Lemma quiet_effects {A : Type} (m : M A) (s : Client) :
  stable quiet m -> submitted (snd (effects m s)) = [].
Proof.
  intros Hm. specialize (Hm s). unfold wp, effects in *.
  destruct (m s) as [[r s'] t]. cbn.
  apply lookup_submits_nothing. apply Hm.
Qed.

(** What [lend_sol] submits is grouped as a deposit, from any client. *)
Lemma lend_sol_grouped (env : Env) (amount : pyfloat) (s : Client) :
  wp (lend_sol env amount)
     (fun _ _ t =>
        forall tx, In tx (submitted t) ->
          well_grouped 400000
            [CreateAccount; InitializeAccount; ProgramCall; CloseAccount] tx) s.
Proof.
  eapply wp_mono; [apply lend_sol_submits|]. cbv beta.
  intros r s' t [H|H] tx Hin.
  - rewrite H in Hin. destruct Hin.
  - destruct H as (lamports & group & bank_key & rent & blockhash &
                   _ & _ & _ & _ & Hsub).
    rewrite Hsub in Hin. destruct Hin as [<-|[]].
    eexists. eexists. cbn [instructions]. repeat split.
Qed.

Lemma withdraw_from_pool_grouped (env : Env) (pool_id : string)
    (amount : pyfloat) (s : Client) :
  wp (withdraw_from_pool env pool_id amount)
     (fun _ _ t =>
        forall tx, In tx (submitted t) ->
          well_grouped 400000
            [CreateAccount; InitializeAccount; ProgramCall; CloseAccount] tx) s.
Proof.
  eapply wp_mono; [apply withdraw_from_pool_submits|]. cbv beta.
  intros r s' t [H|H] tx Hin.
  - rewrite H in Hin. destruct Hin.
  - destruct H as (lamports & group & bank_key & account & rent & blockhash &
                   _ & _ & _ & _ & _ & Hsub).
    rewrite Hsub in Hin. destruct Hin as [<-|[]].
    eexists. eexists. cbn [instructions]. repeat split.
Qed.

Lemma create_marginfi_account_grouped (env : Env) (s : Client) :
  wp (create_marginfi_account env)
     (fun _ _ t =>
        forall tx, In tx (submitted t) ->
          well_grouped 300000 [ProgramCall] tx) s.
Proof.
  eapply wp_mono; [apply create_marginfi_account_submits|]. cbv beta.
  intros r s' t [H|H] tx Hin.
  - rewrite H in Hin. destruct Hin.
  - destruct H as (group & blockhash & _ & _ & Hsub).
    rewrite Hsub in Hin. destruct Hin as [<-|[]].
    eexists. eexists. cbn [instructions]. repeat split.
Qed.

(** A flow that looks up first and then lends submits what [lend_sol]
    submits. *)
Lemma after_lookup {A B : Type} (m : M A) (f : A -> M B)
    (P : Transaction -> Prop) (s : Client) :
  stable quiet m ->
  (forall a s1,
      wp (f a) (fun _ _ t => forall tx, In tx (submitted t) -> P tx) s1) ->
  wp (bind m f) (fun _ _ t => forall tx, In tx (submitted t) -> P tx) s.
Proof.
  intros Hm Hf. apply wp_bind. eapply wp_mono; [apply Hm|]. cbv beta.
  intros [a|e] s1 t1 (_ & _ & _ & Hev).
  - eapply wp_mono; [apply Hf|]. cbv beta. intros r2 s2 t2 H tx Hin.
    rewrite submitted_app, (lookup_submits_nothing _ Hev) in Hin.
    apply H. exact Hin.
  - intros tx Hin. rewrite (lookup_submits_nothing _ Hev) in Hin.
    destruct Hin.
Qed.

Lemma test_lending_flow_grouped (env : Env) (amount_sol : pyfloat)
    (s : Client) :
  wp (test_lending_flow env amount_sol)
     (fun _ _ t =>
        forall tx, In tx (submitted t) ->
          well_grouped 400000
            [CreateAccount; InitializeAccount; ProgramCall; CloseAccount] tx) s.
Proof.
  unfold test_lending_flow. apply after_lookup;
    [apply get_wallet_status_quiet|].
  intros wallet_status s1.
  destruct (sol_tokens_of wallet_status) as [|token rest].
  - intros tx [].
  - destruct (float_lt (balance token) amount_sol).
    + intros tx [].
    + apply lend_sol_grouped.
Qed.

Lemma auto_lending_flow_grouped (env : Env) (wallet_status : WalletStatus)
    (amount : pyfloat) (s : Client) :
  wp (auto_lending_flow env wallet_status amount)
     (fun _ _ t =>
        forall tx, In tx (submitted t) ->
          well_grouped 400000
            [CreateAccount; InitializeAccount; ProgramCall; CloseAccount] tx) s.
Proof.
  unfold auto_lending_flow.
  destruct (sol_tokens_of wallet_status) as [|token rest].
  - intros tx [].
  - cbv zeta. apply after_lookup; [apply get_sol_apy_quiet|].
    intros current_apy s1.
    destruct (float_gt amount (balance token)).
    + intros tx [].
    + apply lend_sol_grouped.
Qed.

Lemma grouped_effects {A : Type} (m : M A) (P : Transaction -> Prop)
    (s : Client) :
  wp m (fun _ _ t => forall tx, In tx (submitted t) -> P tx) s ->
  forall tx, In tx (submitted (snd (effects m s))) -> P tx.
Proof.
  unfold wp, effects. destruct (m s) as [[r s'] t]. cbn. auto.
Qed.

(** C5: every transaction an operation submits begins with a unit-limit
    directive, then a unit-price directive, and no other compute-budget
    directive follows; the limit is 300,000 for account creation and
    400,000 for deposit and withdraw; account creation has one operational
    instruction (3 in total), deposit and withdraw have four (create the
    temporary account, initialise it, the program call, close it; 6 in
    total).  The other operations submit nothing. *)
Theorem submitted_transactions_grouped (env : Env) (op : operation)
    (s : Client) (tx : Transaction) :
  In tx (submitted (snd (run env op s))) ->
  well_grouped (unit_limit_of op) (operational_kinds op) tx /\
  length (instructions tx) = (2 + length (operational_kinds op))%nat.
Proof.
  intros Hin.
  assert (H : well_grouped (unit_limit_of op) (operational_kinds op) tx).
  { destruct op; cbn [run unit_limit_of operational_kinds] in *.
    all: try (revert tx Hin; apply grouped_effects;
              first [ apply create_marginfi_account_grouped
                    | apply lend_sol_grouped
                    | apply withdraw_from_pool_grouped
                    | apply test_lending_flow_grouped
                    | apply auto_lending_flow_grouped ]).
    all: rewrite quiet_effects in Hin;
      [ destruct Hin
      | auto using get_sol_apy_quiet, get_lending_pools_quiet,
          get_marginfi_positions_quiet, get_marginfi_accounts_quiet,
          get_wallet_status_quiet, get_sol_balance_quiet,
          get_token_prices_quiet ]. }
  split; [exact H|].
  destruct H as (fee & operational & -> & Hkinds & _).
  cbn [length]. rewrite <- Hkinds, length_map. reflexivity.
Qed.

Lemma submitted_transactions_grouped_witness :
  exists tx,
    In tx (submitted (snd (run sample_env (OpLendSol 0.02) fresh_client))) /\
    well_grouped 400000
      [CreateAccount; InitializeAccount; ProgramCall; CloseAccount] tx /\
    length (instructions tx) = 6%nat.
Proof.
  assert (Hsub : exists tx,
             submitted (snd (run sample_env (OpLendSol 0.02) fresh_client))
             = [tx]).
  { vm_compute. eexists. reflexivity. }
  destruct Hsub as [tx Hsub]. exists tx.
  assert (Hin : In tx (submitted
                         (snd (run sample_env (OpLendSol 0.02) fresh_client))))
    by (rewrite Hsub; left; reflexivity).
  split; [exact Hin|].
  exact (submitted_transactions_grouped sample_env (OpLendSol 0.02)
           fresh_client tx Hin).
Defined.

(** Each of the three writing operations submits on the sample backend:
    3 instructions for account creation, 6 for deposit and withdraw. *)
Example submitted_instruction_counts :
  map (fun tx => length (instructions tx))
      (submitted (snd (run sample_env OpCreateMarginfiAccount fresh_client)))
    = [3%nat] /\
  map (fun tx => length (instructions tx))
      (submitted (snd (run sample_env (OpLendSol 0.02) fresh_client)))
    = [6%nat] /\
  map (fun tx => length (instructions tx))
      (submitted (snd (run sample_env (OpWithdrawFromPool "" 0.02)
                         populated_client)))
    = [6%nat].
Proof. repeat split; vm_compute; reflexivity. Qed.

(** ** Validation of the amount on the automated paths *)

(** The one test [auto_lending_flow] makes: an amount above the reported
    balance is refused before any keypair is drawn or anything is
    submitted. *)
Lemma auto_lending_flow_refuses_excess (env : Env)
    (wallet_status : WalletStatus) (amount : pyfloat) (s : Client)
    (token : TokenEntry) (rest : list TokenEntry) :
  sol_tokens_of wallet_status = token :: rest ->
  float_gt amount (balance token) = true ->
  wp (auto_lending_flow env wallet_status amount)
     (fun r _ t => r = Ret false /\ forallb lookup_event t = true) s.
Proof.
  intros Htokens Hexcess. unfold auto_lending_flow. rewrite Htokens.
  cbv zeta. apply wp_bind.
  apply (wp_call quiet); [apply get_sol_apy_total|apply get_sol_apy_quiet|].
  intros current_apy s1 t1 (_ & _ & _ & Hev). rewrite Hexcess.
  apply wp_ret. rewrite app_nil_r. auto.
Qed.

(** Whatever the path, [lend_sol] submits no negative amount: the
    conversion to 8 unsigned bytes raises first. *)
Lemma lend_sol_never_submits_negative (env : Env) (amount : pyfloat)
    (s : Client) (amount_lamports : Z) :
  int_of_float (amount * 1e9) = Ret amount_lamports ->
  amount_lamports < 0 ->
  submitted (snd (lend_sol env amount s)) = [].
Proof.
  intros Hamount Hneg.
  pose proof (lend_sol_submits env amount s) as H. unfold wp in H.
  destruct (lend_sol env amount s) as [[r s'] t]. cbn.
  destruct H as [H|H]; [exact H|].
  destruct H as (lamports & _ & _ & _ & _ & Hlamports & Hrange & _).
  rewrite Hamount in Hlamports. injection Hlamports as <-. lia.
Qed.

(** C9 fails on the automated path: [auto_lending_flow] tests only
    whether the amount exceeds the balance, so for the amount 0.0 and a
    wallet holding 1 SOL it goes on to [lend_sol], which builds the four
    instructions with a deposit of 0 base units and submits them. *)
Theorem auto_lending_flow_submits_zero_amount :
  fst (fst (auto_lending_flow sample_env sample_wallet_status 0 fresh_client))
    = Ret true /\
  map (fun tx => nth_error (instructions tx) 4)
      (submitted
         (snd (auto_lending_flow sample_env sample_wallet_status 0
                 fresh_client))) =
  [ Some
      (Instruction_new MARGINFI_PROGRAM_ID
         (calculate_anchor_discriminator "lending_account_deposit"
          ++ [0; 0; 0; 0; 0; 0; 0; 0] ++ [0])
         [ mkAccountMeta "4qp6Fx6tnZkY5Wropq9wUYgtFxXKwE6viZxFHg3rdAG8"%string
             false false;
           mkAccountMeta existing_marginfi_account_str false true;
           mkAccountMeta (pubkey sample_wallet) true true;
           mkAccountMeta sol_bank_str false true;
           mkAccountMeta (pubkey (sample_keypair 0)) false true;
           mkAccountMeta "VaultPubkey111111111111111111111111111111111"%string
             false true;
           mkAccountMeta TOKEN_PROGRAM_ID false false ]) ].
Proof. split; vm_compute; reflexivity. Qed.

(** The same through [lend_sol] called directly and through
    [test_lending_flow], which tests the balance only. *)
Example zero_amount_on_the_other_paths :
  length (submitted (snd (lend_sol sample_env 0 fresh_client))) = 1%nat /\
  length (submitted (snd (test_lending_flow sample_env 0 fresh_client)))
    = 1%nat.
Proof. split; vm_compute; reflexivity. Qed.

(** A small negative amount passes the same test; nothing is submitted,
    but only because the byte conversion raises after the temporary
    keypair was drawn and the first two instructions were built. *)
Example negative_amount_on_the_automated_path :
  fst (fst (auto_lending_flow sample_env sample_wallet_status (-0.001)
              fresh_client)) = Ret false /\
  snd (auto_lending_flow sample_env sample_wallet_status (-0.001)
         fresh_client) =
  [ Finding Bank; GetAccountInfo sol_bank_str; GetAccountInfo sol_bank_str;
    GetAccountInfo existing_marginfi_account_str;
    Finding Group;
    GetAccountInfo "4qp6Fx6tnZkY5Wropq9wUYgtFxXKwE6viZxFHg3rdAG8"%string;
    NewKeypair (sample_keypair 0);
    GetMinimumBalanceForRentExemption ACCOUNT_LEN ].
Proof. split; vm_compute; reflexivity. Qed.

(** An amount above the balance is refused on the automated path. *)
Example excess_amount_on_the_automated_path :
  fst (fst (auto_lending_flow sample_env sample_wallet_status 2
              fresh_client)) = Ret false /\
  submitted (snd (auto_lending_flow sample_env sample_wallet_status 2
                    fresh_client)) = [].
Proof. split; vm_compute; reflexivity. Qed.

(** * Further properties *)

(** ** More frames *)

Lemma keeps_refl (e : Entity) s : keeps_rel e s [] s.
Proof. reflexivity. Qed.

Lemma keeps_trans (e : Entity) s t1 s1 t2 s2 :
  keeps_rel e s t1 s1 -> keeps_rel e s1 t2 s2 -> keeps_rel e s (t1 ++ t2) s2.
Proof. unfold keeps_rel. congruence. Qed.

Definition keeps (e : Entity) : frame :=
  mkFrame (keeps_rel e) (keeps_refl e) (keeps_trans e).

Lemma untouched_refl s : untouched_rel s [] s.
Proof. reflexivity. Qed.

Lemma untouched_trans s t1 s1 t2 s2 :
  untouched_rel s t1 s1 -> untouched_rel s1 t2 s2 ->
  untouched_rel s (t1 ++ t2) s2.
Proof. unfold untouched_rel. congruence. Qed.

Definition untouched : frame :=
  mkFrame untouched_rel untouched_refl untouched_trans.

Lemma account_requests_refl s : account_requests_rel s [] s.
Proof. reflexivity. Qed.

Lemma account_requests_trans s t1 s1 t2 s2 :
  account_requests_rel s t1 s1 -> account_requests_rel s1 t2 s2 ->
  account_requests_rel s (t1 ++ t2) s2.
Proof.
  unfold account_requests_rel. intros H1 H2.
  rewrite forallb_app, H1, H2. reflexivity.
Qed.

Definition account_requests : frame :=
  mkFrame account_requests_rel account_requests_refl account_requests_trans.

Lemma keeps_emit (e : Entity) (ev : event) : stable (keeps e) (emit ev).
Proof. intros s. reflexivity. Qed.

Lemma keeps_set_group (e : Entity) (k : Pubkey) :
  e <> Group -> stable (keeps e) (set_marginfi_group_key k).
Proof. intros He s. destruct e; first [congruence | reflexivity]. Qed.

Lemma keeps_set_bank (e : Entity) (k : Pubkey) :
  e <> Bank -> stable (keeps e) (set_sol_bank_key k).
Proof. intros He s. destruct e; first [congruence | reflexivity]. Qed.

Lemma keeps_set_account (e : Entity) (k : Pubkey) :
  e <> LendingAccount -> stable (keeps e) (set_marginfi_account_key k).
Proof. intros He s. destruct e; first [congruence | reflexivity]. Qed.

Lemma keeps_Keypair_new (e : Entity) (env : Env) :
  stable (keeps e) (Keypair_new env).
Proof. intros s. destruct e; reflexivity. Qed.

Lemma untouched_emit (ev : event) : stable untouched (emit ev).
Proof. intros s. reflexivity. Qed.

Lemma account_requests_emit (ev : event) :
  account_request ev = true -> stable account_requests (emit ev).
Proof.
  intros Hev s. cbn. unfold account_requests_rel. cbn. now rewrite Hev.
Qed.

Lemma account_requests_set_group (k : Pubkey) :
  stable account_requests (set_marginfi_group_key k).
Proof. intros s. reflexivity. Qed.

#[export] Hint Resolve keeps_emit keeps_set_group keeps_set_bank
  keeps_set_account keeps_Keypair_new untouched_emit account_requests_emit
  account_requests_set_group : stable.
#[export] Hint Extern 1 (account_request _ = true) => reflexivity : stable.

Section MoreFrames.

Variable env : Env.

Lemma find_sol_bank_keeps (e : Entity) :
  e <> Bank -> stable (keeps e) (find_sol_bank env).
Proof. intros He. unfold find_sol_bank. stable_tac. Qed.

Lemma find_marginfi_account_keeps (e : Entity) :
  e <> LendingAccount -> stable (keeps e) (find_marginfi_account env).
Proof. intros He. unfold find_marginfi_account. stable_tac. Qed.

Lemma try_known_groups_keeps (e : Entity) (candidates : list string) :
  e <> Group -> stable (keeps e) (try_known_groups env candidates).
Proof.
  intros He. induction candidates as [|c rest IH]; cbn [try_known_groups].
  - apply stable_ret.
  - unfold try_known_group. stable_tac.
Qed.

Lemma scan_for_group_keeps (e : Entity) (accounts : list KeyedAccount) :
  e <> Group -> stable (keeps e) (scan_for_group accounts).
Proof.
  intros He. induction accounts as [|a rest IH]; cbn [scan_for_group].
  - apply stable_ret.
  - stable_tac.
Qed.

Lemma find_marginfi_group_keeps (e : Entity) :
  e <> Group -> stable (keeps e) (find_marginfi_group env).
Proof.
  intros He. unfold find_marginfi_group.
  pose proof (try_known_groups_keeps e known_groups He).
  pose proof (scan_for_group_keeps e).
  stable_tac.
Qed.

#[local] Hint Resolve find_sol_bank_keeps find_marginfi_account_keeps
  find_marginfi_group_keeps : stable.

Lemma ensure_sol_bank_keeps (e : Entity) :
  e <> Bank -> stable (keeps e) (ensure_sol_bank env).
Proof. intros He. unfold ensure_sol_bank. stable_tac. Qed.

Lemma ensure_marginfi_account_keeps (e : Entity) :
  e <> LendingAccount -> stable (keeps e) (ensure_marginfi_account env).
Proof. intros He. unfold ensure_marginfi_account. stable_tac. Qed.

Lemma ensure_marginfi_group_keeps (e : Entity) :
  e <> Group -> stable (keeps e) (ensure_marginfi_group env).
Proof. intros He. unfold ensure_marginfi_group. stable_tac. Qed.

#[local] Hint Resolve ensure_sol_bank_keeps ensure_marginfi_account_keeps
  ensure_marginfi_group_keeps : stable.

(** [withdraw_from_pool] never assigns the group field. *)
Lemma withdraw_from_pool_keeps_group (pool_id : string) (amount : pyfloat) :
  stable (keeps Group) (withdraw_from_pool env pool_id amount).
Proof. unfold withdraw_from_pool. stable_tac. Qed.

(** The lookups of balance and prices leave the client as it is. *)
Lemma get_sol_balance_untouched : stable untouched (get_sol_balance env).
Proof. unfold get_sol_balance. stable_tac. Qed.

Lemma get_token_prices_untouched (token_ids : list string) :
  stable untouched (get_token_prices env token_ids).
Proof. unfold get_token_prices. stable_tac. Qed.

Lemma _get_sol_price_untouched : stable untouched (_get_sol_price env).
Proof. unfold _get_sol_price. stable_tac. Qed.

Lemma try_known_groups_account_requests (candidates : list string) :
  stable account_requests (try_known_groups env candidates).
Proof.
  induction candidates as [|c rest IH]; cbn [try_known_groups].
  - apply stable_ret.
  - unfold try_known_group. stable_tac.
Qed.

End MoreFrames.

(** ** Bank and lending-account resolution *)

(** X1: bank resolution makes exactly one request, for the pinned bank
    address, and never lists program accounts; it returns and stores that
    address when the backend reports an account owned by the lending
    program, and otherwise (no account, another owner, a failing request)
    returns [None], raises nothing and leaves the client as it was. *)
Theorem find_sol_bank_resolves (env : Env) (s : Client) :
  find_sol_bank env s =
  (Ret (if accepted_candidate env sol_bank_str then Some sol_bank_str
        else None),
   with_bank (if accepted_candidate env sol_bank_str then Some sol_bank_str
              else None) s,
   [Finding Bank; GetAccountInfo sol_bank_str]) /\
  (accepted_candidate env sol_bank_str = true <->
   exists a, get_account_info env sol_bank_str = Ret (Some a) /\
             account_owner a = MARGINFI_PROGRAM_ID).
Proof.
  split.
  - unfold find_sol_bank, accepted_candidate, try_except, bind,
      rpc_get_account_info, bind, emit, lift, ret.
    rewrite sol_bank_parses. cbv beta iota.
    destruct (get_account_info env sol_bank_str) as [value|ex];
      cbv beta iota; [|reflexivity].
    destruct (owned_by_marginfi value); reflexivity.
  - unfold accepted_candidate. rewrite sol_bank_parses.
    destruct (get_account_info env sol_bank_str) as [[a|]|ex]; cbn.
    + rewrite String.eqb_eq. split.
      * intros H. exists a. auto.
      * intros (a' & Ha & Howner). injection Ha as <-. exact Howner.
    + split; [discriminate|]. intros (a & Ha & _). discriminate.
    + split; [discriminate|]. intros (a & Ha & _). discriminate.
Qed.

(** X2: lending-account resolution makes exactly one request, for the
    pinned account address, whichever wallet the client holds; it returns
    and stores that address when the backend reports an account owned by
    the lending program, and otherwise returns [None], raises nothing and
    leaves the client as it was. *)
Theorem find_marginfi_account_resolves (env : Env) (s : Client) :
  find_marginfi_account env s =
  (Ret (if accepted_candidate env existing_marginfi_account_str
        then Some existing_marginfi_account_str else None),
   with_account (if accepted_candidate env existing_marginfi_account_str
                 then Some existing_marginfi_account_str else None) s,
   [Finding LendingAccount; GetAccountInfo existing_marginfi_account_str]) /\
  (accepted_candidate env existing_marginfi_account_str = true <->
   exists a,
     get_account_info env existing_marginfi_account_str = Ret (Some a) /\
     account_owner a = MARGINFI_PROGRAM_ID).
Proof.
  split.
  - unfold find_marginfi_account, accepted_candidate, try_except, bind,
      rpc_get_account_info, bind, emit, lift, ret.
    rewrite existing_marginfi_account_parses. cbv beta iota.
    destruct (get_account_info env existing_marginfi_account_str)
      as [value|ex]; cbv beta iota; [|reflexivity].
    destruct (owned_by_marginfi value); reflexivity.
  - unfold accepted_candidate. rewrite existing_marginfi_account_parses.
    destruct (get_account_info env existing_marginfi_account_str)
      as [[a|]|ex]; cbn.
    + rewrite String.eqb_eq. split.
      * intros H. exists a. auto.
      * intros (a' & Ha & Howner). injection Ha as <-. exact Howner.
    + split; [discriminate|]. intros (a & Ha & _). discriminate.
    + split; [discriminate|]. intros (a & Ha & _). discriminate.
Qed.

(** ** The scan of program accounts is a fallback *)

Lemma account_request_is_not_scan (t : list event) (program : Pubkey) :
  forallb account_request t = true -> ~ In (GetProgramAccounts program) t.
Proof.
  intros Hall Hin. rewrite forallb_forall in Hall.
  specialize (Hall _ Hin). discriminate.
Qed.

(** The events of group resolution: the announcement, account lookups
    for known addresses, and the listing request only with no known
    address accepted. *)
Lemma find_marginfi_group_events (env : Env) (s : Client) :
  exists t1,
    forallb account_request t1 = true /\
    snd (find_marginfi_group env s) =
    Finding Group :: t1 ++
      match find (accepted_candidate env) known_groups with
      | Some _ => []
      | None => [GetProgramAccounts MARGINFI_PROGRAM_ID]
      end.
Proof.
  pose proof (try_known_groups_account_requests env known_groups s) as Hreq.
  destruct (try_known_groups_run env known_groups s) as [t1 Ht1].
  unfold wp in Hreq. rewrite Ht1 in Hreq. cbn in Hreq.
  exists t1. split; [exact Hreq|].
  unfold find_marginfi_group, try_except, bind, emit. cbv beta iota.
  rewrite Ht1.
  destruct (find (accepted_candidate env) known_groups) as [g|].
  - cbn. rewrite app_nil_r. reflexivity.
  - unfold rpc_get_program_accounts, bind, emit, lift, ret. cbv beta iota.
    destruct (get_program_accounts env MARGINFI_PROGRAM_ID)
      as [[accounts|]|ex]; cbv beta iota.
    + rewrite scan_for_group_run.
      destruct (find _ accounts); cbn; rewrite ?app_nil_r; reflexivity.
    + cbn. rewrite ?app_nil_r. reflexivity.
    + cbn. rewrite ?app_nil_r. reflexivity.
Qed.

(** X3: group resolution lists the accounts of the lending program exactly
    when none of the known addresses is accepted; with a known address
    accepted the listing request is never made. *)
Theorem find_marginfi_group_scans_as_fallback (env : Env) (s : Client) :
  In (GetProgramAccounts MARGINFI_PROGRAM_ID)
     (snd (find_marginfi_group env s)) <->
  find (accepted_candidate env) known_groups = None.
Proof.
  destruct (find_marginfi_group_events env s) as (t1 & Hreq & ->).
  pose proof (account_request_is_not_scan t1 MARGINFI_PROGRAM_ID Hreq) as Hno.
  destruct (find (accepted_candidate env) known_groups) as [g|].
  - rewrite app_nil_r. split; [|discriminate].
    intros [H|H]; [discriminate|]. contradiction.
  - split; [reflexivity|]. intros _. right.
    apply in_or_app. right. left. reflexivity.
Qed.

(** ** What the writing operations return *)

(** Close a leaf that returned [false] with nothing submitted. *)
Ltac refused :=
  left; split; [reflexivity | submitted_simpl; reflexivity].

(** Close a leaf at which the one transaction was sent. *)
Ltac sent :=
  right; eexists; split; [submitted_simpl; reflexivity|];
  match goal with
  | H : send_transaction _ _ = _ |- _ => rewrite H
  end; reflexivity.

Lemma lend_sol_outcome (env : Env) (amount : pyfloat) (s : Client) :
  wp (lend_sol env amount)
     (fun r s' t =>
        (r = Ret false /\ submitted t = []) \/
        exists tx,
          submitted t = [tx] /\
          r = match send_transaction env tx with
              | Ret _ => Ret true
              | Raise _ => Ret false
              end) s.
Proof.
  unfold lend_sol. wp_run.
  all: try refused.
  all: wp_ensure ensure_marginfi_group_total ensure_marginfi_group_calm.
  all: wp_run; try refused.
  all: wp_ensure ensure_sol_bank_total ensure_sol_bank_calm.
  all: wp_run; try refused.
  all: sent.
Qed.

Lemma withdraw_from_pool_outcome (env : Env) (pool_id : string)
    (amount : pyfloat) (s : Client) :
  wp (withdraw_from_pool env pool_id amount)
     (fun r s' t =>
        (r = Ret false /\ submitted t = []) \/
        exists tx,
          submitted t = [tx] /\
          r = match send_transaction env tx with
              | Ret _ => Ret true
              | Raise _ => Ret false
              end) s.
Proof.
  unfold withdraw_from_pool. wp_run.
  all: try refused.
  all: wp_ensure ensure_marginfi_account_total ensure_marginfi_account_calm.
  all: wp_run; try refused.
  all: wp_ensure ensure_sol_bank_total ensure_sol_bank_calm.
  all: wp_run; try refused.
  all: sent.
Qed.

(** X4: [lend_sol] never raises and never submits more than one
    transaction; it returns [True] exactly when it submitted a transaction
    and the backend answered the send request. *)
Theorem lend_sol_true_iff_sent (env : Env) (amount : pyfloat) (s : Client) :
  (exists b, fst (fst (lend_sol env amount s)) = Ret b) /\
  (length (submitted (snd (lend_sol env amount s))) <= 1)%nat /\
  (fst (fst (lend_sol env amount s)) = Ret true <->
   exists tx signature,
     submitted (snd (lend_sol env amount s)) = [tx] /\
     send_transaction env tx = Ret signature).
Proof.
  pose proof (lend_sol_outcome env amount s) as H. unfold wp in H.
  destruct (lend_sol env amount s) as [[r s'] t]. cbn [fst snd].
  destruct H as [[-> Hsub]|(tx & Hsub & Hr)].
  - rewrite Hsub. split; [eauto|]. split; [cbn; lia|].
    split; [discriminate|]. intros (tx & sg & H & _). discriminate.
  - rewrite Hsub. split; [|split; [cbn; lia|]].
    + destruct (send_transaction env tx); eauto.
    + split.
      * intros Htrue. exists tx.
        destruct (send_transaction env tx) as [sg|ex]; [eauto|].
        rewrite Hr in Htrue. discriminate.
      * intros (tx' & sg & Htx & Hsend). injection Htx as <-.
        rewrite Hr, Hsend. reflexivity.
Qed.

(** X5: [withdraw_from_pool] never raises and never submits more than one
    transaction; it returns [True] exactly when it submitted a transaction
    and the backend answered the send request. *)
Theorem withdraw_from_pool_true_iff_sent (env : Env) (pool_id : string)
    (amount : pyfloat) (s : Client) :
  (exists b, fst (fst (withdraw_from_pool env pool_id amount s)) = Ret b) /\
  (length (submitted (snd (withdraw_from_pool env pool_id amount s))) <= 1)%nat
  /\
  (fst (fst (withdraw_from_pool env pool_id amount s)) = Ret true <->
   exists tx signature,
     submitted (snd (withdraw_from_pool env pool_id amount s)) = [tx] /\
     send_transaction env tx = Ret signature).
Proof.
  pose proof (withdraw_from_pool_outcome env pool_id amount s) as H.
  unfold wp in H.
  destruct (withdraw_from_pool env pool_id amount s) as [[r s'] t].
  cbn [fst snd].
  destruct H as [[-> Hsub]|(tx & Hsub & Hr)].
  - rewrite Hsub. split; [eauto|]. split; [cbn; lia|].
    split; [discriminate|]. intros (tx & sg & H & _). discriminate.
  - rewrite Hsub. split; [|split; [cbn; lia|]].
    + destruct (send_transaction env tx); eauto.
    + split.
      * intros Htrue. exists tx.
        destruct (send_transaction env tx) as [sg|ex]; [eauto|].
        rewrite Hr in Htrue. discriminate.
      * intros (tx' & sg & Htx & Hsend). injection Htx as <-.
        rewrite Hr, Hsend. reflexivity.
Qed.

(** X6: [withdraw_from_pool] reads the group field without resolving it:
    called while the group is unresolved it returns [False] and submits
    nothing, whatever the backend answers and whatever the amount. *)
Theorem withdraw_from_pool_needs_resolved_group (env : Env)
    (pool_id : string) (amount : pyfloat) (s : Client) :
  marginfi_group_key s = None ->
  fst (fst (withdraw_from_pool env pool_id amount s)) = Ret false /\
  submitted (snd (withdraw_from_pool env pool_id amount s)) = [].
Proof.
  intros Hnone.
  pose proof (withdraw_from_pool_outcome env pool_id amount s) as Hout.
  pose proof (withdraw_from_pool_submits env pool_id amount s) as Hsub.
  pose proof (withdraw_from_pool_keeps_group env pool_id amount s) as Hkeep.
  unfold wp in *.
  destruct (withdraw_from_pool env pool_id amount s) as [[r s'] t].
  cbn [fst snd]. cbn in Hkeep. unfold keeps_rel in Hkeep. cbn in Hkeep.
  assert (Hnothing : submitted t = []).
  { destruct Hsub as [H|H]; [exact H|].
    destruct H as (lamports & group & bank_key & account & rent & blockhash &
                   _ & _ & Hgroup & _).
    congruence. }
  split; [|exact Hnothing].
  destruct Hout as [[-> _]|(tx & Htx & _)]; [reflexivity|].
  rewrite Hnothing in Htx. discriminate.
Qed.

Lemma withdraw_from_pool_needs_resolved_group_witness :
  marginfi_group_key fresh_client = None /\
  fst (fst (withdraw_from_pool sample_env "" 0.02 fresh_client)) = Ret false /\
  submitted (snd (withdraw_from_pool sample_env "" 0.02 fresh_client)) = [].
Proof.
  split; [reflexivity|].
  apply (withdraw_from_pool_needs_resolved_group sample_env "" 0.02
           fresh_client).
  reflexivity.
Defined.

(** ** Account creation and the lending-account field *)

Lemma create_marginfi_account_outcome (env : Env) (s : Client) :
  wp (create_marginfi_account env)
     (fun r s' t =>
        (r = Ret None /\ marginfi_account_key s' = marginfi_account_key s) \/
        (r = Ret (Some (pubkey (fresh_keypair env (keys_drawn s)))) /\
         marginfi_account_key s' =
           Some (pubkey (fresh_keypair env (keys_drawn s))) /\
         (get_account_info env (pubkey (fresh_keypair env (keys_drawn s)))
            <> Ret None \/
          exists tx signature,
            submitted t = [tx] /\ send_transaction env tx = Ret signature))) s.
Proof.
  unfold create_marginfi_account. apply wp_try. apply wp_bind.
  apply (wp_call (both calm (keeps LendingAccount)));
    [ apply ensure_marginfi_group_total
    | apply stable_both;
      [ apply ensure_marginfi_group_calm
      | apply ensure_marginfi_group_keeps; discriminate ]
    | ].
  intros [] s1 t1 [Hcalm1 Hkeep1]. apply calm_facts in Hcalm1.
  destruct Hcalm1 as (Hkp1 & Htm1 & Hkd1 & Hsub1 & _).
  cbn in Hkeep1. unfold keeps_rel in Hkeep1. cbn in Hkeep1.
  cbv beta iota. apply wp_bind.
  apply (wp_call (both calm (keeps LendingAccount)));
    [ apply ensure_sol_bank_total
    | apply stable_both;
      [ apply ensure_sol_bank_calm
      | apply ensure_sol_bank_keeps; discriminate ]
    | ].
  intros [] s2 t2 [Hcalm2 Hkeep2]. apply calm_facts in Hcalm2.
  destruct Hcalm2 as (Hkp2 & Htm2 & Hkd2 & Hsub2 & _).
  cbn in Hkeep2. unfold keeps_rel in Hkeep2. cbn in Hkeep2.
  wp_run.
  all: try (left; split; [reflexivity|congruence]).
  all: right; split; [reflexivity|]; split; [reflexivity|].
  all: first
         [ left; congruence
         | right; eexists; eexists;
           split; [submitted_simpl; reflexivity | eassumption] ].
Qed.

(** X7: [create_marginfi_account] never raises.  When it returns an
    address, that address is the public key of the keypair drawn in the
    call and is stored in the lending-account field, and either the
    backend did not report the address as free or the transaction was
    submitted and the send request answered.  When it returns [None], for
    whatever failure, the lending-account field is as it was. *)
Theorem create_marginfi_account_stores_on_success (env : Env) (s : Client) :
  (fst (fst (create_marginfi_account env s)) = Ret None /\
   marginfi_account_key (snd (fst (create_marginfi_account env s))) =
     marginfi_account_key s) \/
  (fst (fst (create_marginfi_account env s)) =
     Ret (Some (pubkey (fresh_keypair env (keys_drawn s)))) /\
   marginfi_account_key (snd (fst (create_marginfi_account env s))) =
     Some (pubkey (fresh_keypair env (keys_drawn s))) /\
   (get_account_info env (pubkey (fresh_keypair env (keys_drawn s)))
      <> Ret None \/
    exists tx signature,
      submitted (snd (create_marginfi_account env s)) = [tx] /\
      send_transaction env tx = Ret signature)).
Proof.
  pose proof (create_marginfi_account_outcome env s) as H. unfold wp in H.
  destruct (create_marginfi_account env s) as [[r s'] t]. exact H.
Qed.

(** ** One transaction at most *)

Lemma at_most_one_after_lookup {A B : Type} (m : M A) (f : A -> M B)
    (s : Client) :
  stable quiet m ->
  (forall a s1,
      wp (f a) (fun _ _ t => (length (submitted t) <= 1)%nat) s1) ->
  wp (bind m f) (fun _ _ t => (length (submitted t) <= 1)%nat) s.
Proof.
  intros Hm Hf. apply wp_bind. eapply wp_mono; [apply Hm|]. cbv beta.
  intros [a|e] s1 t1 (_ & _ & _ & Hev).
  - eapply wp_mono; [apply Hf|]. cbv beta. intros r2 s2 t2 H.
    rewrite submitted_app, (lookup_submits_nothing _ Hev). exact H.
  - rewrite (lookup_submits_nothing _ Hev). cbn. lia.
Qed.

Lemma lend_sol_at_most_one (env : Env) (amount : pyfloat) (s : Client) :
  wp (lend_sol env amount)
     (fun _ _ t => (length (submitted t) <= 1)%nat) s.
Proof.
  eapply wp_mono; [apply lend_sol_outcome|]. cbv beta.
  intros r s' t [[_ ->]|(tx & -> & _)]; cbn; lia.
Qed.

Lemma at_most_one_effects {A : Type} (m : M A) (s : Client) :
  wp m (fun _ _ t => (length (submitted t) <= 1)%nat) s ->
  (length (submitted (snd (effects m s))) <= 1)%nat.
Proof. unfold wp, effects. destruct (m s) as [[r s'] t]. auto. Qed.

(** X8: no operation submits more than one transaction, on any backend
    and from any client. *)
Theorem one_transaction_at_most (env : Env) (op : operation) (s : Client) :
  (length (submitted (snd (run env op s))) <= 1)%nat.
Proof.
  destruct op; cbn [run].
  all: try (rewrite quiet_effects;
            [ cbn; lia
            | solve [ auto using get_sol_apy_quiet, get_lending_pools_quiet,
                        get_marginfi_positions_quiet,
                        get_marginfi_accounts_quiet, get_wallet_status_quiet,
                        get_sol_balance_quiet, get_token_prices_quiet ] ]).
  all: apply at_most_one_effects.
  - eapply wp_mono; [apply create_marginfi_account_submits|]. cbv beta.
    intros r s' t [->|(g & b & _ & _ & ->)]; cbn; lia.
  - apply lend_sol_at_most_one.
  - eapply wp_mono; [apply withdraw_from_pool_outcome|]. cbv beta.
    intros r s' t [[_ ->]|(tx & -> & _)]; cbn; lia.
  - unfold test_lending_flow. apply at_most_one_after_lookup;
      [apply get_wallet_status_quiet|].
    intros wallet_status s1.
    destruct (sol_tokens_of wallet_status) as [|token rest];
      [cbn; lia|].
    match goal with
    | |- context [float_lt ?a ?b] => destruct (float_lt a b)
    end; [cbn; lia|].
    apply lend_sol_at_most_one.
  - unfold auto_lending_flow.
    destruct (sol_tokens_of wallet_status) as [|token rest];
      [cbn; lia|].
    cbv zeta. apply at_most_one_after_lookup; [apply get_sol_apy_quiet|].
    intros current_apy s1.
    match goal with
    | |- context [float_gt ?a ?b] => destruct (float_gt a b)
    end; [cbn; lia|].
    apply lend_sol_at_most_one.
Qed.

(** ** Price lookups *)





(** ** The wallet report *)


Lemma get_token_prices_offline (env : Env) (s : Client) (e : exn) :
  requests_get env sol_price_url sol_price_params = Raise e ->
  get_token_prices env ["SOL"%string] s =
  (Ret [("SOL"%string, 0%float)], s, [HttpGet sol_price_url sol_price_params]).
Proof.
  intros Hdown.
  unfold get_token_prices, try_except, bind, http_get, bind, emit, lift.
  cbv beta iota zeta.
  change (join_comma (map coin_id_of ["SOL"%string])) with "solana"%string.
  fold sol_price_url. fold sol_price_params.
  rewrite Hdown. reflexivity.
Qed.

(** The report, in terms of the balance and the price dict the two
    lookups return. *)
Lemma get_wallet_status_outcome (env : Env) (s : Client) :
  exists sol_balance prices t,
    fst (fst (get_sol_balance env s)) = Ret sol_balance /\
    get_token_prices env ["SOL"%string] s = (Ret prices, s, t) /\
    get_wallet_status env s =
    (Ret (mkWalletStatus (pubkey (keypair s))
            (if float_gt (sol_balance * dict_get_default prices "SOL" 0%float) 0.1
             then [ mkTokenEntry "SOL" sol_balance
                      (dict_get_default prices "SOL" 0%float)
                      (sol_balance * dict_get_default prices "SOL" 0%float) ]
             else [])
            (py_sum
               (map value_usd
                  (if float_gt (sol_balance * dict_get_default prices "SOL" 0%float)
                               0.1
                   then [ mkTokenEntry "SOL" sol_balance
                            (dict_get_default prices "SOL" 0%float)
                            (sol_balance * dict_get_default prices "SOL" 0%float) ]
                   else [])))),
     s, GetBalance (pubkey (keypair s)) :: t).
Proof.
  destruct (get_sol_balance_run env s) as [sol_balance Hbalance].
  pose proof (get_token_prices_total env ["SOL"%string] s) as Htotal.
  destruct Htotal as (prices & s1 & t & Hprices).
  pose proof (get_token_prices_untouched env ["SOL"%string] s) as Hsame.
  unfold wp in Hsame. rewrite Hprices in Hsame. cbn in Hsame.
  unfold untouched_rel in Hsame. subst s1.
  exists sol_balance, prices, t.
  split; [rewrite Hbalance; reflexivity|]. split; [exact Hprices|].
  unfold get_wallet_status. unfold bind at 1. rewrite Hbalance.
  unfold bind at 1. rewrite Hprices.
  unfold bind, get_self, ret. cbv beta iota zeta. cbn [app].
  rewrite app_nil_r. reflexivity.
Qed.


(** ** The automated flows *)

Lemma test_lending_flow_outcome (env : Env) (amount_sol : pyfloat)
    (s : Client) :
  exists sol_balance prices t,
    fst (fst (get_sol_balance env s)) = Ret sol_balance /\
    get_token_prices env ["SOL"%string] s = (Ret prices, s, t) /\
    test_lending_flow env amount_sol s =
    if float_gt (sol_balance * dict_get_default prices "SOL" 0%float) 0.1
    then
      if float_lt sol_balance amount_sol
      then (Ret false, s, GetBalance (pubkey (keypair s)) :: t)
      else
        match lend_sol env amount_sol s with
        | (r, s', t') => (r, s', GetBalance (pubkey (keypair s)) :: t ++ t')
        end
    else (Ret false, s, GetBalance (pubkey (keypair s)) :: t).
Proof.
  destruct (get_wallet_status_outcome env s)
    as (sol_balance & prices & t & Hbalance & Hprices & Hrun).
  exists sol_balance, prices, t.
  split; [exact Hbalance|]. split; [exact Hprices|].
  unfold test_lending_flow, bind. rewrite Hrun.
  destruct (float_gt (sol_balance * dict_get_default prices "SOL" 0%float) 0.1).
  - cbn [sol_tokens_of tokens filter symbol balance].
    change (String.eqb "SOL" "SOL") with true. cbv iota.
    cbn [balance].
    destruct (float_lt sol_balance amount_sol).
    + unfold ret. cbn [app]. rewrite app_nil_r. reflexivity.
    + destruct (lend_sol env amount_sol s) as [[[b|ex] s'] t']; reflexivity.
  - cbn [sol_tokens_of tokens filter]. unfold ret. cbn [app].
    rewrite app_nil_r. reflexivity.
Qed.

(** X11: a transaction [test_lending_flow] submits was preceded by a
    wallet report in which the [SOL] value exceeded 0.1 USD and the
    balance was not below the amount. *)
Theorem test_lending_flow_lends_when_funded (env : Env)
    (amount_sol : pyfloat) (s : Client) (tx : Transaction) :
  In tx (submitted (snd (test_lending_flow env amount_sol s))) ->
  exists sol_balance prices t,
    fst (fst (get_sol_balance env s)) = Ret sol_balance /\
    get_token_prices env ["SOL"%string] s = (Ret prices, s, t) /\
    float_gt (sol_balance * dict_get_default prices "SOL" 0%float) 0.1 = true /\
    float_lt sol_balance amount_sol = false.
Proof.
  destruct (test_lending_flow_outcome env amount_sol s)
    as (sol_balance & prices & t & Hbalance & Hprices & ->).
  pose proof (get_token_prices_quiet env ["SOL"%string] s) as Hquiet.
  unfold wp in Hquiet. rewrite Hprices in Hquiet.
  destruct Hquiet as (_ & _ & _ & Hev).
  apply lookup_submits_nothing in Hev.
  intros Hin. exists sol_balance, prices, t.
  split; [exact Hbalance|]. split; [exact Hprices|].
  destruct (float_gt (sol_balance * dict_get_default prices "SOL" 0%float) 0.1).
  - destruct (float_lt sol_balance amount_sol).
    + cbn [snd submitted] in Hin. rewrite Hev in Hin. destruct Hin.
    + split; reflexivity.
  - cbn [snd submitted] in Hin. rewrite Hev in Hin. destruct Hin.
Qed.

Lemma test_lending_flow_lends_when_funded_witness :
  exists tx sol_balance prices t,
    In tx (submitted (snd (test_lending_flow sample_env 0.003 fresh_client)))
    /\
    fst (fst (get_sol_balance sample_env fresh_client)) = Ret sol_balance /\
    get_token_prices sample_env ["SOL"%string] fresh_client =
      (Ret prices, fresh_client, t) /\
    float_gt (sol_balance * dict_get_default prices "SOL" 0%float) 0.1 = true /\
    float_lt sol_balance 0.003 = false.
Proof.
  assert (Hsub : exists tx,
             submitted (snd (test_lending_flow sample_env 0.003 fresh_client))
             = [tx]).
  { vm_compute. eexists. reflexivity. }
  destruct Hsub as [tx Hsub]. exists tx.
  assert (Hin : In tx (submitted
                         (snd (test_lending_flow sample_env 0.003
                                 fresh_client))))
    by (rewrite Hsub; left; reflexivity).
  destruct (test_lending_flow_lends_when_funded sample_env 0.003 fresh_client
              tx Hin)
    as (sol_balance & prices & t & H).
  exists sol_balance, prices, t. split; [exact Hin|exact H].
Defined.

(** X12: with the price request failing, [test_lending_flow] returns
    [False] after the balance and price lookups, whatever the balance and
    the amount: the report then lists no token.  Nothing is resolved,
    drawn or submitted and the client is as it was. *)
Theorem test_lending_flow_needs_price (env : Env) (amount_sol : pyfloat)
    (s : Client) (e : exn) :
  requests_get env sol_price_url sol_price_params = Raise e ->
  test_lending_flow env amount_sol s =
  (Ret false, s,
   [GetBalance (pubkey (keypair s)); HttpGet sol_price_url sol_price_params]).
Proof.
  intros Hdown.
  destruct (test_lending_flow_outcome env amount_sol s)
    as (sol_balance & prices & t & _ & Hprices & ->).
  rewrite (get_token_prices_offline env s e Hdown) in Hprices.
  injection Hprices as <- <-.
  change (dict_get_default [("SOL"%string, 0%float)] "SOL" 0%float)
    with 0%float.
  rewrite zero_value_below_threshold. reflexivity.
Qed.

Lemma test_lending_flow_needs_price_witness :
  requests_get offline_price_env sol_price_url sol_price_params =
    Raise (BackendError "ConnectionError") /\
  test_lending_flow offline_price_env 0.003 fresh_client =
  (Ret false, fresh_client,
   [GetBalance (pubkey sample_wallet);
    HttpGet sol_price_url sol_price_params]).
Proof.
  split; [reflexivity|].
  apply (test_lending_flow_needs_price offline_price_env 0.003 fresh_client
           (BackendError "ConnectionError")).
  reflexivity.
Defined.

Lemma lookup_draws_nothing (t : list event) :
  forallb lookup_event t = true -> drawn t = [].
Proof.
  induction t as [|ev t IH]; [reflexivity|]. cbn [forallb].
  intros H. apply andb_true_iff in H. destruct H as [Hev Ht].
  destruct ev; cbn in *; try discriminate; auto.
Qed.

(** X13: [auto_lending_flow] refuses an amount above the reported [SOL]
    balance: it returns [False] having drawn no keypair and submitted
    nothing. *)
Theorem auto_lending_flow_refuses_above_balance (env : Env)
    (wallet_status : WalletStatus) (amount : pyfloat) (s : Client)
    (token : TokenEntry) (rest : list TokenEntry) :
  sol_tokens_of wallet_status = token :: rest ->
  float_gt amount (balance token) = true ->
  fst (fst (auto_lending_flow env wallet_status amount s)) = Ret false /\
  submitted (snd (auto_lending_flow env wallet_status amount s)) = [] /\
  drawn (snd (auto_lending_flow env wallet_status amount s)) = [].
Proof.
  intros Htokens Hexcess.
  pose proof (auto_lending_flow_refuses_excess env wallet_status amount s
                token rest Htokens Hexcess) as H.
  unfold wp in H.
  destruct (auto_lending_flow env wallet_status amount s) as [[r s'] t].
  destruct H as [-> Hev]. cbn [fst snd].
  auto using lookup_submits_nothing, lookup_draws_nothing.
Qed.

Lemma auto_lending_flow_refuses_above_balance_witness :
  sol_tokens_of sample_wallet_status =
    [mkTokenEntry "SOL" 1 100 100] /\
  float_gt 2 1 = true /\
  fst (fst (auto_lending_flow sample_env sample_wallet_status 2 fresh_client))
    = Ret false /\
  submitted (snd (auto_lending_flow sample_env sample_wallet_status 2
                    fresh_client)) = [] /\
  drawn (snd (auto_lending_flow sample_env sample_wallet_status 2
                fresh_client)) = [].
Proof.
  split; [reflexivity|]. split; [reflexivity|].
  apply (auto_lending_flow_refuses_above_balance sample_env
           sample_wallet_status 2 fresh_client
           (mkTokenEntry "SOL" 1 100 100) []);
    reflexivity.
Defined.

(** ** Positions and pools *)

Lemma wp_conj {A : Type} (m : M A)
    (Q1 Q2 : Res A -> Client -> list event -> Prop) (s : Client) :
  wp m Q1 s -> wp m Q2 s -> wp m (fun r s' t => Q1 r s' t /\ Q2 r s' t) s.
Proof. unfold wp. destruct (m s) as [[r s'] t]. auto. Qed.

Lemma _get_sol_price_total (env : Env) : total (_get_sol_price env).
Proof. apply total_try. intros e. apply total_ret. Qed.

Lemma _parse_lending_positions_outcome (env : Env) (s : Client) :
  wp (_parse_lending_positions env)
     (fun r _ _ =>
        r = Ret [] \/
        exists balance_sol original,
          float_gt balance_sol 0 = true /\
          r = Ret [placeholder_position balance_sol original]) s.
Proof.
  unfold _parse_lending_positions. wp_run.
  all: try (left; reflexivity).
  all: apply (wp_call anything);
    [apply _get_sol_price_total|apply stable_anything|].
  all: intros sol_price s1 t1 _; wp_run.
  all: try (left; reflexivity).
  all: right; eexists; eexists; split; [eassumption|reflexivity].
Qed.

(** X14: [get_marginfi_positions] never raises, and what it reports does
    not come from the account data: either no position, or the single
    [SOL] position with the fixed value 7.28 USD, growth 3.8986 USD and
    115 percent, rate 2.5, the pinned bank, and a positive balance equal
    to the amount. *)
Theorem get_marginfi_positions_is_placeholder (env : Env) (s : Client) :
  exists report s' t,
    get_marginfi_positions env s = (Ret report, s', t) /\
    (positions report = [] \/
     exists balance_sol original,
       float_gt balance_sol 0 = true /\
       positions report =
       [ mkPosition "SOL" balance_sol balance_sol original 7.28 3.8986 115.0
           "mrgnlend SOL Pool" sol_bank_str 2.5 ]).
Proof.
  assert (H : wp (get_marginfi_positions env)
                (fun r _ _ =>
                   exists report,
                     r = Ret report /\
                     (positions report = [] \/
                      exists balance_sol original,
                        float_gt balance_sol 0 = true /\
                        positions report =
                        [placeholder_position balance_sol original])) s).
  { unfold get_marginfi_positions. apply wp_try. apply wp_bind.
    apply (wp_call anything);
      [apply ensure_marginfi_account_total|apply stable_anything|].
    intros [] s1 t1 _. wp_run.
    - eapply wp_mono; [apply _parse_lending_positions_outcome|].
      cbv beta. intros r s2 t2 Hparsed.
      destruct Hparsed as [->|(bal & orig & Hbal & ->)]; cbv beta iota.
      + apply wp_bind. apply (wp_call anything);
          [apply _get_sol_price_total|apply stable_anything|].
        intros sol_price s3 t3 _. wp_run.
        eexists. split; [reflexivity|]. left. reflexivity.
      + apply wp_bind. apply (wp_call anything);
          [apply _get_sol_price_total|apply stable_anything|].
        intros sol_price s3 t3 _. wp_run.
        eexists. split; [reflexivity|]. right. exists bal, orig.
        split; [assumption|reflexivity].
    - eexists. split; [reflexivity|]. left. reflexivity. }
  unfold wp in H. destruct (get_marginfi_positions env s) as [[r s'] t].
  destruct H as (report & -> & H). exists report, s', t.
  split; [reflexivity|exact H].
Qed.

Lemma get_sol_apy_rates (env : Env) (s : Client) :
  wp (get_sol_apy env)
     (fun r _ _ => r = Ret 0%float \/ r = Ret 2.5%float) s.
Proof.
  unfold get_sol_apy. apply wp_try. apply wp_bind.
  apply (wp_call anything);
    [apply ensure_sol_bank_total|apply stable_anything|].
  intros [] s1 t1 _. wp_run; auto.
  unfold parse_bank_apy. destruct (_ <? 200); auto.
Qed.

(** X15: [get_lending_pools] never raises and lists at most one pool: the
    [SOL] pool of the bank held in the bank field after the call, with a
    supply rate of 0.0 or 2.5; it lists none when the bank is
    unresolved. *)
Theorem get_lending_pools_lists_the_bank (env : Env) (s : Client) :
  exists pools s' t,
    get_lending_pools env s = (Ret pools, s', t) /\
    match sol_bank_key s' with
    | Some bank_key =>
        exists rate,
          (rate = 0%float \/ rate = 2.5%float) /\
          pools = [ mkPool "SOL" rate "mrgnlend SOL Pool" bank_key "mrgnlend"
                      "0% platform fees"
                      "Protected by marginfi insurance pools" ]
    | None => pools = []
    end.
Proof.
  assert (H : wp (get_lending_pools env)
                (fun r s' _ =>
                   exists pools,
                     r = Ret pools /\
                     match sol_bank_key s' with
                     | Some bank_key =>
                         exists rate,
                           (rate = 0%float \/ rate = 2.5%float) /\
                           pools =
                           [ mkPool "SOL" rate "mrgnlend SOL Pool" bank_key
                               "mrgnlend" "0% platform fees"
                               "Protected by marginfi insurance pools" ]
                     | None => pools = []
                     end) s).
  { unfold get_lending_pools. apply wp_try. apply wp_bind.
    apply (wp_call anything);
      [apply ensure_sol_bank_total|apply stable_anything|].
    intros [] s1 t1 _. wp_run.
    - eapply wp_mono;
        [ apply wp_conj;
          [ apply get_sol_apy_rates | apply (get_sol_apy_cache env Bank) ]
        | ].
      cbv beta. intros r s2 t2 [Hrate Hcache].
      destruct (Hcache _ Heqo) as [Hbank _]. cbn in Hbank.
      destruct Hrate as [->| ->]; wp_run;
        rewrite Hbank; eexists; (split; [reflexivity|]); eauto.
    - rewrite Heqo. eexists. split; reflexivity. }
  unfold wp in H. destruct (get_lending_pools env s) as [[r s'] t].
  destruct H as (pools & -> & H). exists pools, s', t.
  split; [reflexivity|exact H].
Qed.

(** ** When the operations go through *)

Lemma create_account_checked_fits (a b : Pubkey) (lamports space : Z)
    (o : Pubkey) :
  0 <= lamports < 2 ^ 64 ->
  create_account_checked a b lamports space o =
  Ret (create_account a b lamports space o).
Proof.
  intros Hfit. unfold create_account_checked.
  replace ((0 <=? lamports) && (lamports <? 2 ^ 64)) with true;
    [reflexivity|].
  symmetry. apply andb_true_iff. split; [apply Z.leb_le|apply Z.ltb_lt]; lia.
Qed.

Lemma int_to_bytes_fits (v : Z) :
  0 <= v < 2 ^ 64 -> int_to_bytes v 8 = Ret (le_bytes 8 v).
Proof.
  intros Hfit. unfold int_to_bytes.
  replace ((0 <=? v) && (v <? 256 ^ Z.of_nat 8)) with true; [reflexivity|].
  symmetry. apply andb_true_iff.
  split; [apply Z.leb_le|apply Z.ltb_lt];
    change (256 ^ Z.of_nat 8) with (2 ^ 64); lia.
Qed.

Lemma withdraw_from_pool_builds (env : Env) (pool_id : string)
    (amount : pyfloat) (s : Client) (amount_lamports rent_lamports : Z)
    (group bank_key account : Pubkey) (blockhash : string) :
  int_of_float (amount * 1e9) = Ret amount_lamports ->
  0 <= amount_lamports < 2 ^ 64 -> 0 <= rent_lamports < 2 ^ 64 ->
  marginfi_group_key s = Some group -> sol_bank_key s = Some bank_key ->
  marginfi_account_key s = Some account ->
  get_minimum_balance_for_rent_exemption env ACCOUNT_LEN = Ret rent_lamports ->
  get_latest_blockhash env = Ret blockhash ->
  exists tx, submitted (snd (withdraw_from_pool env pool_id amount s)) = [tx].
Proof.
  intros Hamount Hfit Hrent Hgroup Hbank Haccount Hrpc Hhash.
  unfold withdraw_from_pool, try_except, ensure_marginfi_account,
    ensure_sol_bank, bind, lift, get_self, put_self, require_pubkey,
    Keypair_new, rpc_get_minimum_balance_for_rent_exemption,
    rpc_get_latest_blockhash, rpc_send_transaction, bind, emit, lift,
    get_self, put_self, ret.
  rewrite Hamount. cbv beta iota zeta.
  repeat (first [rewrite Haccount | rewrite Hbank | rewrite Hgroup];
          run_simpl).
  rewrite Hrpc. cbv beta iota zeta.
  rewrite (create_account_checked_fits _ _ _ _ _ Hrent). cbv beta iota zeta.
  rewrite (int_to_bytes_fits _ Hfit). cbv beta iota zeta.
  repeat (first [rewrite Haccount | rewrite Hbank | rewrite Hgroup];
          run_simpl).
  rewrite Hhash. cbv beta iota zeta.
  rewrite priority_fee_value. cbv beta iota zeta.
  match goal with
  | |- context [send_transaction env ?tx] =>
      exists tx; destruct (send_transaction env tx)
  end; reflexivity.
Qed.

(** X16: with the group and bank fields populated, the rent and blockhash
    requests answered, and an amount whose base units and funding fit in
    64 bits, [lend_sol] submits exactly one transaction and returns [True]
    or [False] as the send request answers or raises. *)
Theorem lend_sol_goes_through (env : Env) (amount : pyfloat) (s : Client)
    (amount_lamports rent_lamports : Z) (group bank_key : Pubkey)
    (blockhash : string) :
  int_of_float (amount * 1e9) = Ret amount_lamports ->
  0 <= amount_lamports -> 0 <= rent_lamports ->
  rent_lamports + amount_lamports < 2 ^ 64 ->
  marginfi_group_key s = Some group -> sol_bank_key s = Some bank_key ->
  get_minimum_balance_for_rent_exemption env ACCOUNT_LEN = Ret rent_lamports ->
  get_latest_blockhash env = Ret blockhash ->
  exists tx,
    submitted (snd (lend_sol env amount s)) = [tx] /\
    fst (fst (lend_sol env amount s)) =
    match send_transaction env tx with
    | Ret _ => Ret true
    | Raise _ => Ret false
    end.
Proof.
  intros Hamount Hpos Hrent Hfit Hgroup Hbank Hrpc Hhash.
  destruct (lend_sol_builds env amount s amount_lamports rent_lamports group
              bank_key blockhash Hamount Hpos Hrent Hfit Hgroup Hbank Hrpc
              Hhash) as [tx Htx].
  pose proof (lend_sol_outcome env amount s) as Hout. unfold wp in Hout.
  destruct (lend_sol env amount s) as [[r s'] t]. cbn [fst snd] in *.
  exists tx. split; [exact Htx|].
  destruct Hout as [[_ Hnone]|(tx' & Htx' & Hr)]; [congruence|].
  rewrite Htx in Htx'. injection Htx' as <-. exact Hr.
Qed.

Lemma lend_sol_goes_through_witness :
  exists tx,
    submitted (snd (lend_sol sample_env 0.02 populated_client)) = [tx] /\
    fst (fst (lend_sol sample_env 0.02 populated_client)) =
    match send_transaction sample_env tx with
    | Ret _ => Ret true
    | Raise _ => Ret false
    end.
Proof.
  apply (lend_sol_goes_through sample_env 0.02 populated_client 20000000
           2039280 "4qp6Fx6tnZkY5Wropq9wUYgtFxXKwE6viZxFHg3rdAG8"%string
           sol_bank_str "EETubP5AKHgjPAhzPAFcb8BAY1hMH639CWCFTqi3hq1k"%string);
    first [ reflexivity | vm_compute; reflexivity | lia
          | vm_compute; discriminate ].
Defined.

(** X17: with the group, bank and lending-account fields populated, the
    rent and blockhash requests answered, and an amount whose base units
    fit in 64 bits, [withdraw_from_pool] submits exactly one transaction
    and returns [True] or [False] as the send request answers or
    raises. *)
Theorem withdraw_from_pool_goes_through (env : Env) (pool_id : string)
    (amount : pyfloat) (s : Client) (amount_lamports rent_lamports : Z)
    (group bank_key account : Pubkey) (blockhash : string) :
  int_of_float (amount * 1e9) = Ret amount_lamports ->
  0 <= amount_lamports < 2 ^ 64 -> 0 <= rent_lamports < 2 ^ 64 ->
  marginfi_group_key s = Some group -> sol_bank_key s = Some bank_key ->
  marginfi_account_key s = Some account ->
  get_minimum_balance_for_rent_exemption env ACCOUNT_LEN = Ret rent_lamports ->
  get_latest_blockhash env = Ret blockhash ->
  exists tx,
    submitted (snd (withdraw_from_pool env pool_id amount s)) = [tx] /\
    fst (fst (withdraw_from_pool env pool_id amount s)) =
    match send_transaction env tx with
    | Ret _ => Ret true
    | Raise _ => Ret false
    end.
Proof.
  intros Hamount Hfit Hrent Hgroup Hbank Haccount Hrpc Hhash.
  destruct (withdraw_from_pool_builds env pool_id amount s amount_lamports
              rent_lamports group bank_key account blockhash Hamount Hfit
              Hrent Hgroup Hbank Haccount Hrpc Hhash) as [tx Htx].
  pose proof (withdraw_from_pool_outcome env pool_id amount s) as Hout.
  unfold wp in Hout.
  destruct (withdraw_from_pool env pool_id amount s) as [[r s'] t].
  cbn [fst snd] in *.
  exists tx. split; [exact Htx|].
  destruct Hout as [[_ Hnone]|(tx' & Htx' & Hr)]; [congruence|].
  rewrite Htx in Htx'. injection Htx' as <-. exact Hr.
Qed.

Lemma withdraw_from_pool_goes_through_witness :
  exists tx,
    submitted (snd (withdraw_from_pool sample_env "" 0.02 populated_client))
    = [tx] /\
    fst (fst (withdraw_from_pool sample_env "" 0.02 populated_client)) =
    match send_transaction sample_env tx with
    | Ret _ => Ret true
    | Raise _ => Ret false
    end.
Proof.
  apply (withdraw_from_pool_goes_through sample_env "" 0.02 populated_client
           20000000 2039280
           "4qp6Fx6tnZkY5Wropq9wUYgtFxXKwE6viZxFHg3rdAG8"%string
           sol_bank_str (pubkey (sample_keypair 0))
           "EETubP5AKHgjPAhzPAFcb8BAY1hMH639CWCFTqi3hq1k"%string);
    first [ reflexivity | vm_compute; reflexivity | lia
          | vm_compute; split; discriminate ].
Defined.

(** ** A deposit, then a withdrawal *)

Lemma lend_sol_fields (env : Env) (amount : pyfloat) (s : Client) :
  wp (lend_sol env amount)
     (fun r s' _ =>
        r = Ret true ->
        exists group bank_key,
          marginfi_group_key s' = Some group /\
          sol_bank_key s' = Some bank_key /\
          marginfi_account_key s' = Some existing_marginfi_account_str) s.
Proof.
  unfold lend_sol. wp_run.
  all: try (intros H; discriminate).
  all: wp_ensure ensure_marginfi_group_total ensure_marginfi_group_calm.
  all: wp_run; try (intros H; discriminate).
  all: wp_ensure ensure_sol_bank_total ensure_sol_bank_calm.
  all: wp_run; try (intros H; discriminate).
  all: intros _; eexists; eexists; repeat split; eassumption.
Qed.

(** X18: a deposit makes a later withdrawal possible.  After [lend_sol]
    returned [True], the three fields are populated, so that
    [withdraw_from_pool], on a backend that answers the rent and blockhash
    requests and for an amount whose base units fit in 64 bits, submits
    exactly one transaction. *)
Theorem withdraw_after_deposit (env1 env2 : Env) (deposit amount : pyfloat)
    (pool_id : string) (s : Client) (amount_lamports rent_lamports : Z)
    (blockhash : string) :
  fst (fst (lend_sol env1 deposit s)) = Ret true ->
  int_of_float (amount * 1e9) = Ret amount_lamports ->
  0 <= amount_lamports < 2 ^ 64 -> 0 <= rent_lamports < 2 ^ 64 ->
  get_minimum_balance_for_rent_exemption env2 ACCOUNT_LEN = Ret rent_lamports ->
  get_latest_blockhash env2 = Ret blockhash ->
  exists tx,
    submitted
      (snd (withdraw_from_pool env2 pool_id amount
              (snd (fst (lend_sol env1 deposit s))))) = [tx].
Proof.
  intros Htrue Hamount Hfit Hrent Hrpc Hhash.
  pose proof (lend_sol_fields env1 deposit s) as Hfields. unfold wp in Hfields.
  destruct (lend_sol env1 deposit s) as [[r s'] t]. cbn [fst snd] in *.
  destruct (Hfields Htrue) as (group & bank_key & Hgroup & Hbank & Haccount).
  exact (withdraw_from_pool_builds env2 pool_id amount s' amount_lamports
           rent_lamports group bank_key existing_marginfi_account_str
           blockhash Hamount Hfit Hrent Hgroup Hbank Haccount Hrpc Hhash).
Qed.

Lemma withdraw_after_deposit_witness :
  fst (fst (lend_sol sample_env 0.02 fresh_client)) = Ret true /\
  exists tx,
    submitted
      (snd (withdraw_from_pool sample_env "" 0.01
              (snd (fst (lend_sol sample_env 0.02 fresh_client))))) = [tx].
Proof.
  split; [vm_compute; reflexivity|].
  apply (withdraw_after_deposit sample_env sample_env 0.02 0.01 ""
           fresh_client 10000000 2039280
           "EETubP5AKHgjPAhzPAFcb8BAY1hMH639CWCFTqi3hq1k"%string);
    first [ reflexivity | vm_compute; reflexivity | lia
          | vm_compute; split; discriminate ].
Defined.

(** ** Amounts that cannot be sent *)

(** X19: an amount with no value in base units between 0 and 2^64 (a
    negative amount, one too large, an infinity or NaN) is never
    submitted: both [lend_sol] and [withdraw_from_pool] return [False]
    with no transaction sent. *)
Theorem amount_out_of_range_is_refused (env : Env) (pool_id : string)
    (amount : pyfloat) (s : Client) :
  (forall amount_lamports,
     int_of_float (amount * 1e9) = Ret amount_lamports ->
     amount_lamports < 0 \/ 2 ^ 64 <= amount_lamports) ->
  (fst (fst (lend_sol env amount s)) = Ret false /\
   submitted (snd (lend_sol env amount s)) = []) /\
  (fst (fst (withdraw_from_pool env pool_id amount s)) = Ret false /\
   submitted (snd (withdraw_from_pool env pool_id amount s)) = []).
Proof.
  intros Hrange. split.
  - pose proof (lend_sol_outcome env amount s) as Hout.
    pose proof (lend_sol_submits env amount s) as Hsub.
    unfold wp in *. destruct (lend_sol env amount s) as [[r s'] t].
    cbn [fst snd].
    assert (Hnothing : submitted t = []).
    { destruct Hsub as [H|H]; [exact H|].
      destruct H as (lamports & ? & ? & ? & ? & Hamount & Hfit & _).
      destruct (Hrange _ Hamount); lia. }
    split; [|exact Hnothing].
    destruct Hout as [[-> _]|(tx & Htx & _)]; [reflexivity|].
    rewrite Hnothing in Htx. discriminate.
  - pose proof (withdraw_from_pool_outcome env pool_id amount s) as Hout.
    pose proof (withdraw_from_pool_submits env pool_id amount s) as Hsub.
    unfold wp in *.
    destruct (withdraw_from_pool env pool_id amount s) as [[r s'] t].
    cbn [fst snd].
    assert (Hnothing : submitted t = []).
    { destruct Hsub as [H|H]; [exact H|].
      destruct H as (lamports & ? & ? & ? & ? & ? & Hamount & Hfit & _).
      destruct (Hrange _ Hamount); lia. }
    split; [|exact Hnothing].
    destruct Hout as [[-> _]|(tx & Htx & _)]; [reflexivity|].
    rewrite Hnothing in Htx. discriminate.
Qed.

Lemma amount_out_of_range_is_refused_witness :
  (fst (fst (lend_sol sample_env (-0.001) populated_client)) = Ret false /\
   submitted (snd (lend_sol sample_env (-0.001) populated_client)) = []) /\
  (fst (fst (withdraw_from_pool sample_env "" (-0.001) populated_client))
   = Ret false /\
   submitted (snd (withdraw_from_pool sample_env "" (-0.001) populated_client))
   = []).
Proof.
  apply (amount_out_of_range_is_refused sample_env "" (-0.001)
           populated_client).
  intros amount_lamports Hamount. left.
  vm_compute in Hamount. injection Hamount as <-. lia.
Defined.

(** ** The account list *)

(** X20: [get_marginfi_accounts] never raises and lists at most one
    account: the pinned lending account with no positions, and then the
    lending-account field holds that address whatever it held before. *)
Theorem get_marginfi_accounts_lists_pinned (env : Env) (s : Client) :
  exists accounts s' t,
    get_marginfi_accounts env s = (Ret accounts, s', t) /\
    (accounts = [] \/
     (accounts = [mkAccountSummary existing_marginfi_account_str []] /\
      marginfi_account_key s' = Some existing_marginfi_account_str)).
Proof.
  assert (H : wp (get_marginfi_accounts env)
                (fun r s' _ =>
                   exists accounts,
                     r = Ret accounts /\
                     (accounts = [] \/
                      (accounts =
                       [mkAccountSummary existing_marginfi_account_str []] /\
                       marginfi_account_key s' =
                       Some existing_marginfi_account_str))) s).
  { unfold get_marginfi_accounts, find_marginfi_account.
    wp_run; eexists; (split; [reflexivity|]); auto. }
  unfold wp in H. destruct (get_marginfi_accounts env s) as [[r s'] t].
  destruct H as (accounts & -> & H). exists accounts, s', t.
  split; [reflexivity|exact H].
Qed.

(** ** The prompt-driven flows *)

(** An amount that has a value in base units is a number; when it is not
    at or below zero it is above zero. *)
Lemma number_above_zero (value : pyfloat) (amount_lamports : Z) :
  float_le value 0 = false ->
  int_of_float (value * 1e9) = Ret amount_lamports ->
  float_lt 0 value = true.
Proof.
  unfold float_le, float_lt, int_of_float.
  rewrite leb_spec, ltb_spec, mul_spec.
  replace (Prim2SF 0) with (S754_zero false) by reflexivity.
  destruct (Prim2SF value) as [sv|sv| |sv mv ev]; cbn.
  - discriminate.
  - destruct sv; [discriminate|reflexivity].
  - intros _ H. discriminate.
  - destruct sv; [discriminate|reflexivity].
Qed.

Section PromptLoops.

Variable float_of_str : string -> option pyfloat.
Variable int_of_str : string -> option Z.

(** The amount the loop lets through was typed, passed both tests, and
    what is left unread was typed after it. *)
Lemma ask_amount_validated (max_amount : pyfloat) (answers : list string)
    (value : pyfloat) (unread : list string) :
  ask_amount float_of_str max_amount answers = Done value unread ->
  float_le value 0 = false /\ float_gt value max_amount = false /\
  (exists text, In text answers /\ float_of_str text = Some value) /\
  (forall answer, In answer unread -> In answer answers).
Proof.
  induction answers as [|amount_input rest IH]; cbn [ask_amount];
    [discriminate|].
  assert (Hagain :
            ask_amount float_of_str max_amount rest = Done value unread ->
            float_le value 0 = false /\ float_gt value max_amount = false /\
            (exists text,
               In text (amount_input :: rest) /\
               float_of_str text = Some value) /\
            (forall answer,
               In answer unread -> In answer (amount_input :: rest))).
  { intros H. destruct (IH H) as (Hle & Hgt & (text & Hin & Htext) & Hrest).
    repeat split; try assumption.
    - exists text. split; [right; assumption|assumption].
    - intros answer Ha. right. auto. }
  destruct (String.eqb amount_input ""); [exact Hagain|].
  destruct (float_of_str amount_input) as [parsed|] eqn:Hparsed;
    [|exact Hagain].
  destruct (float_le parsed 0) eqn:Hle; [exact Hagain|].
  destruct (float_gt parsed max_amount) eqn:Hgt; [exact Hagain|].
  intros H. injection H as <- <-.
  repeat split; try assumption.
  - exists amount_input. split; [left; reflexivity|assumption].
  - intros answer Ha. right. assumption.
Qed.

(** The position the loop selects is one of those listed. *)
Lemma ask_position_selects (listed : list Position) (answers : list string)
    (selected : Position) (unread : list string) :
  ask_position int_of_str listed answers = Done selected unread ->
  In selected listed /\
  (forall answer, In answer unread -> In answer answers).
Proof.
  induction answers as [|choice rest IH]; cbn [ask_position];
    [discriminate|].
  assert (Hagain :
            ask_position int_of_str listed rest = Done selected unread ->
            In selected listed /\
            (forall answer, In answer unread -> In answer (choice :: rest))).
  { intros H. destruct (IH H) as (Hin & Hrest).
    split; [assumption|]. intros answer Ha. right. auto. }
  destruct (String.eqb choice ""); [exact Hagain|].
  destruct (int_of_str choice) as [n|]; [|exact Hagain].
  cbv zeta.
  destruct ((0 <=? n - 1) && (n - 1 <? Z.of_nat (length listed)));
    [|exact Hagain].
  destruct (nth_error listed (Z.to_nat (n - 1))) as [p|] eqn:Hnth;
    [|exact Hagain].
  intros H. injection H as <- <-.
  split; [eapply nth_error_In; eassumption|].
  intros answer Ha. right. assumption.
Qed.

End PromptLoops.

(** A lookup followed by a method and a plain return: the effects are
    those of the lookup followed by the method. *)
Lemma effects_bind_ret {A B C : Type} (m1 : M A) (m2 : M B) (c : C)
    (s : Client) :
  total m2 ->
  effects (_ <- m1 ;; (_ <- m2 ;; ret c)) s = effects (_ <- m1 ;; m2) s.
Proof.
  intros Htotal. unfold effects, bind, ret.
  destruct (m1 s) as [[r1 s1] t1]. destruct r1 as [a|e]; [|reflexivity].
  destruct (Htotal s1) as (b & s2 & t2 & ->). rewrite app_nil_r.
  reflexivity.
Qed.

Lemma withdraw_from_pool_total (env : Env) (pool_id : string)
    (amount : pyfloat) :
  total (withdraw_from_pool env pool_id amount).
Proof. apply total_try. intros e. apply total_ret. Qed.

(** X21: whatever is typed, [lending_flow] deposits only a validated
    amount.  When it submits a transaction, the wallet report lists a
    [SOL] token, an answer read as a number above zero and not above that
    token's balance was typed, an answer lowering to [yes] or [y] was
    typed, and the flow did what [get_sol_apy] followed by [lend_sol] of
    that amount does. *)
Theorem lending_flow_lends_validated_amount (env : Env)
    (float_of_str : string -> option pyfloat) (wallet_status : WalletStatus)
    (answers : list string) (s : Client) (tx : Transaction) :
  In tx (submitted
           (snd (lending_flow env float_of_str wallet_status answers s))) ->
  exists token value,
    hd_error (sol_tokens_of wallet_status) = Some token /\
    float_lt 0 value = true /\
    float_gt value (balance token) = false /\
    (exists text, In text answers /\ float_of_str text = Some value) /\
    (exists confirm, In confirm answers /\ confirmed confirm = true) /\
    effects (lending_flow env float_of_str wallet_status answers) s =
    effects (_ <- get_sol_apy env ;; lend_sol env value) s.
Proof.
  unfold lending_flow.
  destruct (sol_tokens_of wallet_status) as [|token others];
    [intros []|].
  cbv zeta.
  pose proof (get_sol_apy_quiet env s) as Hquiet.
  destruct (get_sol_apy_total env s) as (current_apy & s1 & t1 & Hapy).
  unfold wp in Hquiet. rewrite Hapy in Hquiet.
  destruct Hquiet as (_ & _ & _ & Hlookup).
  apply lookup_submits_nothing in Hlookup.
  destruct (ask_amount float_of_str (balance token) answers)
    as [value unread|] eqn:Hask.
  2:{ unfold bind, ret. rewrite Hapy. cbn [snd].
      rewrite submitted_app, Hlookup. intros []. }
  destruct (ask_amount_validated _ _ _ _ _ Hask)
    as (Hle & Hgt & Htyped & Hunread).
  destruct unread as [|confirm unread].
  { unfold bind, ret. rewrite Hapy. cbn [snd].
    rewrite submitted_app, Hlookup. intros []. }
  destruct (confirmed confirm) eqn:Hyes.
  2:{ unfold bind, ret. rewrite Hapy. cbn [snd].
      rewrite submitted_app, Hlookup. intros []. }
  intros Hin. exists token, value.
  assert (Heffects :
            effects (_ <- get_sol_apy env ;;
                     (_ <- lend_sol env value ;; ret (Done tt unread))) s =
            effects (_ <- get_sol_apy env ;; lend_sol env value) s)
    by (apply effects_bind_ret; apply lend_sol_total).
  split; [reflexivity|]. split.
  - pose proof (lend_sol_submits env value s1) as Hsub.
    destruct (lend_sol_total env value s1) as (b & s2 & t2 & Hlend).
    unfold wp in Hsub. rewrite Hlend in Hsub.
    unfold bind, ret in Hin. rewrite Hapy, Hlend in Hin. cbn [snd] in Hin.
    rewrite !submitted_app, Hlookup in Hin. cbn [app] in Hin.
    destruct Hsub as [Hnone|(lamports & ? & ? & ? & ? & Hamount & _)].
    + rewrite Hnone in Hin. destruct Hin.
    + exact (number_above_zero value lamports Hle Hamount).
  - split; [exact Hgt|]. split; [exact Htyped|].
    split; [|exact Heffects].
    exists confirm. split; [apply Hunread; left; reflexivity|exact Hyes].
Qed.

Lemma lending_flow_lends_validated_amount_witness :
  exists token value,
    hd_error (sol_tokens_of sample_wallet_status) = Some token /\
    float_lt 0 value = true /\
    float_gt value (balance token) = false /\
    (exists text,
       In text ["-1"; ""; "0.5"; "YES"]%string /\
       sample_float_of_str text = Some value) /\
    (exists confirm,
       In confirm ["-1"; ""; "0.5"; "YES"]%string /\
       confirmed confirm = true) /\
    effects (lending_flow sample_env sample_float_of_str sample_wallet_status
               ["-1"; ""; "0.5"; "YES"]%string) fresh_client =
    effects (_ <- get_sol_apy sample_env ;; lend_sol sample_env value)
            fresh_client.
Proof.
  assert (Hsent :
            exists tx,
              In tx (submitted
                       (snd (lending_flow sample_env sample_float_of_str
                               sample_wallet_status
                               ["-1"; ""; "0.5"; "YES"]%string
                               fresh_client)))).
  { vm_compute. eexists. left. reflexivity. }
  destruct Hsent as [tx Hin].
  exact (lending_flow_lends_validated_amount sample_env sample_float_of_str
           sample_wallet_status ["-1"; ""; "0.5"; "YES"]%string fresh_client
           tx Hin).
Defined.

(** X22: whatever is typed, [withdrawal_flow] withdraws only a validated
    amount.  When it submits a transaction, a listed position was
    selected, an answer read as a number above zero and not above that
    position's amount was typed, an answer lowering to [yes] or [y] was
    typed, and the flow did what [withdraw_from_pool] of that amount
    does, with the empty pool id. *)
Theorem withdrawal_flow_withdraws_validated_amount (env : Env)
    (float_of_str : string -> option pyfloat)
    (int_of_str : string -> option Z) (report : Positions)
    (answers : list string) (s : Client) (tx : Transaction) :
  In tx (submitted
           (snd (withdrawal_flow env float_of_str int_of_str report answers
                   s))) ->
  exists selected value,
    In selected (positions report) /\
    float_lt 0 value = true /\
    float_gt value (amount selected) = false /\
    (exists text, In text answers /\ float_of_str text = Some value) /\
    (exists confirm, In confirm answers /\ confirmed confirm = true) /\
    effects (withdrawal_flow env float_of_str int_of_str report answers) s =
    effects (withdraw_from_pool env "" value) s.
Proof.
  unfold withdrawal_flow.
  destruct (positions report) as [|first others] eqn:Hlisted;
    [intros []|].
  destruct (ask_position int_of_str (first :: others) answers)
    as [selected unread1|] eqn:Hselect; [|intros []].
  destruct (ask_position_selects _ _ _ _ _ Hselect) as (Hsel & Hunread1).
  cbv zeta.
  destruct (ask_amount float_of_str (amount selected) unread1)
    as [value unread|] eqn:Hask; [|intros []].
  destruct (ask_amount_validated _ _ _ _ _ Hask)
    as (Hle & Hgt & (text & Htext & Hparsed) & Hunread).
  destruct unread as [|confirm unread]; [intros []|].
  destruct (confirmed confirm) eqn:Hyes; [|intros []].
  intros Hin. exists selected, value.
  pose proof (withdraw_from_pool_submits env "" value s) as Hsub.
  destruct (withdraw_from_pool_total env "" value s)
    as (b & s2 & t2 & Hrun).
  unfold wp in Hsub. rewrite Hrun in Hsub.
  unfold bind, ret in Hin. rewrite Hrun in Hin. cbn [snd] in Hin.
  rewrite app_nil_r in Hin.
  split; [exact Hsel|]. split.
  - destruct Hsub as [Hnone|(lamports & ? & ? & ? & ? & ? & Hamount & _)].
    + rewrite Hnone in Hin. destruct Hin.
    + exact (number_above_zero value lamports Hle Hamount).
  - split; [exact Hgt|]. split; [exists text; auto|].
    split.
    + exists confirm. split; [|exact Hyes].
      apply Hunread1. apply Hunread. left. reflexivity.
    + unfold effects, bind, ret. rewrite Hrun. rewrite app_nil_r.
      reflexivity.
Qed.

Lemma withdrawal_flow_withdraws_validated_amount_witness :
  exists selected value,
    In selected [placeholder_position 0.5 0.2] /\
    float_lt 0 value = true /\
    float_gt value (amount selected) = false /\
    (exists text,
       In text ["x"; "1"; "-1"; "0.01"; "y"]%string /\
       sample_float_of_str text = Some value) /\
    (exists confirm,
       In confirm ["x"; "1"; "-1"; "0.01"; "y"]%string /\
       confirmed confirm = true) /\
    effects (withdrawal_flow sample_env sample_float_of_str sample_int_of_str
               (mkPositions [placeholder_position 0.5 0.2] 50)
               ["x"; "1"; "-1"; "0.01"; "y"]%string) populated_client =
    effects (withdraw_from_pool sample_env "" value) populated_client.
Proof.
  assert (Hsent :
            exists tx,
              In tx (submitted
                       (snd (withdrawal_flow sample_env sample_float_of_str
                               sample_int_of_str
                               (mkPositions [placeholder_position 0.5 0.2] 50)
                               ["x"; "1"; "-1"; "0.01"; "y"]%string
                               populated_client)))).
  { vm_compute. eexists. left. reflexivity. }
  destruct Hsent as [tx Hin].
  exact (withdrawal_flow_withdraws_validated_amount sample_env
           sample_float_of_str sample_int_of_str
           (mkPositions [placeholder_position 0.5 0.2] 50)
           ["x"; "1"; "-1"; "0.01"; "y"]%string populated_client tx Hin).
Defined.

(** ** The menu *)

Section MenuLoops.

Variable float_of_str : string -> option pyfloat.
Variable int_of_str : string -> option Z.

Lemma ask_amount_shortens (max_amount : pyfloat) (answers : list string)
    (value : pyfloat) (unread : list string) :
  ask_amount float_of_str max_amount answers = Done value unread ->
  (length unread < length answers)%nat.
Proof.
  induction answers as [|amount_input rest IH]; cbn [ask_amount];
    [discriminate|].
  assert (Hagain :
            ask_amount float_of_str max_amount rest = Done value unread ->
            (length unread < length (amount_input :: rest))%nat)
    by (intros H; specialize (IH H); cbn [length]; lia).
  destruct (String.eqb amount_input ""); [exact Hagain|].
  destruct (float_of_str amount_input) as [parsed|]; [|exact Hagain].
  destruct (float_le parsed 0); [exact Hagain|].
  destruct (float_gt parsed max_amount); [exact Hagain|].
  intros H. injection H as <- <-. cbn [length]. lia.
Qed.

Lemma ask_position_shortens (listed : list Position) (answers : list string)
    (selected : Position) (unread : list string) :
  ask_position int_of_str listed answers = Done selected unread ->
  (length unread < length answers)%nat.
Proof.
  induction answers as [|choice rest IH]; cbn [ask_position];
    [discriminate|].
  assert (Hagain :
            ask_position int_of_str listed rest = Done selected unread ->
            (length unread < length (choice :: rest))%nat)
    by (intros H; specialize (IH H); cbn [length]; lia).
  destruct (String.eqb choice ""); [exact Hagain|].
  destruct (int_of_str choice) as [n|]; [|exact Hagain].
  cbv zeta.
  destruct ((0 <=? n - 1) && (n - 1 <? Z.of_nat (length listed)));
    [|exact Hagain].
  destruct (nth_error listed (Z.to_nat (n - 1))); [|exact Hagain].
  intros H. injection H as <- <-. cbn [length]. lia.
Qed.

End MenuLoops.

Lemma reads_from_done {A : Type} (answers unread : list string) (a : A)
    (t : list event) :
  (length unread <= length answers)%nat ->
  (forall answer, In answer unread -> In answer answers) ->
  ((forall answer, In answer answers -> confirmed answer = false) ->
   submitted t = []) ->
  reads_from answers (Ret (Done a unread)) t.
Proof.
  intros Hlen Hin Hsub. split; [|exact Hsub].
  intros a' unread' H. injection H as <- <-. auto.
Qed.

Lemma reads_from_eof {A : Type} (answers : list string) (t : list event) :
  submitted t = [] -> reads_from answers (Ret (@EOFError A)) t.
Proof. intros Hsub. split; [intros a unread H; discriminate|auto]. Qed.

Lemma lending_flow_reads (env : Env)
    (float_of_str : string -> option pyfloat) (wallet_status : WalletStatus)
    (answers : list string) (s : Client) :
  wp (lending_flow env float_of_str wallet_status answers)
     (fun r _ t => reads_from answers r t) s.
Proof.
  unfold lending_flow.
  destruct (sol_tokens_of wallet_status) as [|token others].
  { apply wp_ret. apply reads_from_done; auto. }
  cbv zeta. apply wp_bind.
  apply (wp_call quiet); [apply get_sol_apy_total|apply get_sol_apy_quiet|].
  intros current_apy s1 t1 (_ & _ & _ & Hev).
  apply lookup_submits_nothing in Hev.
  destruct (ask_amount float_of_str (balance token) answers)
    as [value unread|] eqn:Hask.
  2:{ apply wp_ret. apply reads_from_eof. rewrite app_nil_r. exact Hev. }
  pose proof (ask_amount_shortens _ _ _ _ _ Hask) as Hlen.
  destruct (ask_amount_validated _ _ _ _ _ Hask) as (_ & _ & _ & Hunread).
  destruct unread as [|confirm unread].
  { apply wp_ret. apply reads_from_eof. rewrite app_nil_r. exact Hev. }
  cbn [length] in Hlen.
  destruct (confirmed confirm) eqn:Hyes.
  - apply wp_bind.
    apply (wp_call anything); [apply lend_sol_total|apply stable_anything|].
    intros success s2 t2 _. apply wp_ret. apply reads_from_done.
    + lia.
    + intros answer Ha. apply Hunread. right. exact Ha.
    + intros Hnone.
      rewrite (Hnone confirm) in Hyes; [discriminate|].
      apply Hunread. left. reflexivity.
  - apply wp_ret. apply reads_from_done.
    + lia.
    + intros answer Ha. apply Hunread. right. exact Ha.
    + intros _. rewrite app_nil_r. exact Hev.
Qed.

Lemma withdrawal_flow_reads (env : Env)
    (float_of_str : string -> option pyfloat)
    (int_of_str : string -> option Z) (report : Positions)
    (answers : list string) (s : Client) :
  wp (withdrawal_flow env float_of_str int_of_str report answers)
     (fun r _ t => reads_from answers r t) s.
Proof.
  unfold withdrawal_flow.
  destruct (positions report) as [|first others].
  { apply wp_ret. apply reads_from_done; auto. }
  destruct (ask_position int_of_str (first :: others) answers)
    as [selected unread1|] eqn:Hselect.
  2:{ apply wp_ret. apply reads_from_eof. reflexivity. }
  pose proof (ask_position_shortens _ _ _ _ _ Hselect) as Hlen1.
  destruct (ask_position_selects _ _ _ _ _ Hselect) as (_ & Hunread1).
  cbv zeta.
  destruct (ask_amount float_of_str (amount selected) unread1)
    as [value unread|] eqn:Hask.
  2:{ apply wp_ret. apply reads_from_eof. reflexivity. }
  pose proof (ask_amount_shortens _ _ _ _ _ Hask) as Hlen.
  destruct (ask_amount_validated _ _ _ _ _ Hask) as (_ & _ & _ & Hunread).
  destruct unread as [|confirm unread].
  { apply wp_ret. apply reads_from_eof. reflexivity. }
  cbn [length] in Hlen.
  destruct (confirmed confirm) eqn:Hyes.
  - apply wp_bind.
    apply (wp_call anything);
      [apply withdraw_from_pool_total|apply stable_anything|].
    intros success s2 t2 _. apply wp_ret. apply reads_from_done.
    + lia.
    + intros answer Ha. apply Hunread1, Hunread. right. exact Ha.
    + intros Hnone.
      rewrite (Hnone confirm) in Hyes; [discriminate|].
      apply Hunread1, Hunread. left. reflexivity.
  - apply wp_ret. apply reads_from_done.
    + lia.
    + intros answer Ha. apply Hunread1, Hunread. right. exact Ha.
    + intros _. reflexivity.
Qed.

Lemma get_marginfi_positions_total (env : Env) :
  total (get_marginfi_positions env).
Proof. apply total_try. intros e. apply total_ret. Qed.

(** The two status requests that follow a flow, then the rest of the
    loop. *)
Lemma wp_refresh {A : Type} (env : Env)
    (k : WalletStatus -> Positions -> M A)
    (Q : Res A -> Client -> list event -> Prop) (s : Client) :
  (forall wallet_status marginfi_positions s' t,
      submitted t = [] ->
      wp (k wallet_status marginfi_positions)
         (fun r s2 t2 => Q r s2 (t ++ t2)) s') ->
  wp (wallet_status <- get_wallet_status env ;;
      marginfi_positions <- get_marginfi_positions env ;;
      k wallet_status marginfi_positions) Q s.
Proof.
  intros Hk. apply wp_bind.
  apply (wp_call quiet);
    [apply get_wallet_status_total|apply get_wallet_status_quiet|].
  intros wallet_status s1 t1 (_ & _ & _ & Hev1).
  apply lookup_submits_nothing in Hev1.
  apply wp_bind.
  apply (wp_call quiet);
    [apply get_marginfi_positions_total|apply get_marginfi_positions_quiet|].
  intros marginfi_positions s2 t2 (_ & _ & _ & Hev2).
  apply lookup_submits_nothing in Hev2.
  eapply wp_mono;
    [apply (Hk wallet_status marginfi_positions s2 (t1 ++ t2));
     rewrite submitted_app, Hev1, Hev2; reflexivity|].
  cbv beta. intros r s3 t3 H. rewrite <- app_assoc in H. exact H.
Qed.

Lemma menu_loop_unconfirmed (env : Env)
    (float_of_str : string -> option pyfloat)
    (int_of_str : string -> option Z) (turns : nat) :
  forall (wallet_status : WalletStatus) (marginfi_positions : Positions)
         (answers : list string) (s : Client),
    (forall answer, In answer answers -> confirmed answer = false) ->
    wp (menu_loop env float_of_str int_of_str turns wallet_status
          marginfi_positions answers)
       (fun _ _ t => submitted t = []) s.
Proof.
  induction turns as [|turns IH]; intros wallet_status marginfi_positions
    answers s Hnone; destruct answers as [|choice rest]; cbn [menu_loop];
    try (apply wp_ret; reflexivity).
  assert (Hrest : forall answer, In answer rest -> confirmed answer = false)
    by (intros answer Ha; apply Hnone; right; exact Ha).
  assert (Hflow :
            forall (flow : M (console unit)) s0,
              wp flow (fun r _ t => reads_from rest r t) s0 ->
              wp (outcome <- flow ;;
                  match outcome with
                  | EOFError => ret EOFError
                  | Done _ rest =>
                      wallet_status <- get_wallet_status env ;;
                      marginfi_positions <- get_marginfi_positions env ;;
                      menu_loop env float_of_str int_of_str turns
                        wallet_status marginfi_positions rest
                  end)
                 (fun _ _ t => submitted t = []) s0).
  { intros flow s0 Hreads. apply wp_bind.
    eapply wp_mono; [exact Hreads|]. cbv beta.
    intros r s1 t1 [Hread Hsub]. specialize (Hsub Hrest).
    destruct r as [[u unread|]|e]; [| |exact Hsub].
    - destruct (Hread u unread eq_refl) as [_ Hunread].
      apply wp_refresh. intros ws mp s2 t2 Ht2.
      eapply wp_mono; [apply IH; auto|]. cbv beta.
      intros r3 s3 t3 Ht3. rewrite !submitted_app, Hsub, Ht2, Ht3.
      reflexivity.
    - apply wp_ret. rewrite app_nil_r. exact Hsub. }
  destruct (String.eqb choice "1");
    [apply Hflow; apply lending_flow_reads|].
  destruct (String.eqb choice "2");
    [apply Hflow; apply withdrawal_flow_reads|].
  destruct (String.eqb choice "3").
  { apply wp_refresh. intros ws mp s2 t2 Ht2.
    eapply wp_mono; [apply IH; exact Hrest|]. cbv beta.
    intros r3 s3 t3 Ht3. rewrite submitted_app, Ht2, Ht3. reflexivity. }
  destruct (String.eqb choice "4"); [apply wp_ret; reflexivity|].
  apply IH. exact Hrest.
Qed.

(** Sequencing depends on what follows only where the first method
    returns. *)
Lemma bind_cong {A B : Type} (m : M A) (f g : A -> M B) (s : Client) :
  (forall a s1 t1, m s = (Ret a, s1, t1) -> f a s1 = g a s1) ->
  bind m f s = bind m g s.
Proof.
  intros H. unfold bind. destruct (m s) as [[[a|e] s1] t1]; [|reflexivity].
  rewrite (H a s1 t1 eq_refl). reflexivity.
Qed.

(** The bound on the turns is never what stops the loop: any two bounds
    at or above the number of answers give the same run. *)
Lemma menu_loop_turns (env : Env) (float_of_str : string -> option pyfloat)
    (int_of_str : string -> option Z) (turns1 : nat) :
  forall (turns2 : nat) (wallet_status : WalletStatus)
         (marginfi_positions : Positions) (answers : list string)
         (s : Client),
    (length answers <= turns1)%nat -> (length answers <= turns2)%nat ->
    menu_loop env float_of_str int_of_str turns1 wallet_status
      marginfi_positions answers s =
    menu_loop env float_of_str int_of_str turns2 wallet_status
      marginfi_positions answers s.
Proof.
  induction turns1 as [|turns1 IH]; intros turns2 wallet_status
    marginfi_positions answers s H1 H2;
    destruct answers as [|choice rest]; cbn [length] in *;
    try lia; destruct turns2 as [|turns2]; try lia; try reflexivity.
  cbn [menu_loop].
  assert (Hnext :
            forall ws mp unread s0,
              (length unread <= length rest)%nat ->
              menu_loop env float_of_str int_of_str turns1 ws mp unread s0 =
              menu_loop env float_of_str int_of_str turns2 ws mp unread s0)
    by (intros; apply IH; lia).
  assert (Hrefresh :
            forall unread s0,
              (length unread <= length rest)%nat ->
              (wallet_status <- get_wallet_status env ;;
               marginfi_positions <- get_marginfi_positions env ;;
               menu_loop env float_of_str int_of_str turns1 wallet_status
                 marginfi_positions unread) s0 =
              (wallet_status <- get_wallet_status env ;;
               marginfi_positions <- get_marginfi_positions env ;;
               menu_loop env float_of_str int_of_str turns2 wallet_status
                 marginfi_positions unread) s0).
  { intros unread s0 Hlen. apply bind_cong. intros ws s1 t1 _.
    apply bind_cong. intros mp s2 t2 _. apply Hnext. exact Hlen. }
  assert (Hflow :
            forall (flow : M (console unit)),
              wp flow (fun r _ t => reads_from rest r t) s ->
              (outcome <- flow ;;
               match outcome with
               | EOFError => ret EOFError
               | Done _ rest =>
                   wallet_status <- get_wallet_status env ;;
                   marginfi_positions <- get_marginfi_positions env ;;
                   menu_loop env float_of_str int_of_str turns1
                     wallet_status marginfi_positions rest
               end) s =
              (outcome <- flow ;;
               match outcome with
               | EOFError => ret EOFError
               | Done _ rest =>
                   wallet_status <- get_wallet_status env ;;
                   marginfi_positions <- get_marginfi_positions env ;;
                   menu_loop env float_of_str int_of_str turns2
                     wallet_status marginfi_positions rest
               end) s).
  { intros flow Hreads. apply bind_cong. intros outcome s1 t1 Hrun.
    unfold wp in Hreads. rewrite Hrun in Hreads.
    destruct Hreads as [Hread _].
    destruct outcome as [u unread|]; [|reflexivity].
    destruct (Hread u unread eq_refl) as [Hlen _].
    apply Hrefresh. exact Hlen. }
  destruct (String.eqb choice "1");
    [apply Hflow; apply lending_flow_reads|].
  destruct (String.eqb choice "2");
    [apply Hflow; apply withdrawal_flow_reads|].
  destruct (String.eqb choice "3"); [apply Hrefresh; lia|].
  destruct (String.eqb choice "4"); [reflexivity|].
  apply Hnext. lia.
Qed.

(** X23: outside test mode the program sends nothing the user did not
    confirm: when no answer typed lowers to [yes] or [y], [main_menu]
    submits no transaction, whatever else is typed and whatever the
    backend answers. *)
Theorem main_menu_sends_only_on_confirmation (env : Env)
    (float_of_str : string -> option pyfloat)
    (int_of_str : string -> option Z) (answers : list string) (s : Client) :
  test_mode s = false ->
  (forall answer, In answer answers -> confirmed answer = false) ->
  submitted (snd (main_menu env float_of_str int_of_str answers s)) = [].
Proof.
  intros Hmode Hnone.
  assert (H : wp (main_menu env float_of_str int_of_str answers)
                (fun _ _ t => submitted t = []) s).
  { unfold main_menu. apply wp_bind. apply wp_get_self. rewrite Hmode.
    apply wp_refresh. intros ws mp s2 t2 Ht2. apply wp_bind.
    eapply wp_mono; [apply menu_loop_unconfirmed; exact Hnone|]. cbv beta.
    intros r s3 t3 Ht3.
    destruct r as [[u unread|]|e].
    - apply wp_ret. rewrite !submitted_app, Ht2, Ht3. reflexivity.
    - apply wp_ret. rewrite !submitted_app, Ht2, Ht3. reflexivity.
    - rewrite !submitted_app, Ht2, Ht3. reflexivity. }
  unfold wp in H.
  destruct (main_menu env float_of_str int_of_str answers s) as [[r s'] t].
  exact H.
Qed.

Lemma main_menu_sends_only_on_confirmation_witness :
  submitted
    (snd (main_menu sample_env sample_float_of_str sample_int_of_str
            ["1"; "0.5"; "no"; "3"; "4"]%string fresh_client)) = [].
Proof.
  apply (main_menu_sends_only_on_confirmation sample_env sample_float_of_str
           sample_int_of_str ["1"; "0.5"; "no"; "3"; "4"]%string
           fresh_client).
  - reflexivity.
  - intros answer Hin. cbn in Hin.
    repeat (destruct Hin as [<-|Hin]; [reflexivity|]). destruct Hin.
Defined.
